(** * MD Creations: a shallow embedding of [app.py]

    The Flask application is a set of request handlers over one SQLite
    database, a session cookie, the flashed notices and the upload folder.
    A handler is modelled as a function from the request and that world to a
    response and the new world.

    Conventions of the model:
    - a Python [str] is a [string]; one [ascii] stands for one code point
      (the code points 0..255);
    - [db.Float] columns and Python floats are IEEE binary64: [PrimFloat.float];
    - integer columns and Python ints are [Z]; a [DateTime] is a [Z] (a count
      of microseconds);
    - a table is the list of its rows in insertion order;
    - the request has already been matched by Flask's URL map, so a handler
      receives the arguments of its rule and the request envelope;
    - an exception that leaves a handler is the response [Abort 500]: what
      was committed stays, the notices flashed during the request go with
      its session;
    - every page template extends a layout that no template loader knows,
      so a handler that comes to render a page ends in that exception. *)

From Stdlib Require Import PrimFloat Uint63 ZArith Lia Bool List String Ascii.
From Stdlib Require Import DecimalString.
From Stdlib Require Import Permutation Sorted.
Import ListNotations.
Open Scope string_scope.
Open Scope Z_scope.
Open Scope list_scope.
Set Warnings "-inexact-float".

(** ** Python and SQLite strings *)

Module Str.

Definition code (c : ascii) : nat := nat_of_ascii c.

(** [str.isspace] on the code points below 256. *)
Definition is_space (c : ascii) : bool :=
  let n := code c in
  (((9 <=? n) && (n <=? 13)) || ((28 <=? n) && (n <=? 32))
   || (n =? 133) || (n =? 160))%nat.

Fixpoint all_space (s : string) : bool :=
  match s with
  | EmptyString => true
  | String c r => is_space c && all_space r
  end.

(** Truth value of a Python string. *)
Definition truthy (s : string) : bool := negb (s =? "")%string.

(** Truth value of [s.strip()]. *)
Definition strip_truthy (s : string) : bool := negb (all_space s).

Definition len (s : string) : Z := Z.of_nat (String.length s).

(** [str.lower] on the code points below 256: A-Z and the Latin-1 capitals
    (all of 0xC0..0xDE but the multiplication sign) move up by 32. *)
Definition lower_char (c : ascii) : ascii :=
  let n := code c in
  if (((65 <=? n) && (n <=? 90))
      || ((192 <=? n) && (n <=? 222) && negb (n =? 215)))%nat
  then ascii_of_nat (n + 32) else c.

Fixpoint lower (s : string) : string :=
  match s with
  | EmptyString => EmptyString
  | String c r => String (lower_char c) (lower r)
  end.

(** [c in s] for a one-character [c]. *)
Fixpoint contains_char (c : ascii) (s : string) : bool :=
  match s with
  | EmptyString => false
  | String d r => Ascii.eqb c d || contains_char c r
  end.

(** [s.rsplit(c, 1)[1]]: what follows the last [c]; [None] stands for the
    [IndexError] Python raises when [s] has no [c]. *)
Fixpoint rsplit1_last (c : ascii) (s : string) : option string :=
  match s with
  | EmptyString => None
  | String d r =>
      match rsplit1_last c r with
      | Some t => Some t
      | None => if Ascii.eqb c d then Some r else None
      end
  end.

(** [x in xs] for strings. *)
Definition mem (x : string) (xs : list string) : bool :=
  existsb (String.eqb x) xs.

(** [int(s)] on a string of decimal digits. *)
Definition digit (c : ascii) : option Z :=
  let n := code c in
  if ((48 <=? n) && (n <=? 57))%nat then Some (Z.of_nat n - 48) else None.

Fixpoint digits (s : string) (acc : Z) : option Z :=
  match s with
  | EmptyString => Some acc
  | String c r =>
      match digit c with
      | Some d => digits r (10 * acc + d)
      | None => None
      end
  end.

Definition int (s : string) : option Z :=
  match s with
  | EmptyString => None
  | _ => digits s 0
  end.

(** [urlsplit] on an absolute URL [scheme://netloc/path?query]: the path and
    the query, put together again as [urlunsplit(('', '', path, query, ''))]
    does; this is Flask-Login's [make_next_param] for a login view on the
    same host. *)
Fixpoint from_char (stop : ascii -> bool) (s : string) : string :=
  match s with
  | EmptyString => EmptyString
  | String c r => if stop c then s else from_char stop r
  end.

Fixpoint until_char (stop : ascii -> bool) (s : string) : string :=
  match s with
  | EmptyString => EmptyString
  | String c r => if stop c then EmptyString else String c (until_char stop r)
  end.

Definition is_char (c d : ascii) : bool := Ascii.eqb c d.

Definition after_scheme (url : string) : string :=
  match from_char (is_char ":") url with
  | String _ (String a (String b r)) =>
      if is_char "/" a && is_char "/" b then r else url
  | _ => url
  end.

Definition path_and_query (url : string) : string :=
  let ends_netloc c := is_char "/" c || is_char "?" c || is_char "#" c in
  let ends_path c := is_char "?" c || is_char "#" c in
  let rest := from_char ends_netloc (after_scheme url) in
  let path := until_char ends_path rest in
  let query :=
    match from_char ends_path rest with
    | String c r => if is_char "?" c then until_char (is_char "#") r
                    else EmptyString
    | EmptyString => EmptyString
    end in
  if truthy query then (path ++ "?" ++ query)%string else path.

(** [str(n)] for an int. *)
Definition of_int (n : Z) : string := NilZero.string_of_int (Z.to_int n).

End Str.

(** SQLite: [lower()] and [LIKE] fold the 26 ASCII letters only; in a [LIKE]
    pattern [%] stands for any run of characters and [_] for any one
    character, and there is no escape character unless one is declared.
    [LIKE] reads the pattern and the text as C strings, up to the first NUL,
    and refuses a pattern of more than 50000 bytes. *)
Module Sqlite.

Definition lower_char (c : ascii) : ascii :=
  let n := Str.code c in
  if ((65 <=? n) && (n <=? 90))%nat then ascii_of_nat (n + 32) else c.

Definition lower (l : list ascii) : list ascii := map lower_char l.

Definition percent : ascii := "%"%char.
Definition underscore : ascii := "_"%char.

Fixpoint like (pattern : list ascii) : list ascii -> bool :=
  match pattern with
  | [] => fun s => match s with [] => true | _ :: _ => false end
  | c :: p =>
      if Ascii.eqb c percent then
        fix any (s : list ascii) : bool :=
          like p s || match s with [] => false | _ :: r => any r end
      else if Ascii.eqb c underscore then
        fun s => match s with [] => false | _ :: r => like p r end
      else
        fun s =>
          match s with
          | [] => false
          | d :: r => Ascii.eqb (lower_char c) (lower_char d) && like p r
          end
  end.

Definition nul : ascii := Ascii.zero.

(** The characters before the first NUL. *)
Fixpoint cstring (l : list ascii) : list ascii :=
  match l with
  | [] => []
  | c :: r => if Ascii.eqb c nul then [] else c :: cstring r
  end.

(** SQLAlchemy compiles [column.ilike(pattern)] for SQLite to
    [lower(column) LIKE lower(pattern)]. *)
Definition ilike (column pattern : string) : bool :=
  like (cstring (lower (list_ascii_of_string pattern)))
       (cstring (lower (list_ascii_of_string column))).

(** The length of a text in bytes (UTF-8: two bytes from code point 128
    on), and the test [LIKE] makes on its pattern before it runs:
    [SQLITE_MAX_LIKE_PATTERN_LENGTH] is 50000. *)
Fixpoint utf8_bytes (s : string) : Z :=
  match s with
  | EmptyString => 0
  | String c r => (if (Str.code c <? 128)%nat then 1 else 2) + utf8_bytes r
  end.

Definition pattern_accepted (pattern : string) : bool :=
  utf8_bytes pattern <=? 50000.

End Sqlite.

(** Stable insertion sort, for [ORDER BY] and [sorted]. *)
Section Sort.
Context {A : Type} (le : A -> A -> bool).

Fixpoint insert_sorted (x : A) (l : list A) : list A :=
  match l with
  | [] => [x]
  | y :: r => if le x y then x :: l else y :: insert_sorted x r
  end.

Fixpoint sort_by (l : list A) : list A :=
  match l with
  | [] => []
  | x :: r => insert_sorted x (sort_by r)
  end.
End Sort.

(** ** Floats *)

(** [float(q)] for an integer [q]. *)
Definition float_of_int (q : Z) : float :=
  if q <? 0 then PrimFloat.opp (PrimFloat.of_uint63 (Uint63.of_Z (- q)))
  else PrimFloat.of_uint63 (Uint63.of_Z q).

(** [p * q] for a float [p] and an int [q]: Python converts the int. *)
Definition float_mul_int (p : float) (q : Z) : float :=
  PrimFloat.mul p (float_of_int q).

(** ** Database models *)

Module User.
Record t := mk {
  id : Z;
  username : string;
  email : string;
  password_hash : option string;
  is_admin : bool
}.
End User.

Module Product.
Record t := mk {
  id : Z;
  name : string;
  category : string;
  material : string;
  price : float;
  description : string;
  image_filename : option string;
  date_added : Z
}.
End Product.

Module Order.
Record t := mk {
  id : Z;
  user_id : Z;
  order_date : Z;
  total_price : float;
  customer_name : string;
  customer_address : string;
  customer_contact : string;
  status : string
}.

Definition set_status (o : t) (s : string) : t :=
  mk (id o) (user_id o) (order_date o) (total_price o) (customer_name o)
     (customer_address o) (customer_contact o) s.
End Order.

Module OrderItem.
Record t := mk {
  id : Z;
  order_id : Z;
  product_id : Z;
  quantity : Z;
  price_at_order : float
}.
End OrderItem.

Module Message.
Record t := mk {
  id : Z;
  sender_id : Z;
  receiver_id : option Z;
  message_text : string;
  timestamp : Z;
  is_read : bool
}.

Definition set_is_read (m : t) (b : bool) : t :=
  mk (id m) (sender_id m) (receiver_id m) (message_text m) (timestamp m) b.
End Message.

(** The five tables of [site.db]. *)
Record DB := mkDB {
  users : list User.t;
  products : list Product.t;
  orders : list Order.t;
  order_items : list OrderItem.t;
  messages : list Message.t
}.

Definition with_users (d : DB) (x : list User.t) : DB :=
  mkDB x (products d) (orders d) (order_items d) (messages d).
Definition with_products (d : DB) (x : list Product.t) : DB :=
  mkDB (users d) x (orders d) (order_items d) (messages d).
Definition with_orders (d : DB) (x : list Order.t) : DB :=
  mkDB (users d) (products d) x (order_items d) (messages d).
Definition with_order_items (d : DB) (x : list OrderItem.t) : DB :=
  mkDB (users d) (products d) (orders d) x (messages d).
Definition with_messages (d : DB) (x : list Message.t) : DB :=
  mkDB (users d) (products d) (orders d) (order_items d) x.

(** *** Queries *)

Section Table.
Context {R : Type} (id : R -> Z).

(** [Model.query.get(k)]: the row of key [k].  The keys of the rows are
    SQLite's 64-bit integers; for what happens when no row is found see
    [missing]. *)
Definition get (rows : list R) (k : Z) : option R :=
  find (fun r => id r =? k) rows.

(** The primary key SQLite gives the next row: one more than the largest. *)
Definition next_id (rows : list R) : Z :=
  1 + fold_right (fun r m => Z.max (id r) m) 0 rows.

(** An attribute assignment on a loaded row followed by [commit]:
    [UPDATE ... WHERE id = k]. *)
Definition update (k : Z) (f : R -> R) (rows : list R) : list R :=
  map (fun r => if id r =? k then f r else r) rows.

(** [db.session.delete(row)] followed by [commit]. *)
Definition delete (k : Z) (rows : list R) : list R :=
  filter (fun r => negb (id r =? k)) rows.
End Table.

(** A key that is not a 64-bit integer cannot be bound to the query: the
    sqlite3 module raises [OverflowError].  [missing k] is how a lookup that
    finds no row ends: [abort(404)] for [get_or_404], or a server error. *)
Definition int64 (k : Z) : bool := (- 2 ^ 63 <=? k) && (k <? 2 ^ 63).

Definition missing (k : Z) : Z := if int64 k then 404 else 500.

Definition opt_eqb (a : option Z) (k : Z) : bool :=
  match a with Some x => x =? k | None => false end.

(** The filter both message pages use: the messages between [a] and [b],
    ordered by timestamp. *)
Definition between (a b : Z) (m : Message.t) : bool :=
  ((Message.sender_id m =? a) && opt_eqb (Message.receiver_id m) b)
  || ((Message.sender_id m =? b) && opt_eqb (Message.receiver_id m) a).

Definition conversation (d : DB) (a b : Z) : list Message.t :=
  sort_by (fun x y => Message.timestamp x <=? Message.timestamp y)
          (filter (between a b) (messages d)).

(** ** Requests, responses and the world *)

Inductive Method := GET | POST.

(** What a handler reads from the request besides its arguments;
    [csrf_valid] says whether the form's CSRF token checks out, [now] is
    [datetime.utcnow()], [salt] the randomness of [generate_password_hash]. *)
Record Request := mkRequest {
  method : Method;
  csrf_valid : bool;
  url : string;
  now : Z;
  salt : string
}.

(** An uploaded file ([request.files.get('image')]). *)
Record FileStorage := mkFile { filename : string }.

Inductive Location :=
| To_home
| To_login (next : option string)
| To_user_profile
| To_messages
| To_admin_products
| To_admin_orders
| To_admin_messages (user_id : Z)
| To_url (u : string).

(** What each template is to be rendered with. *)
Inductive View :=
| Index (featured_products : list Product.t)
| Products (products : list Product.t) (categories materials : list string)
| ProductDetail (product : Product.t)
| Signup
| Login
| UserProfile (user : User.t) (orders : list Order.t)
| UserMessages (messages : list Message.t)
| AdminDashboard (total_products total_users total_orders pending_orders : Z)
| AdminProducts (products : list Product.t)
| AddProduct
| EditProduct (product : Product.t)
| AdminOrders (orders : list Order.t)
| AdminUsers (users : list User.t)
| AdminMessages (users_with_messages : list User.t)
                (selected_user : option User.t) (messages : list Message.t).

(** How a view function ends: in [redirect(...)], or in [abort(code)];
    [Abort 500] also stands for an exception that leaves the function.  No
    view function returns a page, see [render_template_string]. *)
Inductive Response :=
| Redirect (l : Location)
| Abort (code : Z).

(** A flashed notice: the text and its category. *)
Definition Flash : Type := string * string.

Record World := mkWorld {
  db : DB;
  upload_folder : list string;
  session : option Z;
  flashes : list Flash
}.

Definition with_db (w : World) (d : DB) : World :=
  mkWorld d (upload_folder w) (session w) (flashes w).
Definition with_files (w : World) (fs : list string) : World :=
  mkWorld (db w) fs (session w) (flashes w).
Definition with_session (w : World) (s : option Z) : World :=
  mkWorld (db w) (upload_folder w) s (flashes w).

Definition flash (message category : string) (w : World) : World :=
  mkWorld (db w) (upload_folder w) (session w)
          (flashes w ++ [(message, category)]).

(** [load_user] on the id in the session; [None] is the anonymous user. *)
Definition current_user (w : World) : option User.t :=
  match session w with
  | Some uid => get User.id (users (db w)) uid
  | None => None
  end.

Definition login_user (u : User.t) (w : World) : World :=
  with_session w (Some (User.id u)).
Definition logout_user (w : World) : World := with_session w None.

Definition Handler : Type := Request -> World -> Response * World.

(** A request that ends in an exception: the rows and files written so far
    stay, the session of the request, and with it the notices flashed, is
    not sent back. *)
Definition raised (start w : World) : Response * World :=
  (Abort 500, mkWorld (db w) (upload_folder w) (session start) (flashes start)).

(** [render_template_string(BASE_LAYOUT + page, ...)] with the variables
    [context].  Every page template starts with [{% extends "base_layout" %}],
    a name no template loader of the application knows: the call raises
    [TemplateNotFound].  [start] is the world at the start of the request,
    [w] the world when the call is made. *)
Definition render_template_string (context : View) (start w : World)
  : Response * World :=
  raised start w.

(** The upload folder. *)
Definition file_save (name : string) (fs : list string) : list string :=
  if Str.mem name fs then fs else fs ++ [name].
Definition file_remove (name : string) (fs : list string) : list string :=
  filter (fun f => negb (f =? name)%string) fs.

(** ** Forms *)

(** [request.args] of [/products] after [request.args.get(..., type=float)]:
    a price bound that is missing or does not parse is [None]. *)
Module Filters.
Record t := mk {
  category : option string;
  material : option string;
  min_price : option float;
  max_price : option float;
  search : option string
}.
End Filters.

(** WTForms validators.  A text field that is missing from the form data is
    read as the empty string: [DataRequired] refuses both. *)
Definition DataRequired (data : string) : bool :=
  Str.truthy data && Str.strip_truthy data.

(** [Length(min, max)]; [-1] is the default of either bound. *)
Definition Length (min max : Z) (data : string) : bool :=
  let length := if Str.truthy data then Str.len data else 0 in
  (min <=? length) && ((max =? -1) || (length <=? max)).

(** [form.validate_on_submit()]: the request is a POST, the CSRF token is
    the session's and every field validates. *)
Definition validate_on_submit (req : Request) (fields_valid : bool) : bool :=
  match method req with
  | POST => csrf_valid req && fields_valid
  | GET => false
  end.

(** The same when a validator may raise: [None] stands for the exception,
    which a POST meets whatever the other fields hold. *)
Definition validate_on_submit_raising (req : Request)
           (fields_valid : option bool) : option bool :=
  match method req with
  | POST =>
      match fields_valid with
      | Some valid => Some (csrf_valid req && valid)
      | None => None
      end
  | GET => Some false
  end.

Module LoginForm.
Record t := mk { email : string; password : string }.
End LoginForm.

Module RegistrationForm.
Record t := mk {
  username : string;
  email : string;
  password : string;
  confirm_password : string
}.

(** [validate_username]: [False] stands for the [ValidationError]. *)
Definition validate_username (d : DB) (username : string) : bool :=
  match find (fun u => User.username u =? username)%string (users d) with
  | Some _ => false
  | None => true
  end.

Definition validate_email (d : DB) (email : string) : bool :=
  match find (fun u => User.email u =? email)%string (users d) with
  | Some _ => false
  | None => true
  end.
End RegistrationForm.

(** Python's [decimal.Decimal], the value of a [DecimalField]: a finite
    number [coefficient * 10 ^ exponent], an infinity or a NaN. *)
Module Decimal.
Inductive t :=
| Finite (coefficient exponent : Z)
| Infinity (negative : bool)
| NaN (signaling : bool).

(** Truth value: a number is false when it is zero. *)
Definition truthy (d : t) : bool :=
  match d with
  | Finite c _ => negb (c =? 0)
  | _ => true
  end.

(** The float [0.01] is exactly [5764607523034235 / 2 ^ 59]. *)
Definition float_1_100_mantissa : Z := 5764607523034235.

(** [d >= 0.01] for the float [0.01]: Python compares a Decimal and a float
    by their exact values. *)
Definition ge_float_1_100 (d : t) : bool :=
  match d with
  | Finite c e =>
      if 0 <=? e then float_1_100_mantissa <=? c * 10 ^ e * 2 ^ 59
      else float_1_100_mantissa * 10 ^ (- e) <=? c * 2 ^ 59
  | Infinity negative => negb negative
  | NaN _ => false
  end.
End Decimal.

Module ProductForm.
(** [price] is the value of the [DecimalField]; [None] when the text is
    missing or is not a decimal number. *)
Record t := mk {
  name : string;
  category : string;
  material : string;
  price : option Decimal.t;
  description : string
}.

Definition choices : list string :=
  ["Ring"; "Necklace"; "Earring"; "Bracelet"; "Pendant"].

(** [DataRequired(), NumberRange(min=0.01)] on the price.  [NumberRange]
    calls [math.isnan], which raises [ValueError] on a signaling NaN: [None]
    stands for that exception. *)
Definition validate_price (p : option Decimal.t) : option bool :=
  match p with
  | None => Some false
  | Some (Decimal.NaN true) => None
  | Some (Decimal.NaN false) => Some false
  | Some d => Some (Decimal.truthy d && Decimal.ge_float_1_100 d)
  end.

(** Every field is validated; [None] when a validator raises. *)
Definition validate (f : t) : option bool :=
  match validate_price (price f) with
  | None => None
  | Some price_valid =>
      Some ((DataRequired (name f) && Length (-1) 100 (name f))
            && (Str.mem (category f) choices && DataRequired (category f))
            && (DataRequired (material f) && Length (-1) 50 (material f))
            && price_valid
            && DataRequired (description f))
  end.
End ProductForm.

Module OrderForm.
Record t := mk {
  customer_name : string;
  customer_address : string;
  customer_contact : string;
  quantity : string
}.

(** [[(str(i), str(i)) for i in range(1, 6)]]. *)
Definition choices : list string := ["1"; "2"; "3"; "4"; "5"].

Definition validate (f : t) : bool :=
  (DataRequired (customer_name f) && Length (-1) 100 (customer_name f))
  && (DataRequired (customer_address f)
      && Length (-1) 200 (customer_address f))
  && (DataRequired (customer_contact f)
      && Length (-1) 20 (customer_contact f))
  && (Str.mem (quantity f) choices && DataRequired (quantity f)).
End OrderForm.

Module MessageForm.
Record t := mk { message_text : string }.

Definition validate (f : t) : bool :=
  DataRequired (message_text f) && Length 1 500 (message_text f).
End MessageForm.

(** ** Helper functions *)

Definition ALLOWED_EXTENSIONS : list string := ["png"; "jpg"; "jpeg"; "gif"].

Definition dot : ascii := "."%char.

Definition allowed_file (filename : string) : bool :=
  Str.contains_char dot filename
  && match Str.rsplit1_last dot filename with
     | Some ext => Str.mem (Str.lower ext) ALLOWED_EXTENSIONS
     | None => false
     end.

(** [@login_required]: Flask-Login's [unauthorized()] flashes its login
    message in the configured category and redirects to the login view with
    the path and query of the requested URL as [next]. *)
Definition login_required (f : Handler) : Handler :=
  fun req w =>
    match current_user w with
    | None =>
        (Redirect (To_login (Some (Str.path_and_query (url req)))),
         flash "Please log in to access this page." "info" w)
    | Some _ => f req w
    end.

(** [current_user.is_admin]. *)
Definition current_user_is_admin (w : World) : bool :=
  match current_user w with
  | Some u => User.is_admin u
  | None => false
  end.

Definition admin_required (f : Handler) : Handler :=
  let decorated_function : Handler :=
    fun req w =>
      if negb (current_user_is_admin w) then
        (Redirect To_home,
         flash "You do not have permission to access this page." "danger" w)
      else f req w
  in
  login_required decorated_function.

(** ** Routes *)

Definition status_values : list string :=
  ["Pending"; "Processing"; "Shipped"; "Delivered"; "Cancelled"].

Definition distinct_sorted (l : list string) : list string :=
  sort_by String.leb (nodup string_dec l).

(** [if value: query = step(query)] for an optional string argument. *)
Definition if_given {Q : Type} (value : option string)
           (step : string -> Q -> Q) (query : Q) : Q :=
  match value with
  | Some v => if Str.truthy v then step v query else query
  | None => query
  end.

(** [if value is not None: query = step(query)]. *)
Definition if_not_none {V Q : Type} (value : option V)
           (step : V -> Q -> Q) (query : Q) : Q :=
  match value with
  | Some v => step v query
  | None => query
  end.

Definition search_pattern (search_query : string) : string :=
  ("%" ++ search_query ++ "%")%string.

Definition search_matches (search_query : string) (p : Product.t) : bool :=
  Sqlite.ilike (Product.name p) (search_pattern search_query)
  || Sqlite.ilike (Product.description p) (search_pattern search_query)
  || Sqlite.ilike (Product.category p) (search_pattern search_query)
  || Sqlite.ilike (Product.material p) (search_pattern search_query).

(** The rows the query that [products] builds returns, for a search pattern
    that SQLite accepts (see [Sqlite.pattern_accepted]). *)
Definition all_products (a : Filters.t) (d : DB) : list Product.t :=
  let products_query := products d in
  let products_query :=
    if_given (Filters.category a)
      (fun category => filter (fun p => (Product.category p =? category)%string))
      products_query in
  let products_query :=
    if_given (Filters.material a)
      (fun material => filter (fun p => (Product.material p =? material)%string))
      products_query in
  let products_query :=
    if_not_none (Filters.min_price a)
      (fun min_price => filter (fun p => PrimFloat.leb min_price (Product.price p)))
      products_query in
  let products_query :=
    if_not_none (Filters.max_price a)
      (fun max_price => filter (fun p => PrimFloat.leb (Product.price p) max_price))
      products_query in
  let products_query :=
    if_given (Filters.search a)
      (fun search_query => filter (search_matches search_query))
      products_query in
  sort_by (fun x y => String.leb (Product.name x) (Product.name y))
          products_query.

(** [Product.query.order_by(Product.date_added.desc()).limit(3).all()]. *)
Definition featured_products (d : DB) : list Product.t :=
  firstn 3 (sort_by (fun x y => Product.date_added y <=? Product.date_added x)
                    (products d)).

Definition home : Handler :=
  fun req w => render_template_string (Index (featured_products (db w))) w w.

(** The choices of the two filter menus. *)
Definition categories (d : DB) : list string :=
  distinct_sorted (map Product.category (products d)).
Definition materials (d : DB) : list string :=
  distinct_sorted (map Product.material (products d)).

Definition products_page (a : Filters.t) : Handler :=
  fun req w =>
    render_template_string
      (Products (all_products a (db w)) (categories (db w)) (materials (db w)))
      w w.

Definition product_detail (product_id : Z) (form : OrderForm.t) : Handler :=
  fun req w =>
    match get Product.id (products (db w)) product_id with
    | None => (Abort (missing product_id), w)
    | Some product =>
        if validate_on_submit req (OrderForm.validate form) then
          match current_user w with
          | None =>
              (Redirect (To_login (Some (url req))),
               flash "Please log in to place an order." "info" w)
          | Some user =>
              match Str.int (OrderForm.quantity form) with
              | None => (Abort 500, w)
              | Some quantity =>
                  let total_price :=
                    float_mul_int (Product.price product) quantity in
                  let order :=
                    Order.mk (next_id Order.id (orders (db w)))
                             (User.id user) (now req) total_price
                             (OrderForm.customer_name form)
                             (OrderForm.customer_address form)
                             (OrderForm.customer_contact form)
                             "Pending" in
                  let order_item :=
                    OrderItem.mk (next_id OrderItem.id (order_items (db w)))
                                 (Order.id order) (Product.id product)
                                 quantity (Product.price product) in
                  let d := with_orders (db w) (orders (db w) ++ [order]) in
                  let d := with_order_items d (order_items d ++ [order_item]) in
                  (Redirect To_user_profile,
                   flash ("Your order for " ++ OrderForm.quantity form ++ " x "
                          ++ Product.name product
                          ++ " has been placed successfully!")%string
                         "success" (with_db w d))
              end
          end
        else render_template_string (ProductDetail product) w w
    end.

Definition logout : Handler :=
  login_required (fun req w =>
    (Redirect To_home, flash "You have been logged out." "info" (logout_user w))).

(** [Order.query.filter_by(user_id=...).order_by(Order.order_date.desc())]. *)
Definition user_orders (d : DB) (user : User.t) : list Order.t :=
  sort_by (fun x y => Order.order_date y <=? Order.order_date x)
          (filter (fun o => Order.user_id o =? User.id user) (orders d)).

Definition user_profile : Handler :=
  login_required (fun req w =>
    match current_user w with
    | None => (Abort 500, w)
    | Some user =>
        render_template_string (UserProfile user (user_orders (db w) user)) w w
    end).

Definition add_message (sender receiver : Z) (text : string) (req : Request)
           (d : DB) : DB :=
  with_messages d
    (messages d ++ [Message.mk (next_id Message.id (messages d)) sender
                               (Some receiver) text (now req) false]).

Definition messages_page (form : MessageForm.t) : Handler :=
  login_required (fun req w =>
    match current_user w with
    | None => (Abort 500, w)
    | Some user =>
        match find User.is_admin (users (db w)) with
        | None =>
            (Redirect To_home,
             flash "Admin user not found. Messaging not available." "danger" w)
        | Some admin_user =>
            let user_to_admin_messages :=
              conversation (db w) (User.id user) (User.id admin_user) in
            if validate_on_submit req (MessageForm.validate form) then
              (Redirect To_messages,
               flash "Your message has been sent to the admin!" "success"
                     (with_db w (add_message (User.id user) (User.id admin_user)
                                   (MessageForm.message_text form) req (db w))))
            else render_template_string (UserMessages user_to_admin_messages)
                                        w w
        end
    end).

(** The library functions the handlers call and the model leaves open:
    the [Email()] validator of WTForms, werkzeug's password hashing (the
    salt comes with the request) and werkzeug's [secure_filename]. *)
Section Collaborators.

Variable Email : string -> bool.
Variable generate_password_hash : string -> string -> string.
Variable check_password_hash : string -> string -> bool.
Variable secure_filename : string -> string.

(** [float(d)], what the Float column stores of a Decimal. *)
Variable to_float : Decimal.t -> float.

Definition RegistrationForm_validate (d : DB) (f : RegistrationForm.t) : bool :=
  (DataRequired (RegistrationForm.username f)
   && Length 2 20 (RegistrationForm.username f)
   && RegistrationForm.validate_username d (RegistrationForm.username f))
  && (DataRequired (RegistrationForm.email f)
      && Email (RegistrationForm.email f)
      && RegistrationForm.validate_email d (RegistrationForm.email f))
  && (DataRequired (RegistrationForm.password f)
      && Length 6 (-1) (RegistrationForm.password f))
  && (DataRequired (RegistrationForm.confirm_password f)
      && (RegistrationForm.confirm_password f
          =? RegistrationForm.password f)%string).

Definition LoginForm_validate (f : LoginForm.t) : bool :=
  (DataRequired (LoginForm.email f) && Email (LoginForm.email f))
  && DataRequired (LoginForm.password f).

Definition signup (form : RegistrationForm.t) : Handler :=
  fun req w =>
    match current_user w with
    | Some _ => (Redirect To_home, w)
    | None =>
        if validate_on_submit req (RegistrationForm_validate (db w) form) then
          let user :=
            User.mk (next_id User.id (users (db w)))
                    (RegistrationForm.username form)
                    (RegistrationForm.email form)
                    (Some (generate_password_hash
                             (salt req) (RegistrationForm.password form)))
                    false in
          (Redirect (To_login None),
           flash "Your account has been created! You can now log in."
                 "success"
                 (with_db w (with_users (db w) (users (db w) ++ [user]))))
        else render_template_string Signup w w
    end.

(** [next_page or url_for('home')]. *)
Definition next_or_home (next_page : option string) : Location :=
  match next_page with
  | Some u => if Str.truthy u then To_url u else To_home
  | None => To_home
  end.

Definition login (form : LoginForm.t) (next : option string) : Handler :=
  fun req w =>
    match current_user w with
    | Some _ => (Redirect To_home, w)
    | None =>
        if validate_on_submit req (LoginForm_validate form) then
          match find (fun u => User.email u =? LoginForm.email form)%string
                     (users (db w)) with
          | Some user =>
              (* [check_password_hash(None, ...)] raises *)
              match User.password_hash user with
              | None => (Abort 500, w)
              | Some pwhash =>
                  if check_password_hash pwhash (LoginForm.password form) then
                    (Redirect (next_or_home next),
                     flash "Login successful!" "success" (login_user user w))
                  else
                    render_template_string Login w
                      (flash "Login Unsuccessful. Please check email and password"
                             "danger" w)
              end
          | None =>
              render_template_string Login w
                (flash "Login Unsuccessful. Please check email and password"
                       "danger" w)
          end
        else render_template_string Login w w
    end.

(** *** Admin routes *)

(** [Order.query.filter_by(status='Pending').count()]. *)
Definition pending_orders (d : DB) : Z :=
  Z.of_nat (List.length (filter (fun o => Order.status o =? "Pending")%string
                                (orders d))).

Definition admin_dashboard : Handler :=
  admin_required (fun req w =>
    let total_products := Z.of_nat (List.length (products (db w))) in
    let total_users := Z.of_nat (List.length (users (db w))) in
    let total_orders := Z.of_nat (List.length (orders (db w))) in
    render_template_string
      (AdminDashboard total_products total_users total_orders
                      (pending_orders (db w))) w w).

(** [Product.query.order_by(Product.name).all()]. *)
Definition products_by_name (d : DB) : list Product.t :=
  sort_by (fun x y => String.leb (Product.name x) (Product.name y))
          (products d).

Definition admin_products : Handler :=
  admin_required (fun req w =>
    render_template_string (AdminProducts (products_by_name (db w))) w w).

(** [image_file and allowed_file(image_file.filename)]: a [FileStorage]
    is true when its filename is not empty. *)
Definition image_accepted (image : option FileStorage) : option string :=
  match image with
  | Some image_file =>
      if Str.truthy (filename image_file) && allowed_file (filename image_file)
      then Some (filename image_file) else None
  | None => None
  end.

Definition add_product (form : ProductForm.t) (image : option FileStorage)
  : Handler :=
  admin_required (fun req start =>
    match validate_on_submit_raising req (ProductForm.validate form) with
    | None => raised start start
    | Some true =>
        match image_accepted image with
        | Some original =>
            let filename := secure_filename original in
            let w := with_files start (file_save filename (upload_folder start)) in
            match ProductForm.price form with
            | None => raised start w
            | Some price =>
                let product :=
                  Product.mk (next_id Product.id (products (db w)))
                             (ProductForm.name form) (ProductForm.category form)
                             (ProductForm.material form) (to_float price)
                             (ProductForm.description form)
                             (Some filename) (now req) in
                (Redirect To_admin_products,
                 flash "Product added successfully!" "success"
                       (with_db w (with_products (db w)
                                     (products (db w) ++ [product]))))
            end
        | None =>
            render_template_string AddProduct start
              (flash "Invalid image file or no file uploaded. Please upload a PNG, JPG, JPEG, or GIF."
                     "warning" start)
        end
    | Some false => render_template_string AddProduct start start
    end).

(** The assignments [edit_product] makes from the form. *)
Definition edited (product : Product.t) (form : ProductForm.t) (price : float)
  : Product.t :=
  Product.mk (Product.id product) (ProductForm.name form)
             (ProductForm.category form) (ProductForm.material form) price
             (ProductForm.description form) (Product.image_filename product)
             (Product.date_added product).

Definition set_image_filename (p : Product.t) (f : string) : Product.t :=
  Product.mk (Product.id p) (Product.name p) (Product.category p)
             (Product.material p) (Product.price p) (Product.description p)
             (Some f) (Product.date_added p).

(** Removes the file of [product], when it has one and the file exists. *)
Definition remove_image (product : Product.t) (fs : list string)
  : list string :=
  match Product.image_filename product with
  | Some old => if Str.truthy old then file_remove old fs else fs
  | None => fs
  end.

Definition commit_product (product : Product.t) (w : World) : World :=
  with_db w (with_products (db w)
               (update Product.id (Product.id product) (fun _ => product)
                       (products (db w)))).

Definition edit_product (product_id : Z) (form : ProductForm.t)
           (image : option FileStorage) : Handler :=
  admin_required (fun req w =>
    match get Product.id (products (db w)) product_id with
    | None => (Abort (missing product_id), w)
    | Some product =>
        match validate_on_submit_raising req (ProductForm.validate form) with
        | None => raised w w
        | Some true =>
          match ProductForm.price form with
          | None => raised w w
          | Some price =>
              let product := edited product form (to_float price) in
              match image with
              | Some image_file =>
                  if Str.truthy (filename image_file) then
                    if allowed_file (filename image_file) then
                      let fs := remove_image product (upload_folder w) in
                      let filename := secure_filename (filename image_file) in
                      let w := with_files w (file_save filename fs) in
                      (Redirect To_admin_products,
                       flash "Product updated successfully!" "success"
                             (commit_product
                                (set_image_filename product filename) w))
                    else
                      (* returns before the commit: the row is not written *)
                      render_template_string (EditProduct product) w
                        (flash "Invalid image file. Please upload a PNG, JPG, JPEG, or GIF."
                               "warning" w)
                  else
                    (Redirect To_admin_products,
                     flash "Product updated successfully!" "success"
                           (commit_product product w))
              | None =>
                  (Redirect To_admin_products,
                   flash "Product updated successfully!" "success"
                         (commit_product product w))
              end
          end
        | Some false => render_template_string (EditProduct product) w w
        end
    end).

(** [product_id] of [OrderItem] is [nullable=False] and the relationship
    has no delete cascade: deleting a product that order items refer to
    makes the commit fail, after the image file is gone. *)
Definition delete_product (product_id : Z) : Handler :=
  admin_required (fun req start =>
    match get Product.id (products (db start)) product_id with
    | None => (Abort (missing product_id), start)
    | Some product =>
        let w := with_files start (remove_image product (upload_folder start)) in
        if existsb (fun i => OrderItem.product_id i =? Product.id product)
                   (order_items (db w))
        then raised start w
        else
          (Redirect To_admin_products,
           flash "Product deleted successfully!" "success"
                 (with_db w (with_products (db w)
                               (delete Product.id (Product.id product)
                                       (products (db w))))))
    end).

(** [Order.query.order_by(Order.order_date.desc()).all()]. *)
Definition orders_newest_first (d : DB) : list Order.t :=
  sort_by (fun x y => Order.order_date y <=? Order.order_date x) (orders d).

Definition admin_orders : Handler :=
  admin_required (fun req w =>
    render_template_string (AdminOrders (orders_newest_first (db w))) w w).

(** [new_status] is [request.form.get('status')]. *)
Definition update_order_status (order_id : Z) (new_status : option string)
  : Handler :=
  admin_required (fun req w =>
    match get Order.id (orders (db w)) order_id with
    | None => (Abort (missing order_id), w)
    | Some order =>
        match new_status with
        | Some s =>
            if Str.mem s status_values then
              (Redirect To_admin_orders,
               flash ("Order " ++ Str.of_int (Order.id order)
                      ++ " status updated to " ++ s ++ ".")%string
                     "success"
                     (with_db w (with_orders (db w)
                                   (update Order.id (Order.id order)
                                           (fun o => Order.set_status o s)
                                           (orders (db w))))))
            else
              (Redirect To_admin_orders,
               flash "Invalid status provided." "danger" w)
        | None =>
            (Redirect To_admin_orders,
             flash "Invalid status provided." "danger" w)
        end
    end).

(** [User.query.order_by(User.username).all()]. *)
Definition users_by_name (d : DB) : list User.t :=
  sort_by (fun x y => String.leb (User.username x) (User.username y)) (users d).

Definition admin_users : Handler :=
  admin_required (fun req w =>
    render_template_string (AdminUsers (users_by_name (db w))) w w).

(** The users who exchanged a message with [me], admins left out. *)
Definition users_with_messages (d : DB) (me : User.t) : list User.t :=
  filter (fun u => negb (User.is_admin u))
    (filter (fun u =>
               existsb (fun m =>
                          ((User.id u =? Message.sender_id m)
                           || opt_eqb (Message.receiver_id m) (User.id u))
                          && (opt_eqb (Message.receiver_id m) (User.id me)
                              || (Message.sender_id m =? User.id me)))
                       (messages d))
            (users d)).

(** The test of the marking loop on one message. *)
Definition unread_from (selected_user me : User.t) (msg : Message.t) : bool :=
  (Message.sender_id msg =? User.id selected_user)
  && opt_eqb (Message.receiver_id msg) (User.id me)
  && negb (Message.is_read msg).

(** The loop over the loaded messages: each assignment [msg.is_read = True]
    is written to the row of [msg] at the commit. *)
Definition mark_read (selected_user me : User.t) (loaded : list Message.t)
           (d : DB) : DB :=
  fold_left
    (fun d msg =>
       if unread_from selected_user me msg then
         with_messages d
           (update Message.id (Message.id msg)
                   (fun m => Message.set_is_read m true) (messages d))
       else d)
    loaded d.

(** [selected_user_id] is [request.args.get('user_id', type=int)].  The
    first part of the handler selects the user and marks the messages;
    [None] stands for the [OverflowError] of [User.query.get] on an id that
    is not a 64-bit integer. *)
Definition select_user (selected_user_id : option Z) (me : User.t) (w : World)
  : option (option User.t * list Message.t * World) :=
  match selected_user_id with
  | Some k =>
      if k =? 0 then Some (None, [], w)
      else
        let selected_user := get User.id (users (db w)) k in
        match selected_user with
        | Some su =>
            if negb (User.is_admin su) then
              let loaded := conversation (db w) (User.id me) (User.id su) in
              Some (selected_user,
                    map (fun msg => if unread_from su me msg
                                    then Message.set_is_read msg true
                                    else msg) loaded,
                    with_db w (mark_read su me loaded (db w)))
            else Some (selected_user, [], w)
        | None => if int64 k then Some (None, [], w) else None
        end
  | None => Some (None, [], w)
  end.

Definition admin_messages (selected_user_id : option Z) (form : MessageForm.t)
  : Handler :=
  admin_required (fun req start =>
    match current_user start with
    | None => (Abort 500, start)
    | Some me =>
        let users_with_messages := users_with_messages (db start) me in
        match select_user selected_user_id me start with
        | None => raised start start
        | Some (selected_user, messages_with_selected_user, w) =>
            if validate_on_submit req (MessageForm.validate form) then
              match selected_user with
              | Some su =>
                  (Redirect (To_admin_messages (User.id su)),
                   flash ("Message sent to " ++ User.username su ++ "!")%string
                         "success"
                         (with_db w (add_message (User.id me) (User.id su)
                                       (MessageForm.message_text form) req
                                       (db w))))
              | None =>
                  render_template_string
                    (AdminMessages users_with_messages selected_user
                                   messages_with_selected_user) start w
              end
            else
              render_template_string
                (AdminMessages users_with_messages selected_user
                               messages_with_selected_user) start w
        end
    end).

(** *** The URL map *)

Inductive Route :=
| R_home
| R_products (args : Filters.t)
| R_product_detail (product_id : Z) (form : OrderForm.t)
| R_signup (form : RegistrationForm.t)
| R_login (form : LoginForm.t) (next : option string)
| R_logout
| R_user_profile
| R_messages (form : MessageForm.t)
| R_admin_dashboard
| R_admin_products
| R_add_product (form : ProductForm.t) (image : option FileStorage)
| R_edit_product (product_id : Z) (form : ProductForm.t)
                 (image : option FileStorage)
| R_delete_product (product_id : Z)
| R_admin_orders
| R_update_order_status (order_id : Z) (status : option string)
| R_admin_users
| R_admin_messages (user_id : option Z) (form : MessageForm.t).

Definition view_function (r : Route) : Handler :=
  match r with
  | R_home => home
  | R_products args => products_page args
  | R_product_detail product_id form => product_detail product_id form
  | R_signup form => signup form
  | R_login form next => login form next
  | R_logout => logout
  | R_user_profile => user_profile
  | R_messages form => messages_page form
  | R_admin_dashboard => admin_dashboard
  | R_admin_products => admin_products
  | R_add_product form image => add_product form image
  | R_edit_product product_id form image => edit_product product_id form image
  | R_delete_product product_id => delete_product product_id
  | R_admin_orders => admin_orders
  | R_update_order_status order_id status =>
      update_order_status order_id status
  | R_admin_users => admin_users
  | R_admin_messages user_id form => admin_messages user_id form
  end.

(** The routes registered under [/admin/]. *)
Definition admin_only (r : Route) : bool :=
  match r with
  | R_admin_dashboard | R_admin_products | R_add_product _ _
  | R_edit_product _ _ _ | R_delete_product _ | R_admin_orders
  | R_update_order_status _ _ | R_admin_users | R_admin_messages _ _ => true
  | _ => false
  end.

(** A run of requests, one after the other. *)
Fixpoint serve (rs : list (Route * Request)) (w : World) : World :=
  match rs with
  | [] => w
  | (r, req) :: rest => serve rest (snd (view_function r req w))
  end.

End Collaborators.

(** ** Start-up *)

Section Startup.

Variable generate_password_hash : string -> string -> string.

(** [create_tables]: [db.create_all()] leaves existing tables alone; the
    admin account is added when no user is named admin.  [None] stands for
    the [IntegrityError] of the commit when the seed email is taken (the
    column is unique). *)
Definition create_tables (salt : string) (d : DB) : option DB :=
  match find (fun u => User.username u =? "admin")%string (users d) with
  | Some _ => Some d
  | None =>
      let admin_user :=
        User.mk (next_id User.id (users d)) "admin" "admin@mdcreations.com"
                (Some (generate_password_hash salt "adminpassword")) true in
      if existsb (fun u => User.email u =? User.email admin_user)%string
                 (users d)
      then None
      else Some (with_users d (users d ++ [admin_user]))
  end.

End Startup.

(** ** Vocabulary of the specification *)

(** What later requests keep of the order tables: the rows of [order_item]
    as they are, and of each order its id and total price, in place. *)
Definition order_key (o : Order.t) : Z * float :=
  (Order.id o, Order.total_price o).

Definition keeps_orders (d d' : DB) : Prop :=
  (exists more, map order_key (orders d') = map order_key (orders d) ++ more)
  /\ (exists more, order_items d' = order_items d ++ more).

(** A message from [a] to [b]. *)
Definition sent_by_to (a b : Z) (m : Message.t) : bool :=
  (Message.sender_id m =? a) && opt_eqb (Message.receiver_id m) b.

(** The search of the specification: [q] occurs in [s] as a substring, the
    26 ASCII letters compared without case, and a product matches when the
    text occurs in its name, description, category or material. *)
Fixpoint prefix_ci (q s : list ascii) : bool :=
  match q, s with
  | [], _ => true
  | _ :: _, [] => false
  | c :: q', d :: s' =>
      Ascii.eqb (Sqlite.lower_char c) (Sqlite.lower_char d) && prefix_ci q' s'
  end.

Fixpoint substring_ci (q s : list ascii) : bool :=
  prefix_ci q s || match s with [] => false | _ :: s' => substring_ci q s' end.

Definition contains_ci (q s : string) : bool :=
  substring_ci (list_ascii_of_string q) (list_ascii_of_string s).

Definition search_spec (q : string) (p : Product.t) : bool :=
  contains_ci q (Product.name p) || contains_ci q (Product.description p)
  || contains_ci q (Product.category p) || contains_ci q (Product.material p).

(** The conjunction of the filters that are given; an argument that is
    missing or empty is not given. *)
Definition given (value : option string) (holds : string -> bool) : bool :=
  match value with
  | Some v => if (v =? "")%string then true else holds v
  | None => true
  end.

Definition satisfies (a : Filters.t) (p : Product.t) : bool :=
  given (Filters.category a) (fun c => (Product.category p =? c)%string)
  && given (Filters.material a) (fun m => (Product.material p =? m)%string)
  && match Filters.min_price a with
     | Some lo => PrimFloat.leb lo (Product.price p)
     | None => true
     end
  && match Filters.max_price a with
     | Some hi => PrimFloat.leb (Product.price p) hi
     | None => true
     end
  && given (Filters.search a) (fun q => search_spec q p).

(** A search text with no [LIKE] wildcard in it. *)
Definition wildcard_free (q : string) : bool :=
  negb (Str.contains_char Sqlite.percent q)
  && negb (Str.contains_char Sqlite.underscore q).

(** A text without the NUL character. *)
Definition nul_free (s : string) : bool :=
  negb (Str.contains_char Sqlite.nul s).

(** A search text SQLite reads as it is written: no wildcard, no NUL, and
    a pattern within the length [LIKE] accepts. *)
Definition plain_search (q : string) : bool :=
  wildcard_free q && nul_free q && Sqlite.pattern_accepted (search_pattern q).

(** A product whose texts have no NUL. *)
Definition plain_text (p : Product.t) : bool :=
  nul_free (Product.name p) && nul_free (Product.description p)
  && nul_free (Product.category p) && nul_free (Product.material p).

(** A pattern of ordinary characters only. *)
Definition literal (q : list ascii) : Prop :=
  Forall (fun c => Ascii.eqb c Sqlite.percent = false
                   /\ Ascii.eqb c Sqlite.underscore = false) q.

(** The keys the schema declares: emails are unique, and the id is the
    primary key of the message table. *)
Definition well_keyed (d : DB) : Prop :=
  NoDup (map User.email (users d)) /\ NoDup (map Message.id (messages d)).

(** The routes behind [@login_required], directly or through
    [@admin_required]. *)
Definition login_protected (r : Route) : bool :=
  match r with
  | R_logout | R_user_profile | R_messages _ => true
  | _ => admin_only r
  end.

(** The keys of the schema: the primary key of every table, and the unique
    username and email of a user. *)
Definition schema_keys (d : DB) : Prop :=
  NoDup (map User.id (users d))
  /\ NoDup (map User.username (users d))
  /\ NoDup (map User.email (users d))
  /\ NoDup (map Product.id (products d))
  /\ NoDup (map Order.id (orders d))
  /\ NoDup (map OrderItem.id (order_items d))
  /\ NoDup (map Message.id (messages d)).

(** The foreign keys to users and orders: every order is of a user, every
    order item of an order, every message from a user to a user. *)
Definition is_user (d : DB) (k : Z) : Prop := In k (map User.id (users d)).

Definition references_hold (d : DB) : Prop :=
  (forall o, In o (orders d) -> is_user d (Order.user_id o))
  /\ (forall i, In i (order_items d) ->
                In (OrderItem.order_id i) (map Order.id (orders d)))
  /\ (forall m, In m (messages d) ->
                is_user d (Message.sender_id m)
                /\ forall k, Message.receiver_id m = Some k -> is_user d k).

(** Every order is in one of the five states. *)
Definition statuses_valid (d : DB) : Prop :=
  forall o, In o (orders d) -> In (Order.status o) status_values.

(** A list in the order of [le]: each element before all that follow it. *)
Definition ordered {A : Type} (le : A -> A -> bool) (l : list A) : Prop :=
  StronglySorted (fun x y => le x y = true) l.

(** A request for the listing with no filter: every argument is missing,
    or empty for the three text arguments. *)
Definition unfiltered (a : Filters.t) : Prop :=
  (forall c, Filters.category a = Some c -> c = "")
  /\ (forall m, Filters.material a = Some m -> m = "")
  /\ Filters.min_price a = None
  /\ Filters.max_price a = None
  /\ (forall q, Filters.search a = Some q -> q = "").

(** ** A small shop, for the examples *)

Module Demo.

Definition Email (s : string) : bool := Str.contains_char "@"%char s.

Definition generate_password_hash (salt password : string) : string :=
  (salt ++ "$" ++ password)%string.

Definition check_password_hash (pwhash password : string) : bool :=
  match Str.rsplit1_last "$"%char pwhash with
  | Some p => (p =? password)%string
  | None => false
  end.

Definition secure_filename (s : string) : string := s.

(** Exact for the decimals of the examples: a coefficient and a power of
    ten that are both floats. *)
Definition to_float (d : Decimal.t) : float :=
  match d with
  | Decimal.Finite c e =>
      if 0 <=? e then float_of_int (c * 10 ^ e)
      else PrimFloat.div (float_of_int c) (float_of_int (10 ^ (- e)))
  | Decimal.Infinity negative =>
      if negative then PrimFloat.neg_infinity else PrimFloat.infinity
  | Decimal.NaN _ => PrimFloat.nan
  end.

Definition admin : User.t :=
  User.mk 1 "admin" "admin@mdcreations.com" (Some "na$adminpassword") true.
Definition alice : User.t :=
  User.mk 2 "alice" "alice@example.com" (Some "cl$wonderland") false.

Definition ring : Product.t :=
  Product.mk 1 "Gold Ring" "Ring" "Gold" 120 "A plain band"
             (Some "ring.png") 10.
Definition chain : Product.t :=
  Product.mk 2 "Silver Chain" "Necklace" "Silver" 45.5 "Fine links"
             (Some "chain.jpg") 20.

Definition order1 : Order.t :=
  Order.mk 1 2 30 91 "Alice" "1 Rabbit Hole" "555-0100" "Shipped".
Definition item1 : OrderItem.t := OrderItem.mk 1 1 2 2 45.5.

Definition hello : Message.t := Message.mk 1 2 (Some 1) "Hello" 40 false.
Definition reply : Message.t := Message.mk 2 1 (Some 2) "Welcome" 50 false.

Definition shop : DB :=
  mkDB [admin; alice] [ring; chain] [order1] [item1] [hello; reply].

Definition visitor : World := mkWorld shop ["ring.png"; "chain.jpg"] None [].
Definition as_alice : World := with_session visitor (Some 2).
Definition as_admin : World := with_session visitor (Some 1).

Definition post : Request :=
  mkRequest POST true "http://localhost/product/1" 100 "pepper".
Definition fetch : Request :=
  mkRequest GET true "http://localhost/admin/messages?user_id=2" 100 "pepper".

Definition order_form : OrderForm.t :=
  OrderForm.mk "Alice" "1 Rabbit Hole" "555-0100" "3".

End Demo.

(** More of the shop, for the examples of the further properties. *)
Module Scene.

Definition no_filter : Filters.t := Filters.mk None None None None None.
Definition gold : Filters.t := Filters.mk None None None None (Some "gold").

Definition question : MessageForm.t := MessageForm.mk "Is the ring in stock?".

Definition bob_form : RegistrationForm.t :=
  RegistrationForm.mk "bob" "bob@example.com" "builder1" "builder1".

Definition pearl_form : ProductForm.t :=
  ProductForm.mk "Pearl Drop" "Earring" "Pearl"
                 (Some (Decimal.Finite 8000 (-2))) "A single pearl".

(** A product form with the price 0.01. *)
Definition penny_form : ProductForm.t :=
  ProductForm.mk "Charm" "Pendant" "Tin" (Some (Decimal.Finite 1 (-2)))
                 "A trinket".

(** A shop whose only account is not an admin. *)
Definition unattended : World :=
  mkWorld (mkDB [Demo.alice] [Demo.ring] [] [] []) [] (Some 2) [].

Definition empty_db : DB := mkDB [] [] [] [] [].

Definition visit : list (Route * Request) :=
  [(R_product_detail 1 Demo.order_form, Demo.post);
   (R_messages question, Demo.post)].

(** A visitor sent to the login page logs in as alice and follows the
    redirect back to the product page: the browser asks for it with a GET,
    which carries no form data. *)
Definition alice_login : LoginForm.t :=
  LoginForm.mk "alice@example.com" "wonderland".

Definition login_post : Request :=
  mkRequest POST true "http://localhost/login?next=http://localhost/product/1"
            101 "pepper".

Definition follow : Request :=
  mkRequest GET true "http://localhost/product/1" 102 "pepper".

Definition no_order : OrderForm.t := OrderForm.mk "" "" "" "".

(** A search text made of the NUL character. *)
Definition nul_search : Filters.t :=
  Filters.mk None None None None (Some (String Sqlite.nul "")).

End Scene.

(** ** Properties *)

Lemma get_in {R : Type} (id : R -> Z) (rows : list R) (k : Z) (r : R) :
  get id rows k = Some r -> In r rows /\ id r = k.
Proof.
  unfold get. intros H. apply find_some in H. destruct H as [Hin Hk].
  split; [exact Hin | now apply Z.eqb_eq].
Qed.

Lemma mem_in (x : string) (xs : list string) :
  Str.mem x xs = true <-> In x xs.
Proof.
  unfold Str.mem. rewrite existsb_exists. split.
  - intros [y [Hy He]]. apply String.eqb_eq in He. now subst.
  - intros H. exists x. split; [exact H | apply String.eqb_refl].
Qed.

Lemma admin_is_current (w : World) :
  current_user_is_admin w = true ->
  exists u, current_user w = Some u /\ User.is_admin u = true.
Proof.
  unfold current_user_is_admin. destruct (current_user w) as [u|].
  - intros H. now exists u.
  - discriminate.
Qed.

Lemma admin_required_admin (f : Handler) (req : Request) (w : World) :
  current_user_is_admin w = true -> admin_required f req w = f req w.
Proof.
  intros H. unfold admin_required, login_required.
  destruct (admin_is_current w H) as [u [Hu _]]. rewrite Hu, H. reflexivity.
Qed.

Lemma admin_required_non_admin (f : Handler) (req : Request) (w : World)
      (u : User.t) :
  current_user w = Some u -> User.is_admin u = false ->
  admin_required f req w
  = (Redirect To_home,
     flash "You do not have permission to access this page." "danger" w).
Proof.
  intros Hu Ha. unfold admin_required, login_required, current_user_is_admin.
  rewrite Hu, Ha. reflexivity.
Qed.

Lemma admin_required_anonymous (f : Handler) (req : Request) (w : World) :
  current_user w = None ->
  admin_required f req w
  = (Redirect (To_login (Some (Str.path_and_query (url req)))),
     flash "Please log in to access this page." "info" w).
Proof.
  intros Hu. unfold admin_required, login_required. now rewrite Hu.
Qed.

Lemma same_world (w : World) :
  mkWorld (db w) (upload_folder w) (session w) (flashes w) = w.
Proof. now destruct w. Qed.

Lemma raised_same (w : World) : raised w w = (Abort 500, w).
Proof. unfold raised. now rewrite same_world. Qed.

Lemma render_same (context : View) (w : World) :
  render_template_string context w w = (Abort 500, w).
Proof. apply raised_same. Qed.

Lemma render_flashed (context : View) (w : World) (message category : string) :
  render_template_string context w (flash message category w) = (Abort 500, w).
Proof. unfold render_template_string, raised. simpl. now rewrite same_world. Qed.

Lemma in_insert_sorted {A : Type} (le : A -> A -> bool) (x y : A) (l : list A) :
  In y (insert_sorted le x l) <-> y = x \/ In y l.
Proof.
  induction l as [|z l IH]; simpl; [intuition|].
  destruct (le x z); simpl; [intuition|]. rewrite IH. intuition.
Qed.

Lemma in_sort_by {A : Type} (le : A -> A -> bool) (y : A) (l : list A) :
  In y (sort_by le l) <-> In y l.
Proof.
  induction l as [|x l IH]; simpl; [reflexivity|].
  rewrite in_insert_sorted, IH. intuition.
Qed.

(** *** [LIKE] against the substring search *)

Lemma like_percent_step (p s : list ascii) :
  Sqlite.like (Sqlite.percent :: p) s
  = Sqlite.like p s
    || match s with
       | [] => false
       | _ :: r => Sqlite.like (Sqlite.percent :: p) r
       end.
Proof. destruct s; reflexivity. Qed.

Lemma like_percent_last (s : list ascii) : Sqlite.like [Sqlite.percent] s = true.
Proof.
  induction s as [|c s IH]; [reflexivity|].
  rewrite like_percent_step, IH. apply orb_true_r.
Qed.

Lemma lower_char_idem (c : ascii) :
  Sqlite.lower_char (Sqlite.lower_char c) = Sqlite.lower_char c.
Proof. destruct c as [[] [] [] [] [] [] [] []]; reflexivity. Qed.

Lemma lower_char_wild (c : ascii) :
  Ascii.eqb c Sqlite.percent = false ->
  Ascii.eqb c Sqlite.underscore = false ->
  Ascii.eqb (Sqlite.lower_char c) Sqlite.percent = false
  /\ Ascii.eqb (Sqlite.lower_char c) Sqlite.underscore = false.
Proof.
  destruct c as [[] [] [] [] [] [] [] []]; vm_compute; intros; split;
    (reflexivity || assumption).
Qed.

Lemma like_literal_prefix (q s : list ascii) :
  literal q ->
  Sqlite.like (Sqlite.lower q ++ [Sqlite.percent]) (Sqlite.lower s)
  = prefix_ci q s.
Proof.
  intros Hq. revert s. induction Hq as [|c q [Hp Hu] _ IH]; intros s.
  - apply like_percent_last.
  - destruct (lower_char_wild c Hp Hu) as [Hp' Hu'].
    cbn [Sqlite.lower map app Sqlite.like]. rewrite Hp', Hu'.
    destruct s as [|d s]; [reflexivity|].
    cbn [Sqlite.lower map prefix_ci]. rewrite !lower_char_idem. f_equal.
    apply IH.
Qed.

Lemma like_literal_anywhere (q s : list ascii) :
  literal q ->
  Sqlite.like (Sqlite.percent :: Sqlite.lower q ++ [Sqlite.percent])
              (Sqlite.lower s)
  = substring_ci q s.
Proof.
  intros Hq. induction s as [|d s IH].
  - rewrite like_percent_step.
    rewrite (like_literal_prefix q [] Hq). simpl. now rewrite orb_false_r.
  - rewrite like_percent_step.
    change (Sqlite.lower (d :: s))
      with (Sqlite.lower_char d :: Sqlite.lower s).
    cbv beta iota. rewrite IH. cbn [substring_ci]. f_equal.
    exact (like_literal_prefix q (d :: s) Hq).
Qed.

Lemma list_ascii_of_string_app (a b : string) :
  list_ascii_of_string (a ++ b)%string
  = list_ascii_of_string a ++ list_ascii_of_string b.
Proof. induction a as [|c a IH]; simpl; [reflexivity | now rewrite IH]. Qed.

Lemma wildcard_free_literal (q : string) :
  wildcard_free q = true -> literal (list_ascii_of_string q).
Proof.
  unfold wildcard_free, literal. induction q as [|c q IH]; simpl.
  - intros _. constructor.
  - rewrite !negb_orb. intros H.
    apply andb_prop in H. destruct H as [H1 H2].
    apply andb_prop in H1. destruct H1 as [Hp Hp'].
    apply andb_prop in H2. destruct H2 as [Hu Hu'].
    apply negb_true_iff in Hp, Hu. constructor.
    + split; [now rewrite Ascii.eqb_sym | now rewrite Ascii.eqb_sym].
    + apply IH. now rewrite Hp', Hu'.
Qed.

Lemma lower_char_nul (c : ascii) :
  Ascii.eqb (Sqlite.lower_char c) Sqlite.nul = Ascii.eqb c Sqlite.nul.
Proof. destruct c as [[] [] [] [] [] [] [] []]; reflexivity. Qed.

Lemma cstring_nul_free (s : string) :
  nul_free s = true ->
  Sqlite.cstring (Sqlite.lower (list_ascii_of_string s))
  = Sqlite.lower (list_ascii_of_string s).
Proof.
  unfold nul_free. induction s as [|c s IH]; [reflexivity|].
  cbn [Str.contains_char list_ascii_of_string Sqlite.lower map Sqlite.cstring].
  rewrite negb_orb, andb_true_iff. intros [Hc Hs].
  rewrite lower_char_nul, Ascii.eqb_sym. apply negb_true_iff in Hc.
  rewrite Hc. f_equal. now apply IH.
Qed.

Lemma search_pattern_nul_free (q : string) :
  nul_free q = true -> nul_free (search_pattern q) = true.
Proof.
  unfold nul_free, search_pattern. intros H.
  cbn [append Str.contains_char]. change (Ascii.eqb Sqlite.nul "%") with false.
  cbn [orb].
  induction q as [|c q IH]; [reflexivity|].
  cbn [append Str.contains_char] in *.
  rewrite negb_orb, andb_true_iff in H. destruct H as [Hc Hq].
  rewrite negb_orb, Hc. cbn [andb]. now apply IH.
Qed.

(** Without a wildcard or a NUL in the search text, [ilike] on the pattern
    the handler builds is the substring search, on a text without NUL. *)
Lemma ilike_is_substring (q column : string) :
  wildcard_free q = true -> nul_free q = true -> nul_free column = true ->
  Sqlite.ilike column (search_pattern q) = contains_ci q column.
Proof.
  intros Hq Hn Hc. unfold Sqlite.ilike.
  rewrite (cstring_nul_free _ (search_pattern_nul_free q Hn)).
  rewrite (cstring_nul_free _ Hc).
  unfold search_pattern, contains_ci.
  rewrite !list_ascii_of_string_app. cbn [list_ascii_of_string app].
  unfold Sqlite.lower at 1. cbn [map]. rewrite map_app. cbn [map].
  change (Sqlite.lower_char "%") with Sqlite.percent.
  apply like_literal_anywhere. now apply wildcard_free_literal.
Qed.

Lemma if_given_filter (value : option string) (holds : string -> Product.t -> bool)
      (l : list Product.t) (p : Product.t) :
  In p (if_given value (fun v => filter (holds v)) l)
  <-> In p l /\ given value (fun v => holds v p) = true.
Proof.
  unfold if_given, given. destruct value as [v|]; [|intuition].
  unfold Str.truthy. destruct (v =? "")%string; simpl; [intuition|].
  apply filter_In.
Qed.

Lemma given_ext (value : option string) (f g : string -> bool) :
  (forall v, value = Some v -> f v = g v) -> given value f = given value g.
Proof.
  intros H. unfold given. destruct value as [v|]; [|reflexivity].
  destruct (v =? "")%string; [reflexivity | now apply H].
Qed.

(** The listing against the specification of the filters: for a search text
    without [%], [_] and NUL, short enough for [LIKE] (or no search), a
    product whose texts have no NUL is listed exactly when it is in the
    catalogue and satisfies every filter that is given. *)
Lemma all_products_spec (a : Filters.t) (d : DB) (p : Product.t) :
  (forall q, Filters.search a = Some q -> plain_search q = true) ->
  plain_text p = true ->
  In p (all_products a d) <-> In p (products d) /\ satisfies a p = true.
Proof.
  intros Hq Hp. unfold all_products, satisfies.
  rewrite in_sort_by.
  rewrite (if_given_filter (Filters.search a) search_matches).
  rewrite (given_ext (Filters.search a) (fun v => search_matches v p)
                     (fun q => search_spec q p)).
  2:{ intros q Hs. unfold search_matches, search_spec.
      specialize (Hq q Hs). unfold plain_search in Hq.
      rewrite !andb_true_iff in Hq. destruct Hq as [[Hw Hn] _].
      unfold plain_text in Hp. rewrite !andb_true_iff in Hp.
      destruct Hp as [[[P1 P2] P3] P4].
      now rewrite !ilike_is_substring by assumption. }
  unfold if_not_none.
  assert (Hmax : forall l,
             In p (match Filters.max_price a with
                   | Some hi => filter (fun x => PrimFloat.leb (Product.price x) hi) l
                   | None => l end)
             <-> In p l /\ match Filters.max_price a with
                           | Some hi => PrimFloat.leb (Product.price p) hi
                           | None => true end = true).
  { intros l. destruct (Filters.max_price a); [apply filter_In | intuition]. }
  assert (Hmin : forall l,
             In p (match Filters.min_price a with
                   | Some lo => filter (fun x => PrimFloat.leb lo (Product.price x)) l
                   | None => l end)
             <-> In p l /\ match Filters.min_price a with
                           | Some lo => PrimFloat.leb lo (Product.price p)
                           | None => true end = true).
  { intros l. destruct (Filters.min_price a); [apply filter_In | intuition]. }
  rewrite Hmax, Hmin.
  rewrite (if_given_filter (Filters.material a)
             (fun m x => (Product.material x =? m)%string)).
  rewrite (if_given_filter (Filters.category a)
             (fun c x => (Product.category x =? c)%string)).
  rewrite !andb_true_iff. intuition.
Qed.

Section Properties.

Variable Email : string -> bool.
Variable generate_password_hash : string -> string -> string.
Variable check_password_hash : string -> string -> bool.
Variable secure_filename : string -> string.
Variable to_float : Decimal.t -> float.

Let view_function :=
  view_function Email generate_password_hash check_password_hash
                secure_filename to_float.

(** C3: a logged-in user who is not an admin gets, from every admin-only
    route, a redirect to the home page and the permission notice; the
    world is otherwise untouched and the result does not depend on the
    route or its arguments, so no handler body ran and no admin data is
    in the response. *)
Theorem admin_routes_refuse_non_admin (req : Request) (w : World)
        (u : User.t) :
  current_user w = Some u ->
  User.is_admin u = false ->
  (forall f : Handler,
      admin_required f req w
      = (Redirect To_home,
         flash "You do not have permission to access this page." "danger" w))
  /\ (forall r : Route,
         admin_only r = true ->
         view_function r req w
         = (Redirect To_home,
            flash "You do not have permission to access this page."
                  "danger" w)).
Proof.
  intros Hu Ha. split.
  - intros f. exact (admin_required_non_admin f req w u Hu Ha).
  - intros r Hr.
    destruct r; simpl in Hr; try discriminate Hr; simpl;
      apply (admin_required_non_admin _ req w u Hu Ha).
Qed.

(** *** Order status *)

Lemma get_update {R : Type} (id : R -> Z) (f : R -> R) (rows : list R)
      (k : Z) (r : R) :
  (forall x, id (f x) = id x) ->
  get id rows k = Some r ->
  get id (update id k f rows) k = Some (f r).
Proof.
  intros Hid. unfold get, update.
  induction rows as [|x rows IH]; simpl; [discriminate|].
  destruct (id x =? k) eqn:E.
  - intros H. injection H as <-. simpl. rewrite Hid, E. reflexivity.
  - intros H. simpl. rewrite E. auto.
Qed.

Lemma update_other {R : Type} (id : R -> Z) (f : R -> R) (rows : list R)
      (k : Z) (r : R) :
  In r rows -> id r <> k -> In r (update id k f rows).
Proof.
  intros Hin Hne. unfold update. apply in_map_iff. exists r. split; [|exact Hin].
  destruct (id r =? k) eqn:E; [apply Z.eqb_eq in E; contradiction | reflexivity].
Qed.

(** C4: on an existing order, an admin's status update with one of the five
    status values sets the status to it, whatever the status was, and
    touches nothing else; with any other value, or none, the database is
    left as it was and the notice "Invalid status provided." is flashed in
    the category danger. *)
Theorem update_order_status_spec (order_id : Z) (new_status : option string)
        (req : Request) (w : World) (order : Order.t) :
  current_user_is_admin w = true ->
  get Order.id (orders (db w)) order_id = Some order ->
  let w' := snd (update_order_status order_id new_status req w) in
  (forall s, new_status = Some s -> In s status_values ->
     get Order.id (orders (db w')) order_id = Some (Order.set_status order s)
     /\ Order.status (Order.set_status order s) = s
     /\ (forall o, In o (orders (db w)) -> Order.id o <> order_id ->
                   In o (orders (db w')))
     /\ List.length (orders (db w')) = List.length (orders (db w))
     /\ users (db w') = users (db w)
     /\ products (db w') = products (db w)
     /\ order_items (db w') = order_items (db w)
     /\ messages (db w') = messages (db w))
  /\ ((forall s, new_status = Some s -> ~ In s status_values) ->
      update_order_status order_id new_status req w
      = (Redirect To_admin_orders, flash "Invalid status provided." "danger" w)
      /\ db w' = db w).
Proof.
  intros Hadm Hget w'. subst w'.
  unfold update_order_status. rewrite (admin_required_admin _ _ _ Hadm).
  rewrite Hget. destruct (get_in _ _ _ _ Hget) as [Hin Hid]. split.
  - intros s -> Hs. apply mem_in in Hs. rewrite Hs. simpl. rewrite Hid.
    repeat split.
    + apply (get_update Order.id (fun o => Order.set_status o s));
        [reflexivity | exact Hget].
    + intros o Ho Hne. now apply update_other.
    + unfold update. apply length_map.
  - intros Hbad. destruct new_status as [s|]; [|split; reflexivity].
    destruct (Str.mem s status_values) eqn:E; [|split; reflexivity].
    apply mem_in in E. exfalso. exact (Hbad s eq_refl E).
Qed.

(** *** Registration *)

Lemma find_none_iff {A : Type} (p : A -> bool) (l : list A) :
  find p l = None <-> forall x, In x l -> p x = false.
Proof.
  split; [apply find_none|].
  induction l as [|a l IH]; simpl; [reflexivity|]. intros H.
  rewrite (H a (or_introl eq_refl)). apply IH. intros x Hx. apply H. now right.
Qed.

(** C6: a registration whose username or email is that of an existing
    user creates no user: the database, and so the existing record, is
    exactly as before, and the response is never the redirect to the login
    page that follows a registration. *)
Theorem signup_rejects_duplicate (form : RegistrationForm.t) (req : Request)
        (w : World) (u : User.t) :
  In u (users (db w)) ->
  User.username u = RegistrationForm.username form
  \/ User.email u = RegistrationForm.email form ->
  db (snd (signup Email generate_password_hash form req w)) = db w
  /\ fst (signup Email generate_password_hash form req w)
     <> Redirect (To_login None).
Proof.
  intros Hin Hdup. unfold signup.
  destruct (current_user w); [split; [reflexivity | discriminate]|].
  assert (Hv : validate_on_submit req (RegistrationForm_validate Email (db w) form)
               = false).
  { unfold validate_on_submit. destruct (method req); [reflexivity|].
    apply andb_false_intro2. unfold RegistrationForm_validate.
    destruct Hdup as [Hn | He].
    - assert (Hf : RegistrationForm.validate_username
                     (db w) (RegistrationForm.username form) = false).
      { unfold RegistrationForm.validate_username.
        destruct (find _ (users (db w))) eqn:F; [reflexivity|].
        rewrite find_none_iff in F. specialize (F u Hin). simpl in F.
        rewrite Hn, String.eqb_refl in F. discriminate. }
      rewrite Hf. rewrite !andb_false_r. reflexivity.
    - assert (Hf : RegistrationForm.validate_email
                     (db w) (RegistrationForm.email form) = false).
      { unfold RegistrationForm.validate_email.
        destruct (find _ (users (db w))) eqn:F; [reflexivity|].
        rewrite find_none_iff in F. specialize (F u Hin). simpl in F.
        rewrite He, String.eqb_refl in F. discriminate. }
      rewrite Hf. rewrite !andb_false_r. reflexivity. }
  rewrite Hv, render_same. split; [reflexivity | discriminate].
Qed.

(** *** Product images *)

(** C9: [add_product] creates at most one product and a product it creates
    has an image filename; when the upload is missing (no file, or a file
    with an empty name) or the text after the last dot of its name, in
    lower case, is not one of png, jpg, jpeg, gif (a name without a dot
    included), the database is unchanged; but an admin whose form validates
    does not get the form again: the request ends in the server error of
    the page that cannot be rendered, and the world is as before the
    request, without the warning notice. *)
Theorem add_product_requires_image (form : ProductForm.t)
        (image : option FileStorage) (req : Request) (w : World) :
  let r := add_product secure_filename to_float form image req w in
  (db (snd r) = db w
   \/ exists p fn,
        db (snd r) = with_products (db w) (products (db w) ++ [p])
        /\ Product.image_filename p = Some fn)
  /\ ((image = None
       \/ exists f, image = Some f
                    /\ (filename f = ""
                        \/ forall ext,
                             Str.rsplit1_last dot (filename f) = Some ext ->
                             ~ In (Str.lower ext) ALLOWED_EXTENSIONS)) ->
      db (snd r) = db w
      /\ (current_user_is_admin w = true ->
          validate_on_submit_raising req (ProductForm.validate form)
          = Some true ->
          r = (Abort 500, w))).
Proof.
  intros r. subst r.
  assert (Hrej : (image = None
       \/ exists f, image = Some f
                    /\ (filename f = ""
                        \/ forall ext,
                             Str.rsplit1_last dot (filename f) = Some ext ->
                             ~ In (Str.lower ext) ALLOWED_EXTENSIONS)) ->
      image_accepted image = None).
  { intros [-> | [f [-> Hf]]]; [reflexivity|]. unfold image_accepted.
    destruct Hf as [-> | Hf]; [reflexivity|].
    unfold allowed_file.
    destruct (Str.rsplit1_last dot (filename f)) as [ext|] eqn:E.
    - destruct (Str.mem (Str.lower ext) ALLOWED_EXTENSIONS) eqn:M.
      + apply mem_in in M. destruct (Hf ext eq_refl M).
      + now rewrite !andb_false_r.
    - now rewrite !andb_false_r. }
  unfold add_product.
  destruct (current_user w) as [u|] eqn:Hu.
  2:{ rewrite (admin_required_anonymous _ _ _ Hu). split; [now left|].
      intros _. split; [reflexivity|]. unfold current_user_is_admin.
      rewrite Hu. discriminate. }
  destruct (User.is_admin u) eqn:Ha.
  2:{ rewrite (admin_required_non_admin _ _ _ u Hu Ha). split; [now left|].
      intros _. split; [reflexivity|]. unfold current_user_is_admin.
      rewrite Hu, Ha. discriminate. }
  assert (Hadm : current_user_is_admin w = true).
  { unfold current_user_is_admin. now rewrite Hu. }
  rewrite (admin_required_admin _ _ _ Hadm).
  destruct (validate_on_submit_raising req (ProductForm.validate form))
    as [[|]|] eqn:V.
  2:{ rewrite render_same. split; [now left|]. intros _.
      split; [reflexivity | discriminate]. }
  2:{ rewrite raised_same. split; [now left|]. intros _.
      split; [reflexivity | discriminate]. }
  split.
  - destruct (image_accepted image) as [original|];
      [|rewrite render_flashed; now left].
    destruct (ProductForm.price form) as [price|]; [|now left].
    right. eexists. eexists. split; reflexivity.
  - intros H. rewrite (Hrej H), render_flashed. split; reflexivity.
Qed.

(** *** Login *)

Lemma find_unique {A : Type} (key : A -> string) (l : list A) (k : string)
      (a : A) :
  NoDup (map key l) -> In a l -> key a = k ->
  find (fun x => key x =? k)%string l = Some a.
Proof.
  induction l as [|x l IH]; simpl; [contradiction|].
  intros Hnd [-> | Hin] Hk.
  - apply String.eqb_eq in Hk. now rewrite Hk.
  - inversion Hnd as [|? ? Hx Hl]; subst.
    destruct (key x =? key a)%string eqn:E.
    + apply String.eqb_eq in E. exfalso. apply Hx. rewrite E.
      now apply in_map.
    + now apply IH.
Qed.

Lemma get_of_in {R : Type} (id : R -> Z) (rows : list R) (r : R) :
  In r rows -> get id rows (id r) <> None.
Proof.
  intros Hin H. unfold get in H. rewrite find_none_iff in H.
  specialize (H r Hin). simpl in H. rewrite Z.eqb_refl in H. discriminate.
Qed.

(** What a login that changed the visitor into a user went through. *)
Lemma login_success_inv (form : LoginForm.t) (next : option string)
      (req : Request) (w : World) :
  current_user w = None ->
  current_user (snd (login Email check_password_hash form next req w)) <> None ->
  exists u h,
    find (fun x => User.email x =? LoginForm.email form)%string (users (db w))
    = Some u
    /\ User.password_hash u = Some h
    /\ check_password_hash h (LoginForm.password form) = true
    /\ validate_on_submit req (LoginForm_validate Email form) = true
    /\ login Email check_password_hash form next req w
       = (Redirect (next_or_home next),
          flash "Login successful!" "success" (login_user u w)).
Proof.
  intros Hanon. unfold login. rewrite Hanon.
  destruct (validate_on_submit req (LoginForm_validate Email form));
    [|rewrite render_same; simpl; intros H; contradiction].
  destruct (find _ (users (db w))) as [u|] eqn:F.
  2:{ rewrite render_flashed. simpl. intros H. contradiction. }
  destruct (User.password_hash u) as [h|] eqn:P;
    [|simpl; intros H; contradiction].
  destruct (check_password_hash h (LoginForm.password form)) eqn:C.
  - intros _. exists u, h. repeat split; assumption.
  - rewrite render_flashed. simpl. intros H. contradiction.
Qed.

(** C5: for a visitor who is not logged in, a login leaves them logged in
    only if a user record has the email and the password verifies against
    that record's hash (so never on a wrong password or an unknown email);
    and a submitted login form that validates, for an email and password
    with such a record, logs that user in, emails being unique in the
    table. *)
Theorem login_iff_credentials (form : LoginForm.t) (next : option string)
        (req : Request) (w : World) :
  current_user w = None ->
  let r := login Email check_password_hash form next req w in
  let verifies (u : User.t) :=
    exists h, User.password_hash u = Some h
              /\ check_password_hash h (LoginForm.password form) = true in
  (current_user (snd r) <> None ->
   exists u, In u (users (db w)) /\ User.email u = LoginForm.email form
             /\ verifies u /\ session (snd r) = Some (User.id u))
  /\ (validate_on_submit req (LoginForm_validate Email form) = true ->
      NoDup (map User.email (users (db w))) ->
      forall u, In u (users (db w)) -> User.email u = LoginForm.email form ->
                verifies u ->
                r = (Redirect (next_or_home next),
                     flash "Login successful!" "success" (login_user u w))
                /\ current_user (snd r) <> None).
Proof.
  intros Hanon r verifies. subst r. split.
  - intros H. destruct (login_success_inv form next req w Hanon H)
      as [u [h [F [P [C [_ E]]]]]].
    apply find_some in F. destruct F as [Hin He]. apply String.eqb_eq in He.
    exists u. repeat split; try assumption.
    + exists h. now split.
    + rewrite E. reflexivity.
  - intros V Hnd u Hin He [h [P C]].
    assert (E : login Email check_password_hash form next req w
                = (Redirect (next_or_home next),
                   flash "Login successful!" "success" (login_user u w))).
    { unfold login. rewrite Hanon, V.
      rewrite (find_unique User.email _ _ u Hnd Hin He), P, C. reflexivity. }
    split; [exact E|]. rewrite E. simpl. unfold current_user. simpl.
    now apply get_of_in.
Qed.

(** *** Orders *)

(** C8: an order form posted by a visitor who is not logged in creates
    nothing: the database is as it was; for an existing product and a form
    that validates the answer is a redirect to the login page carrying the
    URL of the request as [next], with a notice; and the login that then
    succeeds with that [next] answers with a redirect back to that URL.
    The order is not resumed: the redirect is followed by a GET of the
    product page, and a GET leaves the world as it is, whatever form it
    carries; the form has to be posted again. *)
Theorem anonymous_order_deferred (product_id : Z) (form : OrderForm.t)
        (req : Request) (w : World) :
  current_user w = None ->
  let r := product_detail product_id form req w in
  db (snd r) = db w
  /\ (forall product,
        get Product.id (products (db w)) product_id = Some product ->
        validate_on_submit req (OrderForm.validate form) = true ->
        r = (Redirect (To_login (Some (url req))),
             flash "Please log in to place an order." "info" w))
  /\ (forall (credentials : LoginForm.t) (req' : Request) (w' : World),
        url req <> "" ->
        current_user w' = None ->
        current_user
          (snd (login Email check_password_hash credentials (Some (url req))
                      req' w')) <> None ->
        fst (login Email check_password_hash credentials (Some (url req))
                   req' w')
        = Redirect (To_url (url req)))
  /\ (forall (form' : OrderForm.t) (req' : Request) (w' : World),
        method req' = GET ->
        snd (product_detail product_id form' req' w') = w').
Proof.
  intros Hanon r. subst r.
  split; [|split; [|split]].
  4:{ intros form' req' w' Hm. unfold product_detail, validate_on_submit.
      rewrite Hm.
      destruct (get Product.id (products (db w')) product_id);
        [now rewrite render_same | reflexivity]. }
  - unfold product_detail. rewrite Hanon.
    destruct (get Product.id (products (db w)) product_id); [|reflexivity].
    destruct (validate_on_submit req (OrderForm.validate form));
      [reflexivity | now rewrite render_same].
  - unfold product_detail. rewrite Hanon. intros product -> ->. reflexivity.
  - intros credentials req' w' Hurl Hanon' H.
    destruct (login_success_inv credentials (Some (url req)) req' w' Hanon' H)
      as [u [h [_ [_ [_ [_ E]]]]]].
    rewrite E. simpl. unfold Str.truthy.
    destruct (url req =? "")%string eqn:U; [|reflexivity].
    apply String.eqb_eq in U. contradiction.
Qed.

Lemma next_id_above {R : Type} (id : R -> Z) (rows : list R) (r : R) :
  In r rows -> id r < next_id id rows.
Proof.
  unfold next_id. induction rows as [|x rows IH]; [contradiction|].
  cbn [fold_right In]. intros [-> | Hin]; [lia|]. specialize (IH Hin). lia.
Qed.

Lemma find_app_split {A : Type} (p : A -> bool) (l l' : list A) :
  find p (l ++ l') = match find p l with Some x => Some x | None => find p l' end.
Proof.
  induction l as [|x l IH]; simpl; [reflexivity|]. now destruct (p x).
Qed.

Lemma get_app_new {R : Type} (id : R -> Z) (rows : list R) (r : R) :
  id r = next_id id rows -> get id (rows ++ [r]) (id r) = Some r.
Proof.
  intros Hid. unfold get. rewrite find_app_split.
  destruct (find (fun x => id x =? id r) rows) as [x|] eqn:F.
  - apply find_some in F. destruct F as [Hin E]. apply Z.eqb_eq in E.
    pose proof (next_id_above id rows x Hin). lia.
  - simpl. now rewrite Z.eqb_refl.
Qed.

(** A validated quantity is one of "1" .. "5" and [int] reads it. *)
Lemma quantity_validated (form : OrderForm.t) :
  OrderForm.validate form = true ->
  exists q, Str.int (OrderForm.quantity form) = Some q /\ 1 <= q <= 5.
Proof.
  unfold OrderForm.validate. intros H.
  apply andb_prop in H. destruct H as [_ H].
  apply andb_prop in H. destruct H as [H _].
  apply mem_in in H. simpl in H.
  destruct H as [<- | [<- | [<- | [<- | [<- | []]]]]];
    [exists 1 | exists 2 | exists 3 | exists 4 | exists 5];
    (split; [reflexivity | lia]).
Qed.

Lemma keeps_orders_refl (d : DB) : keeps_orders d d.
Proof. split; exists []; now rewrite app_nil_r. Qed.

Lemma keeps_orders_trans (d1 d2 d3 : DB) :
  keeps_orders d1 d2 -> keeps_orders d2 d3 -> keeps_orders d1 d3.
Proof.
  intros [[a Ha] [b Hb]] [[a' Ha'] [b' Hb']]. split.
  - exists (a ++ a'). now rewrite Ha', Ha, app_assoc.
  - exists (b ++ b'). now rewrite Hb', Hb, app_assoc.
Qed.

Lemma keeps_orders_same (d d' : DB) :
  orders d' = orders d -> order_items d' = order_items d -> keeps_orders d d'.
Proof.
  intros Ho Hi. unfold keeps_orders. rewrite Ho, Hi.
  split; exists []; now rewrite app_nil_r.
Qed.

Lemma mark_read_orders (su me : User.t) (loaded : list Message.t) (d : DB) :
  orders (mark_read su me loaded d) = orders d
  /\ order_items (mark_read su me loaded d) = order_items d
  /\ users (mark_read su me loaded d) = users d
  /\ products (mark_read su me loaded d) = products d.
Proof.
  unfold mark_read. revert d.
  induction loaded as [|m loaded IH]; intros d; simpl; [repeat split|].
  destruct (unread_from su me m).
  - destruct (IH (with_messages d
                    (update Message.id (Message.id m)
                            (fun m0 => Message.set_is_read m0 true)
                            (messages d)))) as [A [B [C D]]].
    rewrite A, B, C, D. repeat split.
  - apply IH.
Qed.

Lemma update_status_keys (k : Z) (s : string) (l : list Order.t) :
  map order_key (update Order.id k (fun o => Order.set_status o s) l)
  = map order_key l.
Proof.
  unfold update. rewrite map_map. apply map_ext. intros o.
  now destruct (Order.id o =? k).
Qed.

Ltac split_cases :=
  repeat match goal with
         | |- context [match ?x with _ => _ end] => destruct x eqn:?
         end.

Ltac unchanged := simpl; apply keeps_orders_same; reflexivity.

(** How the selection of [admin_messages] ends: in the exception, with
    nothing loaded and the world as it was, or with the conversation of a
    user of the table loaded and marked. *)
Lemma select_user_inv (user_id : option Z) (me : User.t) (w : World) :
  select_user user_id me w = None
  \/ (exists sel,
         select_user user_id me w = Some (sel, [], w)
         /\ forall su, sel = Some su -> In su (users (db w)))
  \/ (exists su shown,
         In su (users (db w))
         /\ select_user user_id me w
            = Some (Some su, shown,
                    with_db w (mark_read su me
                                 (conversation (db w) (User.id me) (User.id su))
                                 (db w)))).
Proof.
  unfold select_user. destruct user_id as [k|].
  2:{ right. left. exists None. split; [reflexivity | discriminate]. }
  destruct (k =? 0).
  { right. left. exists None. split; [reflexivity | discriminate]. }
  destruct (get User.id (users (db w)) k) as [su|] eqn:G.
  - apply get_in in G. destruct G as [Hin _].
    destruct (negb (User.is_admin su)).
    + right. right. exists su. eexists. split; [exact Hin | reflexivity].
    + right. left. exists (Some su). split; [reflexivity|].
      intros su' E. injection E as <-. exact Hin.
  - destruct (int64 k); [|now left].
    right. left. exists None. split; [reflexivity | discriminate].
Qed.

Lemma admin_messages_keeps_orders (user_id : option Z) (form : MessageForm.t)
      (req : Request) (w : World) :
  keeps_orders (db w) (db (snd (admin_messages user_id form req w))).
Proof.
  unfold admin_messages, admin_required, login_required.
  destruct (current_user w) as [me|] eqn:Hme; [|unchanged].
  destruct (negb (current_user_is_admin w)); [unchanged|].
  destruct (select_user_inv user_id me w)
    as [E | [[sel [E _]] | [su [shown [_ E]]]]]; rewrite E.
  - unchanged.
  - destruct (validate_on_submit req (MessageForm.validate form));
      [destruct sel|]; unchanged.
  - destruct (mark_read_orders su me
                (conversation (db w) (User.id me) (User.id su)) (db w))
      as [A [B _]].
    destruct (validate_on_submit req (MessageForm.validate form));
      simpl; apply keeps_orders_same; simpl; assumption.
Qed.

(** No route rewrites or removes an order item, or changes the id or the
    total price of an order. *)
Lemma view_function_keeps_orders (r : Route) (req : Request) (w : World) :
  keeps_orders (db w) (db (snd (view_function r req w))).
Proof.
  destruct r; simpl.
  - unchanged.
  - unchanged.
  - unfold product_detail. split_cases; try unchanged.
    unfold keeps_orders. simpl. split; eexists; [rewrite map_app|]; reflexivity.
  - unfold signup. split_cases; unchanged.
  - unfold login. split_cases; unchanged.
  - unfold logout, login_required. split_cases; unchanged.
  - unfold user_profile, login_required. split_cases; unchanged.
  - unfold messages_page, login_required. split_cases; unchanged.
  - unfold admin_dashboard, admin_required, login_required.
    split_cases; unchanged.
  - unfold admin_products, admin_required, login_required.
    split_cases; unchanged.
  - unfold add_product, admin_required, login_required.
    split_cases; unchanged.
  - unfold edit_product, admin_required, login_required.
    split_cases; unchanged.
  - unfold delete_product, admin_required, login_required.
    split_cases; unchanged.
  - unfold admin_orders, admin_required, login_required.
    split_cases; unchanged.
  - unfold update_order_status, admin_required, login_required.
    split_cases; try unchanged.
    unfold keeps_orders. simpl. split; [|exists []; now rewrite app_nil_r].
    exists []. now rewrite update_status_keys, app_nil_r.
  - unfold admin_users, admin_required, login_required.
    split_cases; unchanged.
  - apply admin_messages_keeps_orders.
Qed.

Lemma serve_keeps_orders (rs : list (Route * Request)) (w : World) :
  keeps_orders (db w) (db (serve Email generate_password_hash
                                 check_password_hash secure_filename to_float rs w)).
Proof.
  revert w. induction rs as [|[r req] rs IH]; intros w; simpl.
  - apply keeps_orders_refl.
  - eapply keeps_orders_trans; [apply view_function_keeps_orders | apply IH].
Qed.

Lemma validate_on_submit_fields (req : Request) (b : bool) :
  validate_on_submit req b = true ->
  method req = POST /\ csrf_valid req = true /\ b = true.
Proof.
  unfold validate_on_submit. destruct (method req); [discriminate|].
  intros H. apply andb_prop in H. now destruct H.
Qed.

Lemma get_order_kept (l l' : list Order.t) (more : list (Z * float)) (k : Z)
      (o : Order.t) :
  map order_key l' = map order_key l ++ more ->
  get Order.id l k = Some o ->
  exists o', get Order.id l' k = Some o' /\ order_key o' = order_key o.
Proof.
  unfold get. revert l'. induction l as [|x l IH]; intros l' Hm; simpl;
    [discriminate|].
  destruct l' as [|x' l']; [discriminate|]. cbn [map app] in Hm.
  injection Hm as Hid Htp Hm. simpl.
  rewrite Hid. destruct (Order.id x =? k).
  - intros H. injection H as <-. exists x'. split; [reflexivity|].
    unfold order_key. now rewrite Hid, Htp.
  - now apply IH.
Qed.

Lemma get_item_kept (l more : list OrderItem.t) (k : Z) (i : OrderItem.t) :
  get OrderItem.id l k = Some i -> get OrderItem.id (l ++ more) k = Some i.
Proof. unfold get. intros H. now rewrite find_app_split, H. Qed.

(** C1: an order placed by a logged-in user for an existing product, with
    the validated quantity [q] and the product's price [p] at that moment,
    adds exactly one order, of total price [p * q], and exactly one order
    item, of that order and with [price_at_order = p]; and whatever requests
    are served afterwards (changes of the product's price among them) the
    order still has that total price and the item is the same row. *)
Theorem place_order_snapshot (product_id : Z) (form : OrderForm.t)
        (req : Request) (w : World) (user : User.t) (product : Product.t) :
  current_user w = Some user ->
  get Product.id (products (db w)) product_id = Some product ->
  validate_on_submit req (OrderForm.validate form) = true ->
  let w1 := snd (product_detail product_id form req w) in
  exists q order item,
    Str.int (OrderForm.quantity form) = Some q /\ 1 <= q <= 5
    /\ db w1 = with_order_items
                 (with_orders (db w) (orders (db w) ++ [order]))
                 (order_items (db w) ++ [item])
    /\ Order.total_price order = float_mul_int (Product.price product) q
    /\ Order.user_id order = User.id user
    /\ OrderItem.order_id item = Order.id order
    /\ OrderItem.product_id item = Product.id product
    /\ OrderItem.quantity item = q
    /\ OrderItem.price_at_order item = Product.price product
    /\ forall later : list (Route * Request),
         let w2 := serve Email generate_password_hash check_password_hash
                         secure_filename to_float later w1 in
         (exists order',
             get Order.id (orders (db w2)) (Order.id order) = Some order'
             /\ Order.total_price order' = Order.total_price order)
         /\ get OrderItem.id (order_items (db w2)) (OrderItem.id item)
            = Some item.
Proof.
  intros Hu Hp Hv w1.
  destruct (validate_on_submit_fields _ _ Hv) as [_ [_ Hf]].
  destruct (quantity_validated form Hf) as [q [Hq Hr]].
  set (order := Order.mk (next_id Order.id (orders (db w))) (User.id user)
                         (now req) (float_mul_int (Product.price product) q)
                         (OrderForm.customer_name form)
                         (OrderForm.customer_address form)
                         (OrderForm.customer_contact form) "Pending").
  set (item := OrderItem.mk (next_id OrderItem.id (order_items (db w)))
                            (Order.id order) (Product.id product) q
                            (Product.price product)).
  assert (Hdb : db w1 = with_order_items
                          (with_orders (db w) (orders (db w) ++ [order]))
                          (order_items (db w) ++ [item])).
  { subst w1. unfold product_detail. rewrite Hp, Hv, Hu, Hq. reflexivity. }
  clearbody w1.
  pose proof (get_app_new Order.id (orders (db w)) order eq_refl) as Hno.
  pose proof (get_app_new OrderItem.id (order_items (db w)) item eq_refl)
    as Hni.
  exists q, order, item.
  do 9 (split; [first [exact Hq | exact Hr | exact Hdb | reflexivity]|]).
  clearbody order item. intros later w2. subst w2.
  destruct (serve_keeps_orders later w1) as [[mo Ho] [mi Hi]].
  rewrite Hdb in Ho, Hi. cbn [orders order_items with_order_items with_orders]
    in Ho, Hi.
  split.
  - destruct (get_order_kept _ _ mo _ _ Ho Hno) as [o' [Hg Hk]].
    exists o'. split; [exact Hg|]. unfold order_key in Hk. now injection Hk.
  - rewrite Hi. now apply get_item_kept.
Qed.

(** *** Messages *)

(** What the marking loop leaves in the table: a row is read when one of
    the loaded messages that passed the test has its id. *)
Lemma mark_read_messages (su me : User.t) (loaded : list Message.t) (d : DB) :
  messages (mark_read su me loaded d)
  = map (fun m =>
           if existsb (fun l => (Message.id l =? Message.id m)
                                && unread_from su me l) loaded
           then Message.set_is_read m true else m)
        (messages d).
Proof.
  unfold mark_read. revert d.
  induction loaded as [|l loaded IH]; intros d; simpl.
  - symmetry. apply map_id.
  - rewrite IH. destruct (unread_from su me l) eqn:U; simpl.
    + unfold update. rewrite map_map. apply map_ext. intros m.
      rewrite (Z.eqb_sym (Message.id l) (Message.id m)).
      destruct (Message.id m =? Message.id l) eqn:E; simpl.
      * now destruct (existsb _ loaded).
      * reflexivity.
    + apply map_ext. intros m. now rewrite andb_false_r.
Qed.

Lemma same_id_same_row {R : Type} (id : R -> Z) (rows : list R) (x y : R) :
  NoDup (map id rows) -> In x rows -> In y rows -> id x = id y -> x = y.
Proof.
  induction rows as [|r rows IH]; simpl; [contradiction|].
  intros Hnd Hx Hy E. inversion Hnd as [|? ? Hr Hrest]; subst.
  destruct Hx as [-> | Hx], Hy as [-> | Hy].
  - reflexivity.
  - exfalso. apply Hr. rewrite E. now apply in_map.
  - exfalso. apply Hr. rewrite <- E. now apply in_map.
  - now apply IH.
Qed.

Lemma set_is_read_already (m : Message.t) :
  Message.is_read m = true -> Message.set_is_read m true = m.
Proof. destruct m. simpl. now intros ->. Qed.

(** On the loaded conversation the loop marks exactly the messages the
    selected user sent to the admin. *)
Lemma mark_read_conversation (su me : User.t) (d : DB) :
  NoDup (map Message.id (messages d)) ->
  messages (mark_read su me (conversation d (User.id me) (User.id su)) d)
  = map (fun m => if sent_by_to (User.id su) (User.id me) m
                  then Message.set_is_read m true else m)
        (messages d).
Proof.
  intros Hnd. rewrite mark_read_messages. apply map_ext_in. intros m Hm.
  destruct (existsb _ _) eqn:X.
  - apply existsb_exists in X. destruct X as [l [Hl Ht]].
    apply andb_prop in Ht. destruct Ht as [Hid Hu].
    unfold conversation in Hl. apply in_sort_by in Hl.
    apply filter_In in Hl. destruct Hl as [Hl _]. apply Z.eqb_eq in Hid.
    assert (l = m) by (eapply same_id_same_row; eauto). subst l.
    unfold unread_from in Hu. apply andb_prop in Hu. destruct Hu as [Hu _].
    unfold sent_by_to. now rewrite Hu.
  - destruct (sent_by_to (User.id su) (User.id me) m) eqn:S; [|reflexivity].
    destruct (Message.is_read m) eqn:R;
      [symmetry; now apply set_is_read_already|].
    exfalso. apply Bool.not_true_iff_false in X. apply X.
    apply existsb_exists. exists m. split.
    + unfold conversation. apply in_sort_by. apply filter_In. split; [exact Hm|].
      unfold between. unfold sent_by_to in S. rewrite S. apply orb_true_r.
    + rewrite Z.eqb_refl. unfold unread_from. unfold sent_by_to in S.
      now rewrite S, R.
Qed.

(** C7: when an admin opens the conversation with a selected user who is
    not an admin, every message that user sent to the admin has its fields
    as before and [is_read = true] afterwards, and every other row of the
    message table, the admin's own messages to that user among them, is
    exactly as before; a reply posted with the same request is appended
    after them, and no other table changes.  Message ids are the primary
    key of the table. *)
Theorem admin_view_marks_read (k : Z) (form : MessageForm.t) (req : Request)
        (w : World) (me su : User.t) :
  current_user w = Some me ->
  User.is_admin me = true ->
  k <> 0 ->
  get User.id (users (db w)) k = Some su ->
  User.is_admin su = false ->
  NoDup (map Message.id (messages (db w))) ->
  let w' := snd (admin_messages (Some k) form req w) in
  exists reply,
    messages (db w')
    = map (fun m => if sent_by_to (User.id su) (User.id me) m
                    then Message.mk (Message.id m) (Message.sender_id m)
                                    (Message.receiver_id m)
                                    (Message.message_text m)
                                    (Message.timestamp m) true
                    else m)
          (messages (db w)) ++ reply
    /\ (validate_on_submit req (MessageForm.validate form) = false ->
        reply = [])
    /\ (forall m, In m reply ->
                  Message.sender_id m = User.id me
                  /\ Message.receiver_id m = Some (User.id su))
    /\ users (db w') = users (db w)
    /\ products (db w') = products (db w)
    /\ orders (db w') = orders (db w)
    /\ order_items (db w') = order_items (db w).
Proof.
  intros Hme Hadm Hk Hsu Hna Hnd w'. subst w'.
  assert (Hcur : current_user_is_admin w = true).
  { unfold current_user_is_admin. now rewrite Hme. }
  unfold admin_messages. rewrite (admin_required_admin _ _ _ Hcur).
  rewrite Hme. unfold select_user.
  apply Z.eqb_neq in Hk. rewrite Hk, Hsu, Hna.
  cbn [negb].
  destruct (mark_read_orders su me
              (conversation (db w) (User.id me) (User.id su)) (db w))
    as [A [B [C D]]].
  pose proof (mark_read_conversation su me (db w) Hnd) as M.
  unfold Message.set_is_read in M.
  destruct (validate_on_submit req (MessageForm.validate form)).
  - eexists. cbn [snd db flash with_db add_message messages with_messages users
                  products orders order_items].
    rewrite M. split; [reflexivity|]. split; [discriminate|].
    split; [|repeat split; assumption].
    intros m [<- | []]. split; reflexivity.
  - exists []. unfold render_template_string, raised.
    cbn [snd db with_db]. rewrite M, app_nil_r.
    split; [reflexivity|]. split; [reflexivity|].
    split; [intros m []|]. repeat split; assumption.
Qed.

(** An admin's message with no selected user, or with the id of no user,
    is dropped without a word: the world is as it was. *)
Lemma admin_message_without_user (user_id : option Z) (form : MessageForm.t)
      (req : Request) (w : World) :
  current_user_is_admin w = true ->
  (user_id = None
   \/ exists k, user_id = Some k
                /\ (k = 0 \/ get User.id (users (db w)) k = None)) ->
  snd (admin_messages user_id form req w) = w.
Proof.
  intros Hadm H. unfold admin_messages.
  rewrite (admin_required_admin _ _ _ Hadm).
  destruct (admin_is_current w Hadm) as [me [Hme _]]. rewrite Hme.
  unfold select_user.
  destruct H as [-> | [k [-> [-> | Hk]]]].
  - destruct (validate_on_submit req (MessageForm.validate form));
      now rewrite render_same.
  - cbn [Z.eqb].
    destruct (validate_on_submit req (MessageForm.validate form));
      now rewrite render_same.
  - rewrite Hk. destruct (k =? 0); [|destruct (int64 k)];
      [| |now rewrite raised_same];
      destruct (validate_on_submit req (MessageForm.validate form));
      now rewrite render_same.
Qed.

(** *** The keys are kept *)

Lemma NoDup_next_id {R : Type} (id : R -> Z) (rows : list R) (r : R) :
  NoDup (map id rows) -> id r = next_id id rows ->
  NoDup (map id (rows ++ [r])).
Proof.
  intros Hnd Hid. rewrite map_app. apply NoDup_app; [exact Hnd | |].
  - simpl. constructor; [intros [] | constructor].
  - intros k Hk [<- | []]. apply in_map_iff in Hk.
    destruct Hk as [x [Hx Hin]].
    pose proof (next_id_above id rows x Hin). lia.
Qed.

Lemma well_keyed_same (d d' : DB) :
  users d' = users d -> messages d' = messages d ->
  well_keyed d -> well_keyed d'.
Proof. unfold well_keyed. now intros -> ->. Qed.

Lemma well_keyed_add_message (a b : Z) (text : string) (req : Request)
      (d : DB) :
  well_keyed d -> well_keyed (add_message a b text req d).
Proof.
  intros [Hu Hm]. split; [exact Hu|]. unfold add_message.
  cbn [messages with_messages]. now apply NoDup_next_id.
Qed.

Lemma well_keyed_mark_read (su me : User.t) (loaded : list Message.t)
      (d : DB) :
  well_keyed d -> well_keyed (mark_read su me loaded d).
Proof.
  intros [Hu Hm]. destruct (mark_read_orders su me loaded d) as [_ [_ [U _]]].
  split; [now rewrite U|]. rewrite mark_read_messages, map_map.
  erewrite map_ext; [exact Hm|]. intros m. now destruct (existsb _ loaded).
Qed.

Lemma admin_messages_well_keyed (user_id : option Z) (form : MessageForm.t)
      (req : Request) (w : World) :
  well_keyed (db w) ->
  well_keyed (db (snd (admin_messages user_id form req w))).
Proof.
  intros H. unfold admin_messages, admin_required, login_required.
  destruct (current_user w) as [me|]; [|exact H].
  destruct (negb (current_user_is_admin w)); [exact H|].
  destruct (select_user_inv user_id me w)
    as [E | [[sel [E _]] | [su [shown [_ E]]]]]; rewrite E.
  - exact H.
  - destruct (validate_on_submit req (MessageForm.validate form));
      [destruct sel|]; [now apply well_keyed_add_message | exact H | exact H].
  - pose proof (well_keyed_mark_read su me
                  (conversation (db w) (User.id me) (User.id su))
                  (db w) H) as H'.
    destruct (validate_on_submit req (MessageForm.validate form));
      [now apply well_keyed_add_message | exact H'].
Qed.

Lemma signup_well_keyed (form : RegistrationForm.t) (req : Request)
      (w : World) :
  well_keyed (db w) ->
  well_keyed (db (snd (signup Email generate_password_hash form req w))).
Proof.
  intros [Hu Hm]. unfold signup. destruct (current_user w); [now split|].
  destruct (validate_on_submit req _) eqn:V; [|now split].
  destruct (validate_on_submit_fields _ _ V) as [_ [_ F]].
  unfold RegistrationForm_validate in F. rewrite !andb_true_iff in F.
  destruct F as [[[_ [[_ _] E]] _] _].
  split; [|exact Hm]. cbn [snd db flash with_db users with_users].
  rewrite map_app. apply NoDup_app; [exact Hu | |].
  - simpl. constructor; [intros [] | constructor].
  - intros e He [<- | []]. cbn [User.email] in He.
    apply in_map_iff in He. destruct He as [u [Hue Hin]].
    unfold RegistrationForm.validate_email in E.
    destruct (find _ (users (db w))) eqn:Fd; [discriminate|].
    rewrite find_none_iff in Fd. specialize (Fd u Hin). simpl in Fd.
    rewrite Hue, String.eqb_refl in Fd. discriminate.
Qed.

Ltac keyed H := simpl; apply (fun d' U M => well_keyed_same _ d' U M H);
                reflexivity.

(** Every route keeps the emails unique and the message ids distinct. *)
Lemma view_function_well_keyed (r : Route) (req : Request) (w : World) :
  well_keyed (db w) -> well_keyed (db (snd (view_function r req w))).
Proof.
  intros H. destruct r; simpl.
  - exact H.
  - exact H.
  - unfold product_detail. split_cases; keyed H.
  - now apply signup_well_keyed.
  - unfold login. split_cases; keyed H.
  - unfold logout, login_required. split_cases; keyed H.
  - unfold user_profile, login_required. split_cases; keyed H.
  - unfold messages_page, login_required. split_cases; try keyed H.
    now apply well_keyed_add_message.
  - unfold admin_dashboard, admin_required, login_required.
    split_cases; keyed H.
  - unfold admin_products, admin_required, login_required.
    split_cases; keyed H.
  - unfold add_product, admin_required, login_required.
    split_cases; keyed H.
  - unfold edit_product, admin_required, login_required.
    split_cases; keyed H.
  - unfold delete_product, admin_required, login_required.
    split_cases; keyed H.
  - unfold admin_orders, admin_required, login_required.
    split_cases; keyed H.
  - unfold update_order_status, admin_required, login_required.
    split_cases; keyed H.
  - unfold admin_users, admin_required, login_required.
    split_cases; keyed H.
  - now apply admin_messages_well_keyed.
Qed.

Lemma serve_well_keyed (rs : list (Route * Request)) (w : World) :
  well_keyed (db w) ->
  well_keyed (db (serve Email generate_password_hash check_password_hash
                        secure_filename to_float rs w)).
Proof.
  revert w. induction rs as [|[r req] rs IH]; intros w H; simpl;
    [exact H|].
  apply IH. now apply view_function_well_keyed.
Qed.

End Properties.

(** ** Further properties of the routes *)

Section Further.

Variable Email : string -> bool.
Variable generate_password_hash : string -> string -> string.
Variable check_password_hash : string -> string -> bool.
Variable secure_filename : string -> string.
Variable to_float : Decimal.t -> float.

(** *** Sorting *)

Lemma insert_sorted_perm {A : Type} (le : A -> A -> bool) (x : A) (l : list A) :
  Permutation (insert_sorted le x l) (x :: l).
Proof.
  induction l as [|y l IH]; simpl; [reflexivity|].
  destruct (le x y); [reflexivity|].
  rewrite IH. apply perm_swap.
Qed.

Lemma sort_by_perm {A : Type} (le : A -> A -> bool) (l : list A) :
  Permutation (sort_by le l) l.
Proof.
  induction l as [|x l IH]; simpl; [reflexivity|].
  rewrite insert_sorted_perm. now constructor.
Qed.

Lemma insert_sorted_neighbours {A : Type} (le : A -> A -> bool) (x : A)
      (l : list A) :
  (forall a b, le a b = true \/ le b a = true) ->
  Sorted (fun a b => le a b = true) l ->
  Sorted (fun a b => le a b = true) (insert_sorted le x l).
Proof.
  intros Htot. induction l as [|y l IH]; intros Hl; simpl.
  - repeat constructor.
  - destruct (le x y) eqn:E.
    + constructor; [exact Hl | now constructor].
    + inversion Hl as [|? ? Hs Hh]; subst. constructor; [now apply IH|].
      assert (Hyx : le y x = true).
      { destruct (Htot x y) as [H | H]; [congruence | exact H]. }
      destruct l as [|z l]; simpl; [now constructor|].
      destruct (le x z); constructor; [exact Hyx|].
      now inversion Hh.
Qed.

Lemma sort_by_ordered {A : Type} (le : A -> A -> bool) (l : list A) :
  (forall a b, le a b = true \/ le b a = true) ->
  (forall a b c, le a b = true -> le b c = true -> le a c = true) ->
  ordered le (sort_by le l).
Proof.
  intros Htot Htr. apply Sorted_StronglySorted.
  - intros a b c. apply Htr.
  - induction l as [|x l IH]; simpl; [constructor|].
    now apply insert_sorted_neighbours.
Qed.

Lemma ascii_compare_cases (a b : ascii) :
  (Ascii.compare a b = Lt /\ (N_of_ascii a < N_of_ascii b)%N)
  \/ (Ascii.compare a b = Eq /\ a = b)
  \/ (Ascii.compare a b = Gt /\ (N_of_ascii b < N_of_ascii a)%N).
Proof.
  unfold Ascii.compare.
  destruct (N.compare_spec (N_of_ascii a) (N_of_ascii b)) as [H|H|H].
  - right. left. split; [reflexivity|].
    rewrite <- (ascii_N_embedding a), <- (ascii_N_embedding b). now rewrite H.
  - left. now split.
  - right. right. now split.
Qed.

Lemma string_leb_trans (a b c : string) :
  String.leb a b = true -> String.leb b c = true -> String.leb a c = true.
Proof.
  unfold String.leb. revert b c.
  induction a as [|x a IH]; intros b c.
  - destruct c; simpl; reflexivity.
  - destruct b as [|y b]; simpl; [discriminate|].
    destruct c as [|z c]; simpl.
    + intros _ H. discriminate H.
    + destruct (ascii_compare_cases x y) as [[E1 H1]|[[E1 H1]|[E1 H1]]];
        rewrite E1;
        destruct (ascii_compare_cases y z) as [[E2 H2]|[[E2 H2]|[E2 H2]]];
        rewrite E2;
        try discriminate; intros Ha Hb;
        destruct (ascii_compare_cases x z) as [[E3 H3]|[[E3 H3]|[E3 H3]]];
        rewrite E3;
        subst; try reflexivity; try lia;
        try (rewrite E1 in E3; discriminate);
        try (rewrite E2 in E3; discriminate).
      all: try (apply (IH b c); assumption).
      all: try (exfalso; rewrite ?E1, ?E2 in *; lia).
Qed.

Lemma sort_by_key_ordered {A : Type} (key : A -> string) (l : list A) :
  ordered (fun x y => String.leb (key x) (key y))
          (sort_by (fun x y => String.leb (key x) (key y)) l).
Proof.
  apply sort_by_ordered.
  - intros a b. apply String.leb_total.
  - intros a b c. apply string_leb_trans.
Qed.

Lemma sort_by_newest_ordered {A : Type} (key : A -> Z) (l : list A) :
  ordered (fun x y => key y <=? key x)
          (sort_by (fun x y => key y <=? key x) l).
Proof.
  apply sort_by_ordered.
  - intros a b. destruct (Z.leb_spec (key b) (key a)); [now left|].
    right. apply Z.leb_le. lia.
  - intros a b c H1 H2. apply Z.leb_le in H1, H2. apply Z.leb_le. lia.
Qed.

(** *** The catalogue pages *)

(** The listing is in the order of the product names, shows products of
    the catalogue only, and without any filter shows the whole catalogue,
    each product once for each of its rows. *)
Theorem listing_alphabetical (a : Filters.t) (d : DB) :
  ordered (fun x y => String.leb (Product.name x) (Product.name y))
          (all_products a d)
  /\ (forall p, In p (all_products a d) -> In p (products d))
  /\ (unfiltered a -> Permutation (all_products a d) (products d)).
Proof.
  split; [apply sort_by_key_ordered|]. split.
  - intros p. unfold all_products. rewrite in_sort_by.
    unfold if_given, if_not_none. intros H.
    repeat match type of H with
           | In _ (match ?x with _ => _ end) => destruct x
           | In _ (if ?x then _ else _) => destruct x
           | In _ (filter _ _) => apply filter_In in H; destruct H as [H _]
           end; exact H.
  - intros (Hc & Hm & Hlo & Hhi & Hq). unfold all_products.
    rewrite sort_by_perm, Hlo, Hhi. unfold if_not_none, if_given.
    destruct (Filters.category a) as [c|];
      [rewrite (Hc c eq_refl)|];
      (destruct (Filters.material a) as [m|];
       [rewrite (Hm m eq_refl)|]);
      (destruct (Filters.search a) as [q|];
       [rewrite (Hq q eq_refl)|]);
      reflexivity.
Qed.

Lemma in_skipn_in {A : Type} (n : nat) (l : list A) (y : A) :
  In y (skipn n l) -> In y l.
Proof.
  revert l. induction n as [|n IH]; intros l; [now simpl|].
  destruct l as [|z l]; simpl; [contradiction|]. intros H. right. now apply IH.
Qed.

Lemma in_firstn_in {A : Type} (n : nat) (l : list A) (y : A) :
  In y (firstn n l) -> In y l.
Proof.
  revert l. induction n as [|n IH]; intros l; [now simpl|].
  destruct l as [|z l]; simpl; [contradiction|].
  intros [-> | H]; [now left | right; now apply IH].
Qed.

Lemma ordered_firstn_skipn {A : Type} (le : A -> A -> bool) (l : list A)
      (n : nat) (x y : A) :
  ordered le l -> In x (firstn n l) -> In y (skipn n l) -> le x y = true.
Proof.
  unfold ordered. revert n. induction l as [|z l IH]; intros n Hs Hx Hy.
  - destruct n; contradiction.
  - destruct n as [|n]; [contradiction|]. simpl in Hx, Hy.
    inversion Hs as [|? ? Hl Hz]; subst. destruct Hx as [-> | Hx].
    + rewrite Forall_forall in Hz. apply Hz. now apply (in_skipn_in n).
    + now apply (IH n).
Qed.

Lemma ordered_firstn {A : Type} (le : A -> A -> bool) (l : list A) (n : nat) :
  ordered le l -> ordered le (firstn n l).
Proof.
  unfold ordered. revert n. induction l as [|z l IH]; intros n Hs.
  - destruct n; constructor.
  - destruct n as [|n]; [constructor|]. simpl.
    inversion Hs as [|? ? Hl Hz]; subst. constructor; [now apply IH|].
    rewrite Forall_forall in *. intros x Hx. apply Hz.
    now apply (in_firstn_in n).
Qed.

(** The products the home handler selects for the page are at most three,
    newest first, all from the catalogue, and a product added later than a
    selected one is selected too; the page itself is never produced: the
    request ends in the server error of the rendering and changes
    nothing. *)
Theorem home_features_newest (req : Request) (w : World) :
  let featured := featured_products (db w) in
  home req w = (Abort 500, w)
  /\ List.length featured = Nat.min 3 (List.length (products (db w)))
  /\ ordered (fun x y => Product.date_added y <=? Product.date_added x)
             featured
  /\ (forall p, In p featured -> In p (products (db w)))
  /\ (forall p q, In p featured -> In q (products (db w)) ->
                  Product.date_added p < Product.date_added q ->
                  In q featured).
Proof.
  unfold home, featured_products. rewrite render_same. cbv zeta.
  set (newest := sort_by (fun x y => Product.date_added y <=? Product.date_added x)
                         (products (db w))).
  assert (Hs : ordered (fun x y => Product.date_added y <=? Product.date_added x)
                       newest) by apply sort_by_newest_ordered.
  split; [reflexivity|]. split; [|split; [|split]].
  - rewrite length_firstn. unfold newest.
    now rewrite (Permutation_length (sort_by_perm _ _)).
  - now apply ordered_firstn.
  - intros p Hp. apply in_firstn_in in Hp. unfold newest in Hp.
    now apply in_sort_by in Hp.
  - intros p q Hp Hq Hlt.
    assert (Hq' : In q newest) by (unfold newest; now apply in_sort_by).
    rewrite <- (firstn_skipn 3 newest) in Hq'. apply in_app_or in Hq'.
    destruct Hq' as [Hq' | Hq']; [exact Hq'|].
    pose proof (ordered_firstn_skipn _ _ _ _ _ Hs Hp Hq') as H.
    apply Z.leb_le in H. lia.
Qed.

Lemma distinct_sorted_spec (l : list string) :
  NoDup (distinct_sorted l)
  /\ ordered String.leb (distinct_sorted l)
  /\ (forall x, In x (distinct_sorted l) <-> In x l).
Proof.
  unfold distinct_sorted. split; [|split].
  - apply (Permutation_NoDup (l := nodup string_dec l)).
    + symmetry. apply sort_by_perm.
    + apply NoDup_nodup.
  - apply (sort_by_key_ordered (fun x => x)).
  - intros x. rewrite in_sort_by. apply nodup_In.
Qed.

(** The category and material choices the listing handler computes for its
    two menus are the categories and materials of the products of the
    catalogue, each once, in order; the page itself is never produced: the
    request ends in the server error of the rendering and changes
    nothing. *)
Theorem filter_choices_distinct (a : Filters.t) (req : Request) (w : World) :
  products_page a req w = (Abort 500, w)
  /\ NoDup (categories (db w)) /\ ordered String.leb (categories (db w))
  /\ (forall c, In c (categories (db w))
                <-> exists p, In p (products (db w))
                              /\ Product.category p = c)
  /\ NoDup (materials (db w)) /\ ordered String.leb (materials (db w))
  /\ (forall m, In m (materials (db w))
                <-> exists p, In p (products (db w))
                              /\ Product.material p = m).
Proof.
  unfold products_page, categories, materials. rewrite render_same.
  destruct (distinct_sorted_spec (map Product.category (products (db w))))
    as (C1 & C2 & C3).
  destruct (distinct_sorted_spec (map Product.material (products (db w))))
    as (M1 & M2 & M3).
  split; [reflexivity|].
  repeat split; try assumption.
  - intros H. apply C3, in_map_iff in H. destruct H as [p [E Hp]]. now exists p.
  - intros [p [Hp E]]. apply C3, in_map_iff. now exists p.
  - intros H. apply M3, in_map_iff in H. destruct H as [p [E Hp]]. now exists p.
  - intros [p [Hp E]]. apply M3, in_map_iff. now exists p.
Qed.

(** *** Conversations *)

(** The conversation of two users holds exactly the messages one of them
    sent to the other, oldest first, and is the same whichever of the two
    asks for it. *)
Theorem conversation_spec (d : DB) (a b : Z) :
  (forall m, In m (conversation d a b)
             <-> In m (messages d)
                 /\ (sent_by_to a b m = true \/ sent_by_to b a m = true))
  /\ ordered (fun x y => Message.timestamp x <=? Message.timestamp y)
             (conversation d a b)
  /\ conversation d a b = conversation d b a.
Proof.
  split; [|split].
  - intros m. unfold conversation. rewrite in_sort_by, filter_In.
    unfold between, sent_by_to. now rewrite orb_true_iff.
  - unfold conversation. apply sort_by_ordered.
    + intros x y.
      destruct (Z.leb_spec (Message.timestamp x) (Message.timestamp y));
        [now left|]. right. apply Z.leb_le. lia.
    + intros x y z H1 H2. apply Z.leb_le in H1, H2. apply Z.leb_le. lia.
  - unfold conversation. f_equal. apply filter_ext. intros m.
    unfold between. apply orb_comm.
Qed.

Lemma opt_eqb_eq (o : option Z) (k : Z) : opt_eqb o k = true <-> o = Some k.
Proof.
  destruct o as [x|]; simpl; [|split; discriminate].
  rewrite Z.eqb_eq. split; [now intros -> | now intros [= ->]].
Qed.

(** A message text is accepted exactly when it is not made of white space
    only (so not empty) and has at most 500 characters. *)
Theorem message_text_accepted (text : string) :
  MessageForm.validate (MessageForm.mk text) = true
  <-> Str.all_space text = false /\ Str.len text <= 500.
Proof.
  unfold MessageForm.validate, DataRequired, Length, Str.strip_truthy,
    Str.truthy, Str.len. simpl.
  destruct text as [|c text]; simpl.
  - split; [discriminate | intros [H _]; discriminate].
  - rewrite !andb_true_iff, negb_true_iff, Z.leb_le. split.
    + intros [H [_ L]]. apply Z.leb_le in L. now split.
    + intros [H L]. split; [exact H|]. split; [lia | now apply Z.leb_le].
Qed.

(** The message route of a logged-in user, an admin account being there:
    without a valid post nothing is stored and no page is produced (the
    request ends in the server error of the rendering); the conversation
    the handler loads, with the first admin, holds only messages from or
    to the user; a valid post stores exactly one message, from the user to
    that admin, unread, stamped with the time of the request, and that
    message is in the conversation of the two, whichever of them asks. *)
Theorem user_message_page (form : MessageForm.t) (req : Request) (w : World)
        (user admin_user : User.t) :
  current_user w = Some user ->
  find User.is_admin (users (db w)) = Some admin_user ->
  let r := messages_page form req w in
  (validate_on_submit req (MessageForm.validate form) = false ->
   r = (Abort 500, w))
  /\ (forall m,
        In m (conversation (db w) (User.id user) (User.id admin_user)) ->
        In m (messages (db w))
        /\ (Message.sender_id m = User.id user
            \/ Message.receiver_id m = Some (User.id user)))
  /\ (validate_on_submit req (MessageForm.validate form) = true ->
      let m := Message.mk (next_id Message.id (messages (db w)))
                          (User.id user) (Some (User.id admin_user))
                          (MessageForm.message_text form) (now req) false in
      r = (Redirect To_messages,
           flash "Your message has been sent to the admin!" "success"
                 (with_db w (with_messages (db w) (messages (db w) ++ [m]))))
      /\ In m (conversation (db (snd r)) (User.id user) (User.id admin_user))
      /\ In m (conversation (db (snd r)) (User.id admin_user) (User.id user))).
Proof.
  intros Hu Ha r. subst r. unfold messages_page, login_required.
  rewrite Hu, Ha. split; [|split]; [intros V; rewrite V | | intros V; rewrite V].
  - apply render_same.
  - intros m Hm.
    apply (proj1 (conversation_spec _ _ _)) in Hm.
    destruct Hm as [Hin [H | H]]; split; try exact Hin;
      unfold sent_by_to in H; apply andb_prop in H; destruct H as [H1 H2].
    + left. now apply Z.eqb_eq.
    + right. now apply opt_eqb_eq.
  - cbv zeta. split; [reflexivity|].
    assert (H : forall a b,
               sent_by_to a b
                 (Message.mk (next_id Message.id (messages (db w)))
                             (User.id user) (Some (User.id admin_user))
                             (MessageForm.message_text form) (now req) false)
               = true \/
               sent_by_to b a
                 (Message.mk (next_id Message.id (messages (db w)))
                             (User.id user) (Some (User.id admin_user))
                             (MessageForm.message_text form) (now req) false)
               = true ->
               In (Message.mk (next_id Message.id (messages (db w)))
                              (User.id user) (Some (User.id admin_user))
                              (MessageForm.message_text form) (now req) false)
                  (conversation
                     (add_message (User.id user) (User.id admin_user)
                                  (MessageForm.message_text form) req (db w))
                     a b)).
    { intros a b H. apply (proj1 (conversation_spec _ _ _)). split; [|exact H].
      unfold add_message. simpl. apply in_or_app. right. now left. }
    split; apply H; [left | right]; unfold sent_by_to; simpl;
      now rewrite !Z.eqb_refl.
Qed.

(** Without an admin account nobody can send a message: the user is sent
    home with a notice and nothing is stored. *)
Theorem messaging_needs_admin (form : MessageForm.t) (req : Request)
        (w : World) (user : User.t) :
  current_user w = Some user ->
  (forall u, In u (users (db w)) -> User.is_admin u = false) ->
  messages_page form req w
  = (Redirect To_home,
     flash "Admin user not found. Messaging not available." "danger" w).
Proof.
  intros Hu Hn. unfold messages_page, login_required. rewrite Hu.
  apply find_none_iff in Hn. now rewrite Hn.
Qed.

(** *** Accounts *)

(** The orders the profile handler loads are the orders of the logged-in
    user and no others, newest first; the page itself is never produced:
    the request ends in the server error of the rendering and changes
    nothing. *)
Theorem profile_shows_own_orders (req : Request) (w : World) (user : User.t) :
  current_user w = Some user ->
  let shown := user_orders (db w) user in
  user_profile req w = (Abort 500, w)
  /\ (forall o, In o shown
                <-> In o (orders (db w)) /\ Order.user_id o = User.id user)
  /\ ordered (fun x y => Order.order_date y <=? Order.order_date x) shown.
Proof.
  intros Hu. unfold user_profile, login_required, user_orders. rewrite Hu.
  rewrite render_same. cbv zeta. split; [reflexivity|]. split.
  - intros o. rewrite in_sort_by, filter_In. now rewrite Z.eqb_eq.
  - apply sort_by_newest_ordered.
Qed.

(** A visitor who is not logged in gets, from every route behind
    [login_required] (the admin routes included), a redirect to the login
    page and the login notice; the handler does not run and nothing else
    changes. *)
Theorem protected_routes_ask_login (r : Route) (req : Request) (w : World) :
  login_protected r = true ->
  current_user w = None ->
  exists next,
    view_function Email generate_password_hash check_password_hash
                  secure_filename to_float r req w
    = (Redirect (To_login next),
       flash "Please log in to access this page." "info" w).
Proof.
  intros Hr Hu. exists (Some (Str.path_and_query (url req))).
  destruct r; simpl in Hr; try discriminate Hr; simpl;
    try apply (admin_required_anonymous _ req w Hu);
    unfold logout, user_profile, messages_page, login_required;
    now rewrite Hu.
Qed.

(** Logging out ends the session and touches neither the database nor the
    upload folder: afterwards the visitor is anonymous. *)
Theorem logout_ends_session (req : Request) (w : World) (u : User.t) :
  current_user w = Some u ->
  logout req w
  = (Redirect To_home, flash "You have been logged out." "info" (logout_user w))
  /\ current_user (snd (logout req w)) = None
  /\ db (snd (logout req w)) = db w
  /\ upload_folder (snd (logout req w)) = upload_folder w.
Proof.
  intros Hu. unfold logout, login_required. rewrite Hu. repeat split.
Qed.

Lemma registration_fields (d : DB) (form : RegistrationForm.t) :
  RegistrationForm_validate Email d form = true ->
  (forall u, In u (users d) ->
             User.username u <> RegistrationForm.username form
             /\ User.email u <> RegistrationForm.email form)
  /\ DataRequired (RegistrationForm.email form) = true
  /\ Email (RegistrationForm.email form) = true
  /\ DataRequired (RegistrationForm.password form) = true
  /\ 2 <= Str.len (RegistrationForm.username form) <= 20
  /\ 6 <= Str.len (RegistrationForm.password form)
  /\ RegistrationForm.confirm_password form = RegistrationForm.password form.
Proof.
  unfold RegistrationForm_validate. rewrite !andb_true_iff.
  intros [[[[[Du Lu] Vu] [[De Ee] Ve]] [Dp Lp]] [_ Ec]].
  split; [|repeat split; try assumption].
  - intros u Hin. unfold RegistrationForm.validate_username,
      RegistrationForm.validate_email in *.
    destruct (find (fun x => User.username x =? _)%string (users d)) eqn:Fu;
      [discriminate|].
    destruct (find (fun x => User.email x =? _)%string (users d)) eqn:Fe;
      [discriminate|].
    rewrite find_none_iff in Fu, Fe. specialize (Fu u Hin).
    specialize (Fe u Hin). simpl in Fu, Fe.
    now apply String.eqb_neq in Fu, Fe.
  - unfold Length, DataRequired in *. apply andb_prop in Du.
    destruct Du as [Du _]. rewrite Du in Lu. apply andb_prop in Lu.
    destruct Lu as [Lu _]. now apply Z.leb_le.
  - unfold Length, DataRequired in *. apply andb_prop in Du.
    destruct Du as [Du _]. rewrite Du in Lu. apply andb_prop in Lu.
    destruct Lu as [_ Lu]. simpl in Lu. now apply Z.leb_le.
  - unfold Length, DataRequired in *. apply andb_prop in Dp.
    destruct Dp as [Dp _]. rewrite Dp in Lp. apply andb_prop in Lp.
    destruct Lp as [Lp _]. now apply Z.leb_le.
  - now apply String.eqb_eq.
Qed.

(** A registration that validates, by a visitor who is not logged in, adds
    exactly one user: not an admin, with a new id, with the username and
    email of the form, which no existing user has, and with the hash of the
    password; the username has 2 to 20 characters and the password at
    least 6. *)
Theorem signup_creates_user (form : RegistrationForm.t) (req : Request)
        (w : World) :
  current_user w = None ->
  validate_on_submit req (RegistrationForm_validate Email (db w) form) = true ->
  let user := User.mk (next_id User.id (users (db w)))
                      (RegistrationForm.username form)
                      (RegistrationForm.email form)
                      (Some (generate_password_hash
                               (salt req) (RegistrationForm.password form)))
                      false in
  signup Email generate_password_hash form req w
  = (Redirect (To_login None),
     flash "Your account has been created! You can now log in." "success"
           (with_db w (with_users (db w) (users (db w) ++ [user]))))
  /\ (forall u, In u (users (db w)) ->
                User.id u < User.id user
                /\ User.username u <> User.username user
                /\ User.email u <> User.email user)
  /\ 2 <= Str.len (User.username user) <= 20
  /\ 6 <= Str.len (RegistrationForm.password form).
Proof.
  intros Hu V user. unfold signup. rewrite Hu, V.
  destruct (validate_on_submit_fields _ _ V) as [_ [_ F]].
  destruct (registration_fields _ _ F) as (Hfresh & _ & _ & _ & Hl & Hp & _).
  split; [reflexivity|]. split; [|now split].
  intros u Hin. destruct (Hfresh u Hin) as [Hn He].
  split; [|now split]. exact (next_id_above User.id _ u Hin).
Qed.

(** Registration and login fit together: after a registration that
    validates, by a visitor without a session, a login with the same email
    and password, posted with a valid token, logs the new user in, provided
    the password checks against the hash just made of it. *)
Theorem signup_then_login (form : RegistrationForm.t) (req req' : Request)
        (next : option string) (w : World) :
  session w = None ->
  validate_on_submit req (RegistrationForm_validate Email (db w) form) = true ->
  check_password_hash
    (generate_password_hash (salt req) (RegistrationForm.password form))
    (RegistrationForm.password form) = true ->
  method req' = POST ->
  csrf_valid req' = true ->
  let w1 := snd (signup Email generate_password_hash form req w) in
  exists user,
    login Email check_password_hash
          (LoginForm.mk (RegistrationForm.email form)
                        (RegistrationForm.password form)) next req' w1
    = (Redirect (next_or_home next),
       flash "Login successful!" "success" (login_user user w1))
    /\ In user (users (db w1))
    /\ User.username user = RegistrationForm.username form
    /\ User.is_admin user = false.
Proof.
  intros Hs V Hc Hm Ht w1.
  assert (Hu : current_user w = None) by (unfold current_user; now rewrite Hs).
  destruct (signup_creates_user form req w Hu V) as (E & Hfresh & _).
  destruct (validate_on_submit_fields _ _ V) as [_ [_ F]].
  destruct (registration_fields _ _ F) as (Hf & De & Ee & Dp & _).
  subst w1. rewrite E. cbn [snd].
  eexists. split; [|split; [|split]].
  - unfold login, current_user. cbn [session flash with_db]. rewrite Hs.
    unfold validate_on_submit, LoginForm_validate. rewrite Hm, Ht.
    cbn [LoginForm.email LoginForm.password]. rewrite De, Ee, Dp.
    cbn [andb db flash with_db users with_users].
    rewrite find_app_split.
    assert (Hnone : find (fun u => (User.email u =? RegistrationForm.email form)%string)
                         (users (db w)) = None).
    { apply find_none_iff. intros u Hin. apply String.eqb_neq.
      exact (proj2 (Hf u Hin)). }
    rewrite Hnone. cbn [find User.email]. rewrite String.eqb_refl.
    cbn [User.password_hash]. rewrite Hc. reflexivity.
  - cbn [db flash with_db users with_users]. apply in_or_app. right. now left.
  - reflexivity.
  - reflexivity.
Qed.

(** *** What a request can change *)

Lemma admin_required_refused (f : Handler) (req : Request) (w : World) :
  current_user_is_admin w = false ->
  exists resp message category,
    admin_required f req w = (resp, flash message category w).
Proof.
  intros H. unfold admin_required, login_required.
  destruct (current_user w) eqn:Hu.
  - rewrite H. simpl. eauto.
  - eauto.
Qed.

Ltac branches :=
  repeat match goal with
         | |- context [match ?x with _ => _ end] => destruct x eqn:?
         end.

Ltac refused H :=
  match goal with
  | |- context [admin_required ?f ?req ?w] =>
      let resp := fresh "resp" in
      let msg := fresh "msg" in
      let cat := fresh "cat" in
      let E := fresh "E" in
      destruct (admin_required_refused f req w H) as (resp & msg & cat & E);
      rewrite E
  end.

Ltac adds_only :=
  simpl; repeat split;
  first [reflexivity | exists []; now rewrite app_nil_r | eexists; reflexivity].

(** Somebody who is not an admin (logged in or not) can only add rows:
    whatever the request, the products and the upload folder are as they
    were, and the users, orders, order items and messages that were there
    are there unchanged, in place, possibly followed by new ones. *)
Theorem non_admin_only_adds (r : Route) (req : Request) (w : World) :
  current_user_is_admin w = false ->
  let w' := snd (view_function Email generate_password_hash
                               check_password_hash secure_filename to_float r req w) in
  products (db w') = products (db w)
  /\ upload_folder w' = upload_folder w
  /\ (exists more, users (db w') = users (db w) ++ more)
  /\ (exists more, orders (db w') = orders (db w) ++ more)
  /\ (exists more, order_items (db w') = order_items (db w) ++ more)
  /\ (exists more, messages (db w') = messages (db w) ++ more).
Proof.
  intros H. destruct r; cbn [view_function];
    unfold admin_dashboard, admin_products, add_product, edit_product,
      delete_product, admin_orders, update_order_status, admin_users,
      admin_messages;
    try (refused H; adds_only).
  - adds_only.
  - adds_only.
  - unfold product_detail. branches; adds_only.
  - unfold signup. branches; adds_only.
  - unfold login. branches; adds_only.
  - unfold logout, login_required. branches; adds_only.
  - unfold user_profile, login_required. branches; adds_only.
  - unfold messages_page, login_required. branches; adds_only.
Qed.

(** A visitor who is not logged in can change the database in one way
    only, by registering: every other route leaves the database and the
    upload folder as they were. *)
Theorem anonymous_only_signs_up (r : Route) (req : Request) (w : World) :
  current_user w = None ->
  let w' := snd (view_function Email generate_password_hash
                               check_password_hash secure_filename to_float r req w) in
  upload_folder w' = upload_folder w
  /\ (db w' = db w
      \/ exists form user,
           r = R_signup form
           /\ db w' = with_users (db w) (users (db w) ++ [user])
           /\ User.is_admin user = false).
Proof.
  intros Hu.
  assert (H : current_user_is_admin w = false).
  { unfold current_user_is_admin. now rewrite Hu. }
  destruct r; cbn [view_function];
    unfold admin_dashboard, admin_products, add_product, edit_product,
      delete_product, admin_orders, update_order_status, admin_users,
      admin_messages;
    try (refused H; split; [reflexivity | now left]).
  - split; [reflexivity | now left].
  - split; [reflexivity | now left].
  - unfold product_detail. rewrite Hu.
    branches; (split; [reflexivity | now left]).
  - unfold signup. rewrite Hu.
    destruct (validate_on_submit req _); (split; [reflexivity|]);
      [right | now left].
    eexists. eexists. split; [reflexivity|]. split; reflexivity.
  - unfold login. rewrite Hu.
    branches; (split; [reflexivity | now left]).
  - unfold logout, login_required. rewrite Hu. split; [reflexivity | now left].
  - unfold user_profile, login_required. rewrite Hu.
    split; [reflexivity | now left].
  - unfold messages_page, login_required. rewrite Hu.
    split; [reflexivity | now left].
Qed.

(** What [admin_messages] does to the world, whoever asks. *)
Lemma admin_messages_shape (user_id : option Z) (form : MessageForm.t)
      (req : Request) (w : World) :
  let w' := snd (admin_messages user_id form req w) in
  users (db w') = users (db w)
  /\ products (db w') = products (db w)
  /\ orders (db w') = orders (db w)
  /\ order_items (db w') = order_items (db w)
  /\ upload_folder w' = upload_folder w
  /\ exists g more,
       messages (db w') = map g (messages (db w)) ++ more
       /\ (forall m, g m = m \/ g m = Message.set_is_read m true)
       /\ (more = []
           \/ exists me su,
                current_user w = Some me /\ In su (users (db w))
                /\ more = [Message.mk
                             (next_id Message.id (map g (messages (db w))))
                             (User.id me) (Some (User.id su))
                             (MessageForm.message_text form) (now req) false]).
Proof.
  assert (Hid : exists g : Message.t -> Message.t,
             messages (db w) = map g (messages (db w))
             /\ forall m, g m = m \/ g m = Message.set_is_read m true).
  { exists (fun m => m). split; [now rewrite map_id | now left]. }
  assert (Same : forall (resp : Response) w0,
             db w0 = db w -> upload_folder w0 = upload_folder w ->
             let w' := snd (resp, w0) in
             users (db w') = users (db w)
             /\ products (db w') = products (db w)
             /\ orders (db w') = orders (db w)
             /\ order_items (db w') = order_items (db w)
             /\ upload_folder w' = upload_folder w
             /\ exists g more,
                  messages (db w') = map g (messages (db w)) ++ more
                  /\ (forall m, g m = m \/ g m = Message.set_is_read m true)
                  /\ (more = []
                      \/ exists me su,
                           current_user w = Some me /\ In su (users (db w))
                           /\ more = [Message.mk
                                        (next_id Message.id
                                                 (map g (messages (db w))))
                                        (User.id me) (Some (User.id su))
                                        (MessageForm.message_text form)
                                        (now req) false])).
  { intros resp w0 Hd Hf. cbn [snd]. rewrite Hd. repeat split; try exact Hf.
    destruct Hid as [g [Hg1 Hg2]]. exists g, []. rewrite app_nil_r.
    repeat split; [exact Hg1 | exact Hg2 | now left]. }
  assert (Sent : forall (resp : Response) msg cat (su me : User.t) d1 g,
             current_user w = Some me -> In su (users (db w)) ->
             users d1 = users (db w) -> products d1 = products (db w) ->
             orders d1 = orders (db w) -> order_items d1 = order_items (db w) ->
             messages d1 = map g (messages (db w)) ->
             (forall m, g m = m \/ g m = Message.set_is_read m true) ->
             let w' := snd (resp,
                            flash msg cat
                              (with_db w
                                 (add_message (User.id me) (User.id su)
                                    (MessageForm.message_text form) req d1))) in
             users (db w') = users (db w)
             /\ products (db w') = products (db w)
             /\ orders (db w') = orders (db w)
             /\ order_items (db w') = order_items (db w)
             /\ upload_folder w' = upload_folder w
             /\ exists g more,
                  messages (db w') = map g (messages (db w)) ++ more
                  /\ (forall m, g m = m \/ g m = Message.set_is_read m true)
                  /\ (more = []
                      \/ exists me su,
                           current_user w = Some me /\ In su (users (db w))
                           /\ more = [Message.mk
                                        (next_id Message.id
                                                 (map g (messages (db w))))
                                        (User.id me) (Some (User.id su))
                                        (MessageForm.message_text form)
                                        (now req) false])).
  { intros resp msg cat su me d1 g Hme Hsu U P O I M G.
    cbn [snd db flash with_db add_message users products orders order_items
         messages with_messages upload_folder].
    repeat split; try assumption. exists g. eexists. rewrite M.
    split; [reflexivity|]. split; [exact G|]. right. exists me, su.
    repeat split; assumption. }
  unfold admin_messages, admin_required, login_required,
    render_template_string, raised.
  destruct (current_user w) as [me|] eqn:Hme; [|now apply Same].
  destruct (negb (current_user_is_admin w)); [now apply Same|].
  destruct (select_user_inv user_id me w)
    as [E | [[sel [E Hsel]] | [su [shown [Hsu E]]]]]; rewrite E.
  - now apply Same.
  - destruct (validate_on_submit req (MessageForm.validate form));
      [destruct sel as [su|]|]; try now apply Same.
    destruct Hid as [g [Hg1 Hg2]].
    eapply (Sent _ _ _ su me (db w) g); eauto.
  - destruct (mark_read_orders su me
                (conversation (db w) (User.id me) (User.id su)) (db w))
      as (O & I & U & P).
    pose proof (mark_read_messages su me
                  (conversation (db w) (User.id me) (User.id su)) (db w))
      as M.
    destruct (validate_on_submit req (MessageForm.validate form)).
    + change (with_db (with_db w ?d) ?d') with (with_db w d').
      eapply Sent; eauto.
      intros m. cbv beta. destruct (existsb _ _); [now right | now left].
    + cbn [snd db with_db upload_folder]. repeat split; try assumption.
      eexists. exists []. rewrite app_nil_r. split; [exact M|].
      split; [|now left].
      intros m. cbv beta. destruct (existsb _ _); [now right | now left].
Qed.

Lemma app_nil_more {A : Type} (l : list A) (P : A -> Prop) :
  exists more, l = l ++ more /\ Forall P more.
Proof. exists []. split; [now rewrite app_nil_r | constructor]. Qed.

(** No route edits or removes a user, and the users a route adds are not
    admins. *)
Lemma view_function_users (r : Route) (req : Request) (w : World) :
  exists more,
    users (db (snd (view_function Email generate_password_hash
                                  check_password_hash secure_filename to_float r req w)))
    = users (db w) ++ more
    /\ Forall (fun u => User.is_admin u = false) more.
Proof.
  destruct r; cbn [view_function];
    try (unfold product_detail, login, logout, user_profile, messages_page,
         admin_dashboard, admin_products, add_product, edit_product,
         delete_product, admin_orders, update_order_status, admin_users,
         admin_required, login_required;
         branches; simpl; apply app_nil_more).
  - unfold signup. branches; simpl; try apply app_nil_more.
    eexists. split; [reflexivity|]. repeat constructor.
  - destruct (admin_messages_shape user_id form req w) as (U & _).
    rewrite U. apply app_nil_more.
Qed.

(** Whatever requests are served, the user rows that were there stay as
    they are and every account added since is not an admin: no request
    makes an admin, and the admin accounts are those of the start. *)
Theorem no_route_grants_admin (rs : list (Route * Request)) (w : World) :
  let w' := serve Email generate_password_hash check_password_hash
                  secure_filename to_float rs w in
  exists more,
    users (db w') = users (db w) ++ more
    /\ Forall (fun u => User.is_admin u = false) more
    /\ filter User.is_admin (users (db w'))
       = filter User.is_admin (users (db w)).
Proof.
  cbv zeta. revert w. induction rs as [|[r req] rs IH]; intros w; simpl.
  - exists []. rewrite app_nil_r. repeat split. constructor.
  - destruct (view_function_users r req w) as (m1 & E1 & F1).
    destruct (IH (snd (view_function Email generate_password_hash
                                     check_password_hash secure_filename to_float
                                     r req w))) as (m2 & E2 & F2 & G2).
    exists (m1 ++ m2). rewrite G2, E2, E1, app_assoc. repeat split.
    + apply Forall_app. now split.
    + rewrite filter_app.
      assert (N : filter User.is_admin m1 = []).
      { clear -F1. induction F1 as [|u l Hu _ IHl]; simpl; [reflexivity|].
        now rewrite Hu. }
      rewrite N. apply app_nil_r.
Qed.

(** *** The schema is kept *)

Lemma update_keeps_ids {R : Type} (id : R -> Z) (k : Z) (f : R -> R)
      (rows : list R) :
  (forall x, id (f x) = id x) -> map id (update id k f rows) = map id rows.
Proof.
  intros Hf. unfold update. rewrite map_map. apply map_ext. intros x.
  destruct (id x =? k); [apply Hf | reflexivity].
Qed.

Lemma update_const_ids {R : Type} (id : R -> Z) (k : Z) (p : R)
      (rows : list R) :
  id p = k -> map id (update id k (fun _ => p) rows) = map id rows.
Proof.
  intros Hp. unfold update. rewrite map_map. apply map_ext. intros x.
  destruct (id x =? k) eqn:E; [|reflexivity].
  apply Z.eqb_eq in E. congruence.
Qed.

Lemma delete_nodup {R : Type} (id : R -> Z) (k : Z) (rows : list R) :
  NoDup (map id rows) -> NoDup (map id (delete id k rows)).
Proof.
  unfold delete. induction rows as [|x rows IH]; simpl; [constructor|].
  intros H. inversion H as [|? ? Hx Hr]; subst.
  destruct (negb (id x =? k)); [|now apply IH]. simpl.
  constructor; [|now apply IH]. intros Hin. apply Hx.
  apply in_map_iff in Hin. destruct Hin as [y [E Hy]].
  apply filter_In in Hy. apply in_map_iff. exists y. now split.
Qed.

Lemma NoDup_app_fresh {A B : Type} (f : A -> B) (l : list A) (x : A) :
  NoDup (map f l) -> (forall a, In a l -> f a <> f x) ->
  NoDup (map f (l ++ [x])).
Proof.
  intros Hl Hx. rewrite map_app. apply NoDup_app; [exact Hl | |].
  - simpl. constructor; [intros [] | constructor].
  - intros b Hb [<- | []]. apply in_map_iff in Hb.
    destruct Hb as [a [E Ha]]. exact (Hx a Ha E).
Qed.

Ltac keys H :=
  first
    [ exact H
    | let K1 := fresh "K" in
      let K2 := fresh "K" in
      let K3 := fresh "K" in
      let K4 := fresh "K" in
      let K5 := fresh "K" in
      let K6 := fresh "K" in
      let K7 := fresh "K" in
      destruct H as (K1 & K2 & K3 & K4 & K5 & K6 & K7);
      unfold schema_keys;
      cbn [db snd flash with_db with_files users products orders order_items
           messages with_users with_products with_orders with_order_items
           with_messages add_message commit_product];
      repeat split;
      first
        [ assumption
        | apply NoDup_next_id; [assumption | reflexivity]
        | rewrite update_const_ids; [assumption | reflexivity]
        | rewrite update_keeps_ids; [assumption | reflexivity]
        | apply delete_nodup; assumption ] ].

Lemma signup_schema_keys (form : RegistrationForm.t) (req : Request)
      (w : World) :
  schema_keys (db w) ->
  schema_keys (db (snd (signup Email generate_password_hash form req w))).
Proof.
  intros H. unfold signup. destruct (current_user w) eqn:Hu; [exact H|].
  destruct (validate_on_submit req _) eqn:V; [|exact H].
  destruct (signup_creates_user form req w Hu V) as (_ & Hfresh & _).
  destruct H as (K1 & K2 & K3 & K4 & K5 & K6 & K7).
  unfold schema_keys. cbn [db snd flash with_db users products orders
                           order_items messages with_users].
  repeat split; try assumption.
  - apply NoDup_next_id; [assumption | reflexivity].
  - apply NoDup_app_fresh; [assumption|]. intros u Hin. apply Hfresh, Hin.
  - apply NoDup_app_fresh; [assumption|]. intros u Hin. apply Hfresh, Hin.
Qed.

Lemma view_function_schema_keys (r : Route) (req : Request) (w : World) :
  schema_keys (db w) ->
  schema_keys (db (snd (view_function Email generate_password_hash
                                      check_password_hash secure_filename to_float
                                      r req w))).
Proof.
  intros H. destruct r; cbn [view_function];
    try (unfold product_detail, login, logout, user_profile, messages_page,
         admin_dashboard, admin_products, add_product, edit_product,
         delete_product, admin_orders, update_order_status, admin_users,
         admin_required, login_required;
         branches; keys H).
  - now apply signup_schema_keys.
  - destruct (admin_messages_shape user_id form req w)
      as (U & P & O & I & _ & g & more & M & G & N).
    destruct H as (K1 & K2 & K3 & K4 & K5 & K6 & K7).
    unfold schema_keys. rewrite U, P, O, I, M. repeat split; try assumption.
    assert (Hg : map Message.id (map g (messages (db w)))
                 = map Message.id (messages (db w))).
    { rewrite map_map. apply map_ext. intros m.
      destruct (G m) as [-> | ->]; reflexivity. }
    destruct N as [-> | (me & su & _ & _ & ->)].
    + now rewrite app_nil_r, Hg.
    + apply NoDup_next_id; [now rewrite Hg | reflexivity].
Qed.

(** Whatever requests are served, the keys of the schema hold afterwards if
    they held before: ids are distinct in every table, and usernames and
    emails are unique. *)
Theorem serve_keeps_schema_keys (rs : list (Route * Request)) (w : World) :
  schema_keys (db w) ->
  schema_keys (db (serve Email generate_password_hash check_password_hash
                         secure_filename to_float rs w)).
Proof.
  revert w. induction rs as [|[r req] rs IH]; intros w H; simpl; [exact H|].
  apply IH. now apply view_function_schema_keys.
Qed.

Lemma references_same (d d' : DB) :
  users d' = users d -> orders d' = orders d ->
  order_items d' = order_items d -> messages d' = messages d ->
  references_hold d -> references_hold d'.
Proof.
  unfold references_hold, is_user. now intros -> -> -> ->.
Qed.

Lemma current_user_in (w : World) (u : User.t) :
  current_user w = Some u -> is_user (db w) (User.id u).
Proof.
  unfold current_user, is_user. destruct (session w) as [k|]; [|discriminate].
  intros H. apply get_in in H. destruct H as [H _]. now apply in_map.
Qed.

Lemma references_new_order (d : DB) (o : Order.t) (i : OrderItem.t) :
  references_hold d -> is_user d (Order.user_id o) ->
  OrderItem.order_id i = Order.id o ->
  references_hold (with_order_items (with_orders d (orders d ++ [o]))
                                    (order_items d ++ [i])).
Proof.
  intros (Ho & Hi & Hm) Hu Hio. unfold references_hold, is_user in *.
  cbn [users orders order_items messages with_orders with_order_items].
  split; [|split; [|exact Hm]].
  - intros x Hx. apply in_app_or in Hx.
    destruct Hx as [Hx | [<- | []]]; [now apply Ho | exact Hu].
  - intros x Hx. rewrite map_app. apply in_or_app. apply in_app_or in Hx.
    destruct Hx as [Hx | [<- | []]]; [left; now apply Hi|].
    right. rewrite Hio. now left.
Qed.

Lemma references_new_message (d : DB) (a b : Z) (text : string)
      (req : Request) :
  references_hold d -> is_user d a -> is_user d b ->
  references_hold (add_message a b text req d).
Proof.
  intros (Ho & Hi & Hm) Ha Hb. unfold references_hold, is_user, add_message in *.
  cbn [users orders order_items messages with_messages].
  split; [exact Ho | split; [exact Hi|]].
  intros m Hx. apply in_app_or in Hx. destruct Hx as [Hx | [<- | []]].
  - now apply Hm.
  - cbn [Message.sender_id Message.receiver_id]. split; [exact Ha|].
    now intros k [= <-].
Qed.

Lemma references_new_user (d : DB) (u : User.t) :
  references_hold d -> references_hold (with_users d (users d ++ [u])).
Proof.
  intros (Ho & Hi & Hm). unfold references_hold, is_user in *.
  cbn [users orders order_items messages with_users].
  assert (Up : forall k, In k (map User.id (users d)) ->
                         In k (map User.id (users d ++ [u]))).
  { intros k Hk. rewrite map_app. apply in_or_app. now left. }
  split; [|split; [exact Hi|]].
  - intros o Hin. now apply Up, Ho.
  - intros m Hin. destruct (Hm m Hin) as [Hs Hr]. split; [now apply Up|].
    intros k Hk. now apply Up, Hr.
Qed.

Lemma references_new_status (d : DB) (k : Z) (st : string) :
  references_hold d ->
  references_hold
    (with_orders d (update Order.id k (fun o => Order.set_status o st)
                           (orders d))).
Proof.
  intros (Ho & Hi & Hm). unfold references_hold, is_user in *.
  cbn [users orders order_items messages with_orders].
  split; [|split; [|exact Hm]].
  - intros o Hin. unfold update in Hin. apply in_map_iff in Hin.
    destruct Hin as [x [E Hx]]. specialize (Ho x Hx).
    destruct (Order.id x =? k); subst o; exact Ho.
  - intros i Hin. rewrite update_keeps_ids; [now apply Hi | reflexivity].
Qed.

Ltac refs H Hu :=
  first
    [ exact H
    | apply (fun d' A B C D => references_same _ d' A B C D H); reflexivity
    | apply references_new_status; exact H
    | apply references_new_user; exact H
    | apply references_new_order;
      [exact H | exact (current_user_in _ _ Hu) | reflexivity] ].

Lemma view_function_references (r : Route) (req : Request) (w : World) :
  references_hold (db w) ->
  references_hold (db (snd (view_function Email generate_password_hash
                                          check_password_hash secure_filename to_float
                                          r req w))).
Proof.
  intros H. destruct r; cbn [view_function].
  - exact H.
  - exact H.
  - unfold product_detail.
    destruct (get Product.id (products (db w)) product_id); [|exact H].
    destruct (validate_on_submit req (OrderForm.validate form)); [|exact H].
    destruct (current_user w) as [user|] eqn:Hu; [|exact H].
    destruct (Str.int (OrderForm.quantity form)); [|exact H].
    cbn [snd db flash with_db order_items with_orders].
    apply references_new_order;
      [exact H | exact (current_user_in _ _ Hu) | reflexivity].
  - unfold signup. destruct (current_user w); [exact H|].
    destruct (validate_on_submit req _); [|exact H].
    cbn [snd db flash with_db]. now apply references_new_user.
  - unfold login. branches; exact H.
  - unfold logout, login_required. branches; exact H.
  - unfold user_profile, login_required. branches; exact H.
  - unfold messages_page, login_required.
    destruct (current_user w) as [user|] eqn:Hu; [|exact H].
    destruct (find User.is_admin (users (db w))) as [ad|] eqn:Ha;
      [|exact H].
    destruct (validate_on_submit req (MessageForm.validate form)); [|exact H].
    cbn [snd db flash with_db]. apply references_new_message;
      [exact H | exact (current_user_in _ _ Hu)|].
    apply find_some in Ha. destruct Ha as [Ha _]. unfold is_user.
    now apply in_map.
  - unfold admin_dashboard, admin_required, login_required. branches; exact H.
  - unfold admin_products, admin_required, login_required. branches; exact H.
  - unfold add_product, admin_required, login_required.
    branches; refs H H.
  - unfold edit_product, admin_required, login_required.
    branches; refs H H.
  - unfold delete_product, admin_required, login_required.
    branches; refs H H.
  - unfold admin_orders, admin_required, login_required. branches; exact H.
  - unfold update_order_status, admin_required, login_required.
    branches; refs H H.
  - unfold admin_users, admin_required, login_required. branches; exact H.
  - destruct (admin_messages_shape user_id form req w)
      as (U & P & O & I & _ & g & more & M & G & N).
    destruct H as (Ho & Hi & Hm). unfold references_hold, is_user in *.
    rewrite U, O, I, M. split; [exact Ho | split; [exact Hi|]].
    intros m Hin. apply in_app_or in Hin. destruct Hin as [Hin | Hin].
    + apply in_map_iff in Hin. destruct Hin as [x [E Hx]].
      destruct (G x) as [Eg | Eg]; rewrite Eg in E; subst m;
        exact (Hm x Hx).
    + destruct N as [-> | (me & su & Hme & Hsu & ->)]; [contradiction|].
      destruct Hin as [<- | []].
      cbn [Message.sender_id Message.receiver_id].
      split; [exact (current_user_in _ _ Hme)|].
      intros k [= <-]. now apply in_map.
Qed.

(** Whatever requests are served, the references to users and orders hold
    afterwards if they held before: every order is of a user, every order
    item of an order, every message from a user to a user. *)
Theorem serve_keeps_references (rs : list (Route * Request)) (w : World) :
  references_hold (db w) ->
  references_hold (db (serve Email generate_password_hash check_password_hash
                             secure_filename to_float rs w)).
Proof.
  revert w. induction rs as [|[r req] rs IH]; intros w H; simpl; [exact H|].
  apply IH. now apply view_function_references.
Qed.

Lemma view_function_statuses (r : Route) (req : Request) (w : World) :
  statuses_valid (db w) ->
  statuses_valid (db (snd (view_function Email generate_password_hash
                                         check_password_hash secure_filename to_float
                                         r req w))).
Proof.
  intros H. destruct r; cbn [view_function];
    try (unfold signup, login, logout, user_profile, messages_page,
         admin_dashboard, admin_products, add_product, edit_product,
         delete_product, admin_orders, admin_users,
         admin_required, login_required;
         branches; exact H).
  - unfold product_detail. branches; try exact H.
    unfold statuses_valid in *. cbn [snd db flash with_db orders
                                     with_orders with_order_items].
    intros o Hin. apply in_app_or in Hin.
    destruct Hin as [Hin | [<- | []]]; [now apply H | simpl; auto].
  - unfold update_order_status, admin_required, login_required.
    branches; try exact H.
    unfold statuses_valid in *. cbn [snd db flash with_db orders with_orders].
    intros o Hin. unfold update in Hin. apply in_map_iff in Hin.
    destruct Hin as [x [E Hx]].
    destruct (Order.id x =? Order.id _); subst o; [|now apply H].
    cbn [Order.status Order.set_status]. now apply mem_in.
  - destruct (admin_messages_shape user_id form req w) as (_ & _ & O & _).
    unfold statuses_valid in *. now rewrite O.
Qed.

(** Whatever requests are served, every order stays in one of the five
    states Pending, Processing, Shipped, Delivered, Cancelled. *)
Theorem serve_keeps_statuses (rs : list (Route * Request)) (w : World) :
  statuses_valid (db w) ->
  statuses_valid (db (serve Email generate_password_hash check_password_hash
                            secure_filename to_float rs w)).
Proof.
  revert w. induction rs as [|[r req] rs IH]; intros w H; simpl; [exact H|].
  apply IH. now apply view_function_statuses.
Qed.

(** The user a login leaves logged in is the one whose email was given
    and whose hash the password verified against, never another one (user
    ids being the primary key). *)
Theorem login_identifies_user (form : LoginForm.t) (next : option string)
        (req : Request) (w : World) (u : User.t) :
  current_user w = None ->
  NoDup (map User.id (users (db w))) ->
  current_user (snd (login Email check_password_hash form next req w)) = Some u ->
  In u (users (db w))
  /\ User.email u = LoginForm.email form
  /\ exists h, User.password_hash u = Some h
               /\ check_password_hash h (LoginForm.password form) = true.
Proof.
  intros Hanon Hnd Hu.
  assert (Hne : current_user
                  (snd (login Email check_password_hash form next req w))
                <> None) by (rewrite Hu; discriminate).
  destruct (login_success_inv Email check_password_hash form next req w
                              Hanon Hne) as (u0 & h & F & P & C & _ & E).
  apply find_some in F. destruct F as [Hin He]. apply String.eqb_eq in He.
  rewrite E in Hu. unfold current_user in Hu. simpl in Hu.
  apply get_in in Hu. destruct Hu as [Hin' Hid].
  assert (u = u0) by (eapply same_id_same_row; eauto). subst u0.
  split; [exact Hin | split; [exact He|]]. now exists h.
Qed.

(** *** Managing the catalogue *)



Lemma in_file_remove (name f : string) (fs : list string) :
  In f (file_remove name fs) <-> In f fs /\ f <> name.
Proof.
  unfold file_remove. rewrite filter_In, negb_true_iff.
  now rewrite String.eqb_neq.
Qed.

(** An admin deleting a product that no order item refers to: the row is
    gone and its image file, if it had one, is gone from the upload
    folder; the other products and all other tables are as before, and no
    listing shows a product of that id any more. *)
Theorem delete_product_removes (product_id : Z) (req : Request) (w : World)
        (product : Product.t) :
  current_user_is_admin w = true ->
  get Product.id (products (db w)) product_id = Some product ->
  (forall i, In i (order_items (db w)) ->
             OrderItem.product_id i <> product_id) ->
  let r := delete_product product_id req w in
  fst r = Redirect To_admin_products
  /\ (forall p, In p (products (db (snd r)))
                <-> In p (products (db w)) /\ Product.id p <> product_id)
  /\ (forall a p, In p (all_products a (db (snd r))) ->
                  Product.id p <> product_id)
  /\ (forall f, Product.image_filename product = Some f -> f <> "" ->
                ~ In f (upload_folder (snd r)))
  /\ users (db (snd r)) = users (db w)
  /\ orders (db (snd r)) = orders (db w)
  /\ order_items (db (snd r)) = order_items (db w)
  /\ messages (db (snd r)) = messages (db w).
Proof.
  intros Ha Hg Hi r. subst r. unfold delete_product.
  rewrite (admin_required_admin _ _ _ Ha), Hg.
  destruct (get_in _ _ _ _ Hg) as [Hin Hid].
  assert (Hx : existsb (fun i => OrderItem.product_id i =? Product.id product)
                       (order_items
                          (db (with_files w
                                 (remove_image product (upload_folder w)))))
               = false).
  { apply Bool.not_true_iff_false. intros X. apply existsb_exists in X.
    destruct X as [i [Hini E]]. apply Z.eqb_eq in E.
    apply (Hi i Hini). congruence. }
  rewrite Hx. cbn [fst snd db flash with_db with_files products with_products
                   users orders order_items messages upload_folder].
  assert (Hp : forall p, In p (delete Product.id (Product.id product)
                                      (products (db w)))
                         <-> In p (products (db w)) /\ Product.id p <> product_id).
  { intros p. unfold delete. rewrite filter_In, negb_true_iff, Z.eqb_neq.
    now rewrite Hid. }
  split; [reflexivity|]. split; [exact Hp|]. split; [|split].
  - intros a p Hl.
    apply (proj1 (proj2 (listing_alphabetical a _))) in Hl.
    cbn [products with_products] in Hl. now apply Hp in Hl.
  - intros f Hf Hne. unfold remove_image. rewrite Hf.
    unfold Str.truthy. apply String.eqb_neq in Hne. rewrite Hne. simpl.
    intros Hinf. apply in_file_remove in Hinf. now destruct Hinf.
  - repeat split.
Qed.

Lemma get_update_const {R : Type} (id : R -> Z) (rows : list R) (k : Z)
      (r p : R) :
  id p = k -> get id rows k = Some r ->
  get id (update id k (fun _ => p) rows) k = Some p.
Proof.
  intros Hp. unfold get, update.
  induction rows as [|x rows IH]; simpl; [discriminate|].
  destruct (id x =? k) eqn:E; simpl.
  - intros _. rewrite Hp, Z.eqb_refl. reflexivity.
  - rewrite E. exact IH.
Qed.

Lemma in_file_save (name : string) (fs : list string) :
  In name (file_save name fs).
Proof.
  unfold file_save. destruct (Str.mem name fs) eqn:M.
  - now apply mem_in.
  - apply in_or_app. right. now left.
Qed.

Lemma validate_on_submit_raising_fields (req : Request) (v : option bool) :
  validate_on_submit_raising req v = Some true ->
  method req = POST /\ csrf_valid req = true /\ v = Some true.
Proof.
  unfold validate_on_submit_raising. destruct (method req); [discriminate|].
  destruct v as [b|]; [|discriminate]. intros [= H].
  apply andb_prop in H. destruct H as [-> ->]. now repeat split.
Qed.

(** A product form that validates has a price, a number that is not below
    the float 0.01. *)
Lemma product_form_price (form : ProductForm.t) :
  ProductForm.validate form = Some true ->
  exists price, ProductForm.price form = Some price
                /\ Decimal.ge_float_1_100 price = true.
Proof.
  assert (Valid : forall x b y : bool,
             Some (x && b && y) = Some true -> b = true).
  { intros x b y [= H]. apply andb_prop in H. destruct H as [H _].
    apply andb_prop in H. now destruct H. }
  unfold ProductForm.validate.
  destruct (ProductForm.price form) as [price|];
    cbn [ProductForm.validate_price];
    [|intros H; apply Valid in H; discriminate H].
  intros H. exists price. split; [reflexivity|].
  destruct price as [c e|negative|[|]]; cbn [ProductForm.validate_price] in H;
    try discriminate H; apply Valid in H; try discriminate H;
    apply andb_prop in H; now destruct H.
Qed.

Lemma product_form_category (form : ProductForm.t) :
  ProductForm.validate form = Some true ->
  In (ProductForm.category form) ProductForm.choices.
Proof.
  unfold ProductForm.validate.
  destruct (ProductForm.validate_price (ProductForm.price form));
    [|discriminate].
  intros [= H]. rewrite !andb_true_iff in H.
  destruct H as [[[[_ [M _]] _] _] _]. now apply mem_in.
Qed.

(** An admin's edit of an existing product with a form that validates (its
    price a decimal number not below the float 0.01).  An upload whose name
    is not an allowed file changes nothing, database, folder or notices:
    the request ends in the server error of the rendering.  Otherwise the
    product has the name, category, material and description of the form
    and the float of its price, and keeps its id and date; without an
    upload it keeps its image and the folder is untouched, with an upload
    it gets the secured name of the file, which is in the folder.  In
    every case the other products and the other tables are as before. *)
Theorem edit_product_spec (product_id : Z) (form : ProductForm.t)
        (image : option FileStorage) (req : Request) (w : World)
        (product : Product.t) :
  current_user_is_admin w = true ->
  get Product.id (products (db w)) product_id = Some product ->
  validate_on_submit_raising req (ProductForm.validate form) = Some true ->
  let r := edit_product secure_filename to_float product_id form image req w in
  let uploaded (f : FileStorage) := image = Some f /\ filename f <> "" in
  ((exists f, uploaded f /\ allowed_file (filename f) = false) ->
   r = (Abort 500, w))
  /\ ((forall f, uploaded f -> allowed_file (filename f) = true) ->
      exists p',
        get Product.id (products (db (snd r))) product_id = Some p'
        /\ Product.id p' = product_id
        /\ Product.name p' = ProductForm.name form
        /\ Product.category p' = ProductForm.category form
        /\ Product.material p' = ProductForm.material form
        /\ (exists d, ProductForm.price form = Some d
                      /\ Decimal.ge_float_1_100 d = true
                      /\ Product.price p' = to_float d)
        /\ Product.description p' = ProductForm.description form
        /\ Product.date_added p' = Product.date_added product
        /\ ((forall f, ~ uploaded f) ->
            Product.image_filename p' = Product.image_filename product
            /\ upload_folder (snd r) = upload_folder w)
        /\ (forall f, uploaded f ->
               Product.image_filename p' = Some (secure_filename (filename f))
               /\ In (secure_filename (filename f)) (upload_folder (snd r))))
  /\ (forall p, In p (products (db w)) -> Product.id p <> product_id ->
                In p (products (db (snd r))))
  /\ users (db (snd r)) = users (db w)
  /\ orders (db (snd r)) = orders (db w)
  /\ order_items (db (snd r)) = order_items (db w)
  /\ messages (db (snd r)) = messages (db w).
Proof.
  intros Ha Hg V r uploaded. subst r uploaded. unfold edit_product.
  rewrite (admin_required_admin _ _ _ Ha), Hg, V.
  destruct (validate_on_submit_raising_fields _ _ V) as [_ [_ F]].
  destruct (product_form_price form F) as [d [Hp Hge]]. rewrite Hp.
  set (price := to_float d).
  assert (Hprice : exists d0, Some d = Some d0
                              /\ Decimal.ge_float_1_100 d0 = true
                              /\ price = to_float d0).
  { exists d. now repeat split. }
  destruct (get_in _ _ _ _ Hg) as [Hin Hid].
  assert (Committed :
            forall p' fs,
              Product.id p' = product_id ->
              let w' := flash "Product updated successfully!" "success"
                              (commit_product p' (with_files w fs)) in
              get Product.id (products (db w')) product_id = Some p'
              /\ (forall p, In p (products (db w)) -> Product.id p <> product_id ->
                            In p (products (db w')))
              /\ upload_folder w' = fs).
  { intros p' fs Hp'. cbn [db flash commit_product with_db with_files products
                           with_products upload_folder].
    rewrite Hp'. split; [|split; [|reflexivity]].
    - now apply (get_update_const Product.id _ _ product).
    - intros p Hpin Hne. now apply update_other. }
  destruct image as [f|].
  - destruct (Str.truthy (filename f)) eqn:T.
    + assert (Hne : filename f <> "").
      { unfold Str.truthy in T. apply negb_true_iff in T.
        now apply String.eqb_neq. }
      destruct (allowed_file (filename f)) eqn:A.
      * split; [intros (f0 & [[= <-] _] & A0); congruence|].
        destruct (Committed
                    (set_image_filename (edited product form price)
                                        (secure_filename (filename f)))
                    (file_save (secure_filename (filename f))
                               (remove_image (edited product form price)
                                             (upload_folder w))) Hid)
          as (G & O & U).
        split; [|split; [exact O | repeat split]].
        intros _. eexists. split; [exact G|].
        do 7 (split; [first [reflexivity | exact Hid | exact Hprice]|]).
        split.
        -- intros Hno. exfalso. apply (Hno f). now split.
        -- intros f0 [[= <-] _]. split; [reflexivity|]. cbn [snd]. rewrite U.
           apply in_file_save.
      * rewrite render_flashed. split; [intros _; reflexivity|].
        split; [intros Hall; specialize (Hall f (conj eq_refl Hne)); congruence|].
        cbn [snd]. repeat split. now intros p Hpin _.
    + assert (He : filename f = "").
      { unfold Str.truthy in T. apply negb_false_iff in T.
        now apply String.eqb_eq. }
      split; [intros (f0 & [[= <-] Hne] & _); contradiction|].
      destruct (Committed (edited product form price) (upload_folder w) Hid)
        as (G & O & U).
      replace (with_files w (upload_folder w)) with w in * by (now destruct w).
      split; [|split; [exact O | repeat split]].
      intros _. eexists. split; [exact G|].
      do 7 (split; [first [reflexivity | exact Hid | exact Hprice]|]).
      split.
      * intros _. split; [reflexivity | exact U].
      * intros f0 [[= <-] Hne]. contradiction.
  - split; [intros (f0 & [[=] _] & _)|].
    destruct (Committed (edited product form price) (upload_folder w) Hid)
      as (G & O & U).
    replace (with_files w (upload_folder w)) with w in * by (now destruct w).
    split; [|split; [exact O | repeat split]].
    intros _. eexists. split; [exact G|].
    do 7 (split; [first [reflexivity | exact Hid | exact Hprice]|]).
    split.
    + intros _. split; [reflexivity | exact U].
    + intros f0 [[=] _].
Qed.

(** An admin's product form that validates (its price a decimal number not
    below the float 0.01), with an upload whose name is an allowed file:
    exactly one product is added, with a new id, the texts of the form,
    the float of its price, the time of the request and the secured name
    of the file, and that file is in the upload folder. *)
Theorem add_product_creates (form : ProductForm.t) (f : FileStorage)
        (req : Request) (w : World) :
  current_user_is_admin w = true ->
  validate_on_submit_raising req (ProductForm.validate form) = Some true ->
  filename f <> "" ->
  allowed_file (filename f) = true ->
  let r := add_product secure_filename to_float form (Some f) req w in
  exists p,
    fst r = Redirect To_admin_products
    /\ db (snd r) = with_products (db w) (products (db w) ++ [p])
    /\ (forall q, In q (products (db w)) -> Product.id q < Product.id p)
    /\ Product.name p = ProductForm.name form
    /\ Product.category p = ProductForm.category form
    /\ In (Product.category p) ProductForm.choices
    /\ Product.material p = ProductForm.material form
    /\ (exists d, ProductForm.price form = Some d
                  /\ Decimal.ge_float_1_100 d = true
                  /\ Product.price p = to_float d)
    /\ Product.description p = ProductForm.description form
    /\ Product.date_added p = now req
    /\ Product.image_filename p = Some (secure_filename (filename f))
    /\ In (secure_filename (filename f)) (upload_folder (snd r)).
Proof.
  intros Ha V Hne A r. subst r. unfold add_product.
  rewrite (admin_required_admin _ _ _ Ha), V.
  destruct (validate_on_submit_raising_fields _ _ V) as [_ [_ F]].
  destruct (product_form_price form F) as [d [Hp Hge]].
  unfold image_accepted, Str.truthy. apply String.eqb_neq in Hne.
  rewrite Hne, A. cbn [negb andb]. rewrite Hp.
  eexists. split; [reflexivity|]. split; [reflexivity|].
  split; [intros q Hq; exact (next_id_above Product.id _ q Hq)|].
  do 2 (split; [reflexivity|]).
  split; [exact (product_form_category form F)|].
  split; [reflexivity|].
  split; [exists d; now repeat split|]. do 3 (split; [reflexivity|]).
  cbn [snd flash with_db with_files upload_folder]. apply in_file_save.
Qed.

(** *** Upload names *)

Lemma rsplit1_last_none (c : ascii) (s : string) :
  Str.contains_char c s = false -> Str.rsplit1_last c s = None.
Proof.
  induction s as [|d s IH]; simpl; [reflexivity|].
  intros H. apply orb_false_elim in H. destruct H as [E H].
  now rewrite (IH H), E.
Qed.

Lemma rsplit1_last_app (c : ascii) (stem ext : string) :
  Str.contains_char c ext = false ->
  Str.rsplit1_last c (stem ++ String c ext) = Some ext.
Proof.
  intros H. induction stem as [|d stem IH]; simpl.
  - now rewrite (rsplit1_last_none c ext H), Ascii.eqb_refl.
  - now rewrite IH.
Qed.

Lemma contains_char_app (c : ascii) (stem ext : string) :
  Str.contains_char c (stem ++ String c ext) = true.
Proof.
  induction stem as [|d stem IH]; simpl.
  - now rewrite Ascii.eqb_refl.
  - rewrite IH. apply orb_true_r.
Qed.

(** Only what follows the last dot of a file name decides, letters
    compared without case: a name [stem.ext] whose [ext] has no dot is
    allowed exactly when [ext] in lower case is png, jpg, jpeg or gif, and
    a name without a dot is never allowed. *)
Theorem allowed_file_last_extension (stem ext name : string) :
  (Str.contains_char dot ext = false ->
   allowed_file (stem ++ String dot ext)
   = Str.mem (Str.lower ext) ALLOWED_EXTENSIONS)
  /\ (Str.contains_char dot name = false -> allowed_file name = false).
Proof.
  unfold allowed_file. split; intros H.
  - now rewrite contains_char_app, (rsplit1_last_app dot stem ext H).
  - now rewrite H.
Qed.

(** *** Start-up *)

(** [create_tables], when it succeeds, keeps every row there was, leaves a
    user named admin in the table, adds the admin account (and only that)
    when nobody was named admin, keeps the keys of the schema, and does
    nothing when run again. *)
Theorem create_tables_seeds_once (salt : string) (d d' : DB) :
  create_tables generate_password_hash salt d = Some d' ->
  products d' = products d /\ orders d' = orders d
  /\ order_items d' = order_items d /\ messages d' = messages d
  /\ (exists u, In u (users d') /\ User.username u = "admin")
  /\ (users d' = users d
      \/ exists a,
           users d' = users d ++ [a]
           /\ (forall u, In u (users d) -> User.username u <> "admin")
           /\ User.username a = "admin"
           /\ User.email a = "admin@mdcreations.com"
           /\ User.is_admin a = true
           /\ User.password_hash a
              = Some (generate_password_hash salt "adminpassword"))
  /\ (schema_keys d -> schema_keys d')
  /\ (forall salt', create_tables generate_password_hash salt' d' = Some d').
Proof.
  unfold create_tables.
  destruct (find (fun u => (User.username u =? "admin")%string) (users d))
    as [u|] eqn:F.
  - intros [= <-]. apply find_some in F as F'. destruct F' as [Hin Hn].
    apply String.eqb_eq in Hn. do 4 (split; [reflexivity|]).
    split; [now exists u|]. split; [now left|].
    split; [intros K; exact K|]. intros salt'. now rewrite F.
  - destruct (existsb _ (users d)) eqn:X; [discriminate|].
    intros [= <-]. cbn [users products orders order_items messages with_users].
    assert (Hn : forall u, In u (users d) -> User.username u <> "admin").
    { intros u Hin. rewrite find_none_iff in F. specialize (F u Hin).
      now apply String.eqb_neq. }
    assert (He : forall u, In u (users d) ->
                           User.email u <> "admin@mdcreations.com").
    { intros u Hin E. apply Bool.not_true_iff_false in X. apply X.
      apply existsb_exists. exists u. split; [exact Hin|].
      cbn [User.email]. now apply String.eqb_eq. }
    do 4 (split; [reflexivity|]).
    split; [eexists; split; [apply in_or_app; right; now left | reflexivity]|].
    split; [right; eexists; split; [reflexivity|]; repeat split; exact Hn|].
    split.
    + intros (K1 & K2 & K3 & K4 & K5 & K6 & K7). unfold schema_keys.
      cbn [users products orders order_items messages with_users].
      repeat split; try assumption.
      * apply NoDup_next_id; [assumption | reflexivity].
      * apply NoDup_app_fresh; [assumption|]. intros u Hin. now apply Hn.
      * apply NoDup_app_fresh; [assumption|]. intros u Hin. now apply He.
    + intros salt'. rewrite find_app_split, F. cbn [find User.username].
      reflexivity.
Qed.

(** *** The admin pages *)

(** The users listed beside the admin's conversations are the users with a
    conversation: a user who is not an admin (and so has another id than
    the admin) is listed exactly when the conversation between the admin
    and that user is not empty. *)
Theorem counterparties_have_conversations (d : DB) (me u : User.t) :
  In u (users d) ->
  User.is_admin u = false ->
  User.id u <> User.id me ->
  (In u (users_with_messages d me)
   <-> conversation d (User.id me) (User.id u) <> []).
Proof.
  intros Hin Hna Hne. unfold users_with_messages.
  rewrite !filter_In, Hna, existsb_exists. split.
  - intros [[_ [m [Hm H]]] _] E.
    assert (Hc : In m (conversation d (User.id me) (User.id u))).
    { apply (proj1 (conversation_spec _ _ _)). split; [exact Hm|].
      unfold sent_by_to. apply andb_prop in H. destruct H as [Hu Hme].
      apply orb_prop in Hu. apply orb_prop in Hme.
      destruct Hu as [Hu | Hu], Hme as [Hme | Hme].
      - right. rewrite Z.eqb_sym in Hu. now rewrite Hu, Hme.
      - exfalso. apply Z.eqb_eq in Hu, Hme. congruence.
      - exfalso. apply opt_eqb_eq in Hu, Hme. congruence.
      - left. now rewrite Hme, Hu. }
    rewrite E in Hc. contradiction.
  - intros Hc. destruct (conversation d (User.id me) (User.id u)) as [|m l] eqn:E;
      [contradiction|].
    assert (Hm : In m (conversation d (User.id me) (User.id u)))
      by (rewrite E; now left).
    apply (proj1 (conversation_spec _ _ _)) in Hm. destruct Hm as [Hm H].
    split; [|reflexivity]. split; [exact Hin|]. exists m. split; [exact Hm|].
    unfold sent_by_to in H. destruct H as [H | H];
      apply andb_prop in H; destruct H as [H1 H2].
    + rewrite H1, H2. now rewrite !orb_true_r.
    + rewrite Z.eqb_sym in H1. now rewrite H1, H2.
Qed.

(** The lists the admin's product, order and user handlers load hold
    every row of their table, once for each row, in the order of the
    names, of the dates with the newest first, and of the usernames; the
    count of pending orders the dashboard handler makes is never more than
    the number of orders, and zero exactly when no order is pending.  For
    an admin none of the four pages is produced: each request ends in the
    server error of the rendering and changes nothing. *)
Theorem admin_pages_show_everything (req : Request) (w : World) :
  (Permutation (products_by_name (db w)) (products (db w))
   /\ ordered (fun x y => String.leb (Product.name x) (Product.name y))
              (products_by_name (db w)))
  /\ (Permutation (orders_newest_first (db w)) (orders (db w))
      /\ ordered (fun x y => Order.order_date y <=? Order.order_date x)
                 (orders_newest_first (db w)))
  /\ (Permutation (users_by_name (db w)) (users (db w))
      /\ ordered (fun x y => String.leb (User.username x) (User.username y))
                 (users_by_name (db w)))
  /\ (0 <= pending_orders (db w) <= Z.of_nat (List.length (orders (db w)))
      /\ (pending_orders (db w) = 0 <->
          forall o, In o (orders (db w)) -> Order.status o <> "Pending"))
  /\ (current_user_is_admin w = true ->
      admin_products req w = (Abort 500, w)
      /\ admin_orders req w = (Abort 500, w)
      /\ admin_users req w = (Abort 500, w)
      /\ admin_dashboard req w = (Abort 500, w)).
Proof.
  split; [|split; [|split; [|split]]].
  - split; [apply sort_by_perm | apply sort_by_key_ordered].
  - split; [apply sort_by_perm | apply sort_by_newest_ordered].
  - split; [apply sort_by_perm | apply sort_by_key_ordered].
  - unfold pending_orders. split.
    + split; [lia|]. apply inj_le. apply filter_length_le.
    + split.
      * intros H o Hin E.
        assert (Hf : In o (filter (fun o => (Order.status o =? "Pending")%string)
                                  (orders (db w)))).
        { apply filter_In. split; [exact Hin | now apply String.eqb_eq]. }
        destruct (filter _ (orders (db w))); [contradiction | discriminate].
      * intros H.
        destruct (filter (fun o => (Order.status o =? "Pending")%string)
                         (orders (db w))) as [|o l] eqn:E; [reflexivity|].
        assert (Hf : In o (filter (fun o => (Order.status o =? "Pending")%string)
                                  (orders (db w)))) by (rewrite E; now left).
        apply filter_In in Hf. destruct Hf as [Hin Hs].
        apply String.eqb_eq in Hs. destruct (H o Hin Hs).
  - intros Ha.
    unfold admin_products, admin_orders, admin_users, admin_dashboard.
    rewrite !(admin_required_admin _ _ _ Ha). cbv zeta.
    now rewrite !render_same.
Qed.

(** *** Sessions *)

Lemma admin_messages_session (user_id : option Z) (form : MessageForm.t)
      (req : Request) (w : World) :
  session (snd (admin_messages user_id form req w)) = session w.
Proof.
  unfold admin_messages, admin_required, login_required.
  destruct (current_user w) as [me|]; [|reflexivity].
  destruct (negb (current_user_is_admin w)); [reflexivity|].
  destruct (select_user_inv user_id me w)
    as [E | [[sel [E _]] | [su [shown [_ E]]]]]; rewrite E;
    [reflexivity | |];
    destruct (validate_on_submit req (MessageForm.validate form));
    try destruct sel; reflexivity.
Qed.

(** Who is logged in changes at the login and logout routes only: every
    other route leaves the session as it was. *)
Theorem session_changes_at_login_logout (r : Route) (req : Request)
        (w : World) :
  (forall form next, r <> R_login form next) ->
  r <> R_logout ->
  session (snd (view_function Email generate_password_hash
                              check_password_hash secure_filename to_float r req w))
  = session w.
Proof.
  intros Hl Ho. destruct r; cbn [view_function];
    try (unfold product_detail, signup, user_profile, messages_page,
         admin_dashboard, admin_products, add_product, edit_product,
         delete_product, admin_orders, update_order_status, admin_users,
         admin_required, login_required;
         branches; reflexivity).
  - destruct (Hl form next eq_refl).
  - destruct (Ho eq_refl).
  - apply admin_messages_session.
Qed.

End Further.

(** ** The shop at work *)

(** C10, at the input where the code departs from it: the admin posts a
    valid message with their own id as [user_id]; the selected user is an
    admin account, and yet a message from the admin to that account is
    stored and a success notice flashed. *)
Example admin_message_to_admin_account_is_stored :
  current_user Demo.as_admin = Some Demo.admin
  /\ get User.id (users Demo.shop) 1 = Some Demo.admin
  /\ User.is_admin Demo.admin = true
  /\ validate_on_submit Demo.post
        (MessageForm.validate (MessageForm.mk "note to self")) = true
  /\ admin_messages (Some 1) (MessageForm.mk "note to self") Demo.post
                    Demo.as_admin
     = (Redirect (To_admin_messages 1),
        flash "Message sent to admin!" "success"
              (with_db Demo.as_admin
                 (with_messages Demo.shop
                    [Demo.hello; Demo.reply;
                     Message.mk 3 1 (Some 1) "note to self" 100 false]))).
Proof.
  split; [reflexivity|]. split; [reflexivity|]. split; [reflexivity|].
  split; reflexivity.
Qed.

(** The price of a product changes after an order for it: the product has
    the new price, the order and its item keep the old one. *)
Example price_change_after_order :
  let w1 := snd (product_detail 1 Demo.order_form Demo.post Demo.as_alice) in
  let w2 := snd (edit_product Demo.secure_filename Demo.to_float 1
                   (ProductForm.mk "Gold Ring" "Ring" "Gold"
                                   (Some (Decimal.Finite 15000 (-2)))
                                   "A plain band")
                   None Demo.post (with_session w1 (Some 1))) in
  map Product.price (products (db w2)) = [150; 45.5]%float
  /\ map Order.total_price (orders (db w2)) = [91; 360]%float
  /\ map OrderItem.price_at_order (order_items (db w2)) = [45.5; 120]%float.
Proof. repeat split; vm_compute; reflexivity. Qed.

(** The shop satisfies the keys of the schema. *)
Example shop_well_keyed : well_keyed Demo.shop.
Proof.
  split; simpl; repeat constructor; simpl; intuition discriminate.
Qed.

(** C2, at an input where the code departs from it: the search text [_]
    is a [LIKE] wildcard, so the listing returns both products of the shop
    although no field of either contains an underscore, that is, although
    neither satisfies the search filter. *)
Example search_underscore_lists_everything :
  all_products (Filters.mk None None None None (Some "_")) Demo.shop
  = [Demo.ring; Demo.chain]
  /\ satisfies (Filters.mk None None None None (Some "_")) Demo.ring = false
  /\ satisfies (Filters.mk None None None None (Some "_")) Demo.chain = false.
Proof. repeat split; vm_compute; reflexivity. Qed.

(** C8, at an input where the claim fails: a visitor posts a valid order
    for the gold ring and is sent to the login page, logs in as alice and is
    sent back to the URL of the product page; the order is not resumed:
    the page the browser then asks for ends in a server error, and the
    tables of orders and order items are as they were before the visit. *)
Example anonymous_order_not_resumed :
  let w1 := snd (product_detail 1 Demo.order_form Demo.post Demo.visitor) in
  let r2 := login Demo.Email Demo.check_password_hash Scene.alice_login
                  (Some (url Demo.post)) Scene.login_post w1 in
  let r3 := product_detail 1 Scene.no_order Scene.follow (snd r2) in
  validate_on_submit Demo.post (OrderForm.validate Demo.order_form) = true
  /\ fst (product_detail 1 Demo.order_form Demo.post Demo.visitor)
     = Redirect (To_login (Some "http://localhost/product/1"))
  /\ fst r2 = Redirect (To_url "http://localhost/product/1")
  /\ current_user (snd r2) = Some Demo.alice
  /\ fst r3 = Abort 500
  /\ orders (db (snd r3)) = [Demo.order1]
  /\ order_items (db (snd r3)) = [Demo.item1].
Proof. repeat split; vm_compute; reflexivity. Qed.

(** The float [0.01] is the fraction the price bound compares with, and a
    price of 0.01 is below it: the form is refused and nothing is added. *)
Example penny_is_refused :
  PrimFloat.div (float_of_int Decimal.float_1_100_mantissa)
                (float_of_int (2 ^ 59)) = 0.01%float
  /\ Decimal.ge_float_1_100 (Decimal.Finite 1 (-2)) = false
  /\ validate_on_submit_raising Demo.post
       (ProductForm.validate Scene.penny_form) = Some false
  /\ add_product Demo.secure_filename Demo.to_float Scene.penny_form
                 (Some (mkFile "charm.png")) Demo.post Demo.as_admin
     = (Abort 500, Demo.as_admin).
Proof. repeat split; vm_compute; reflexivity. Qed.

(** A search text that starts with NUL is an empty pattern between two
    [%]: every product is listed. *)
Example nul_search_lists_everything :
  all_products Scene.nul_search Demo.shop = [Demo.ring; Demo.chain].
Proof. vm_compute. reflexivity. Qed.

(** An id beyond the 64-bit integers ends in a server error, not in 404. *)
Example huge_id_is_server_error :
  product_detail (2 ^ 63) Demo.order_form Demo.post Demo.as_alice
  = (Abort 500, Demo.as_alice)
  /\ snd (admin_messages (Some (2 ^ 63)) Scene.question Demo.post Demo.as_admin)
     = Demo.as_admin.
Proof. split; vm_compute; reflexivity. Qed.

(** The scenario of the specification: a price of 120.00 and a quantity of
    3 make a total of 360.00 and one item of quantity 3 at 120.00. *)
Lemma place_order_snapshot_witness :
  exists order item,
    db (snd (product_detail 1 Demo.order_form Demo.post Demo.as_alice))
    = with_order_items
        (with_orders Demo.shop (orders Demo.shop ++ [order]))
        (order_items Demo.shop ++ [item])
    /\ Order.total_price order = 360%float
    /\ OrderItem.quantity item = 3
    /\ OrderItem.price_at_order item = 120%float.
Proof.
  destruct (place_order_snapshot
              Demo.Email Demo.generate_password_hash Demo.check_password_hash
              Demo.secure_filename Demo.to_float 1 Demo.order_form Demo.post Demo.as_alice
              Demo.alice Demo.ring eq_refl eq_refl eq_refl)
    as (q & order & item & Hq & _ & Hdb & Ht & _ & _ & _ & Hn & Hp & _).
  vm_compute in Hq. injection Hq as <-.
  exists order, item. split; [exact Hdb|]. split; [|split].
  - rewrite Ht. reflexivity.
  - exact Hn.
  - rewrite Hp. reflexivity.
Defined.

Lemma admin_routes_refuse_non_admin_witness :
  view_function Demo.Email Demo.generate_password_hash
                Demo.check_password_hash Demo.secure_filename Demo.to_float
                R_admin_users Demo.fetch Demo.as_alice
  = (Redirect To_home,
     flash "You do not have permission to access this page." "danger"
           Demo.as_alice).
Proof.
  exact (proj2 (admin_routes_refuse_non_admin
                  Demo.Email Demo.generate_password_hash
                  Demo.check_password_hash Demo.secure_filename Demo.to_float
                  Demo.fetch Demo.as_alice Demo.alice eq_refl eq_refl)
               R_admin_users eq_refl).
Defined.

(** The scenario of the specification, on an order that is Shipped:
    Delivered is accepted, Lost is refused and changes nothing. *)
Lemma update_order_status_spec_witness :
  get Order.id
      (orders (db (snd (update_order_status 1 (Some "Delivered") Demo.post
                                            Demo.as_admin)))) 1
  = Some (Order.set_status Demo.order1 "Delivered")
  /\ db (snd (update_order_status 1 (Some "Lost") Demo.post Demo.as_admin))
     = Demo.shop.
Proof.
  split.
  - apply (proj1 (update_order_status_spec 1 (Some "Delivered") Demo.post
                    Demo.as_admin Demo.order1 eq_refl eq_refl)
                 "Delivered" eq_refl).
    simpl. auto.
  - apply (proj2 (update_order_status_spec 1 (Some "Lost") Demo.post
                    Demo.as_admin Demo.order1 eq_refl eq_refl)).
    intros s H. injection H as <-. simpl.
    intros [H | [H | [H | [H | [H | []]]]]]; discriminate H.
Defined.

Lemma login_iff_credentials_witness :
  login Demo.Email Demo.check_password_hash
        (LoginForm.mk "alice@example.com" "wonderland")
        (Some "http://localhost/product/1") Demo.post Demo.visitor
  = (Redirect (To_url "http://localhost/product/1"),
     flash "Login successful!" "success" (login_user Demo.alice Demo.visitor)).
Proof.
  refine (proj1 (proj2 (login_iff_credentials
                          Demo.Email Demo.check_password_hash
                          (LoginForm.mk "alice@example.com" "wonderland")
                          (Some "http://localhost/product/1") Demo.post
                          Demo.visitor eq_refl)
                       eq_refl _ Demo.alice _ eq_refl _)).
  - simpl. repeat constructor; simpl; intuition discriminate.
  - simpl. auto.
  - exists "cl$wonderland". split; reflexivity.
Defined.

Lemma signup_rejects_duplicate_witness :
  db (snd (signup Demo.Email Demo.generate_password_hash
                  (RegistrationForm.mk "alice" "other@example.com"
                                       "looking-glass" "looking-glass")
                  Demo.post Demo.visitor))
  = Demo.shop.
Proof.
  refine (proj1 (signup_rejects_duplicate
                   Demo.Email Demo.generate_password_hash
                   (RegistrationForm.mk "alice" "other@example.com"
                                        "looking-glass" "looking-glass")
                   Demo.post Demo.visitor Demo.alice _ _)).
  - simpl. auto.
  - left. reflexivity.
Defined.

(** C9, at an input where the code departs from it: an admin posts a valid
    product form with the file [pearl.bmp]; no product is created, but the
    form is not shown again and the warning is lost. *)
Lemma add_product_requires_image_witness :
  validate_on_submit_raising Demo.post (ProductForm.validate Scene.pearl_form)
  = Some true
  /\ add_product Demo.secure_filename Demo.to_float Scene.pearl_form
                 (Some (mkFile "pearl.bmp")) Demo.post Demo.as_admin
     = (Abort 500, Demo.as_admin).
Proof.
  split; [reflexivity|].
  refine (proj2 (proj2 (add_product_requires_image
                          Demo.secure_filename Demo.to_float Scene.pearl_form
                          (Some (mkFile "pearl.bmp")) Demo.post Demo.as_admin)
                       _)
                eq_refl eq_refl).
  right. exists (mkFile "pearl.bmp"). split; [reflexivity|]. right.
  intros ext H. vm_compute in H. injection H as <-. simpl.
  intros [H | [H | [H | [H | []]]]]; discriminate H.
Defined.

Lemma anonymous_order_deferred_witness :
  product_detail 1 Demo.order_form Demo.post Demo.visitor
  = (Redirect (To_login (Some "http://localhost/product/1")),
     flash "Please log in to place an order." "info" Demo.visitor).
Proof.
  exact (proj1 (proj2 (anonymous_order_deferred
                         Demo.Email Demo.check_password_hash 1 Demo.order_form
                         Demo.post Demo.visitor eq_refl))
               Demo.ring eq_refl eq_refl).
Defined.

Lemma admin_view_marks_read_witness :
  messages (db (snd (admin_messages (Some 2) (MessageForm.mk "") Demo.fetch
                                    Demo.as_admin)))
  = [Message.mk 1 2 (Some 1) "Hello" 40 true; Demo.reply].
Proof.
  destruct (admin_view_marks_read 2 (MessageForm.mk "") Demo.fetch
              Demo.as_admin Demo.admin Demo.alice eq_refl eq_refl)
    as (sent & Hm & Hnone & _).
  - discriminate.
  - reflexivity.
  - reflexivity.
  - simpl. repeat constructor; simpl; intuition discriminate.
  - rewrite Hm, (Hnone eq_refl). reflexivity.
Defined.

(** ** The further properties at work *)

Lemma listing_alphabetical_witness :
  Permutation (all_products Scene.no_filter Demo.shop) (products Demo.shop).
Proof.
  apply (proj2 (proj2 (listing_alphabetical Scene.no_filter Demo.shop))).
  unfold unfiltered. simpl. repeat split; intros; discriminate.
Defined.

Lemma all_products_spec_witness :
  In Demo.ring (all_products Scene.gold Demo.shop).
Proof.
  refine (proj2 (all_products_spec Scene.gold Demo.shop Demo.ring _ eq_refl) _).
  - intros q H. injection H as <-. reflexivity.
  - split; [simpl; auto | reflexivity].
Defined.

Lemma user_message_page_witness :
  fst (messages_page Scene.question Demo.post Demo.as_alice)
  = Redirect To_messages.
Proof.
  destruct (user_message_page Scene.question Demo.post Demo.as_alice
                              Demo.alice Demo.admin eq_refl eq_refl)
    as [_ [_ H]].
  destruct (H eq_refl) as [E _]. rewrite E. reflexivity.
Defined.

Lemma messaging_needs_admin_witness :
  messages_page Scene.question Demo.post Scene.unattended
  = (Redirect To_home,
     flash "Admin user not found. Messaging not available." "danger"
           Scene.unattended).
Proof.
  apply (messaging_needs_admin Scene.question Demo.post Scene.unattended
                               Demo.alice eq_refl).
  intros u [<- | []]. reflexivity.
Defined.

Lemma profile_shows_own_orders_witness :
  user_profile Demo.fetch Demo.as_alice = (Abort 500, Demo.as_alice)
  /\ In Demo.order1 (user_orders Demo.shop Demo.alice).
Proof.
  destruct (profile_shows_own_orders Demo.fetch Demo.as_alice Demo.alice
                                     eq_refl) as (E & H & _).
  split; [exact E|]. apply H. split; [simpl; auto | reflexivity].
Defined.

Lemma protected_routes_ask_login_witness :
  exists next,
    view_function Demo.Email Demo.generate_password_hash
                  Demo.check_password_hash Demo.secure_filename Demo.to_float
                  R_user_profile Demo.fetch Demo.visitor
    = (Redirect (To_login next),
       flash "Please log in to access this page." "info" Demo.visitor).
Proof.
  exact (protected_routes_ask_login
           Demo.Email Demo.generate_password_hash Demo.check_password_hash
           Demo.secure_filename Demo.to_float R_user_profile Demo.fetch Demo.visitor
           eq_refl eq_refl).
Defined.

Lemma signup_creates_user_witness :
  users (db (snd (signup Demo.Email Demo.generate_password_hash
                         Scene.bob_form Demo.post Demo.visitor)))
  = [Demo.admin; Demo.alice;
     User.mk 3 "bob" "bob@example.com" (Some "pepper$builder1") false].
Proof.
  destruct (signup_creates_user Demo.Email Demo.generate_password_hash
                                Scene.bob_form Demo.post Demo.visitor
                                eq_refl eq_refl) as (E & _).
  rewrite E. reflexivity.
Defined.

Lemma signup_then_login_witness :
  exists user,
    fst (login Demo.Email Demo.check_password_hash
               (LoginForm.mk "bob@example.com" "builder1") None Demo.post
               (snd (signup Demo.Email Demo.generate_password_hash
                            Scene.bob_form Demo.post Demo.visitor)))
    = Redirect To_home
    /\ User.username user = "bob".
Proof.
  destruct (signup_then_login Demo.Email Demo.generate_password_hash
                              Demo.check_password_hash Scene.bob_form
                              Demo.post Demo.post None Demo.visitor
                              eq_refl eq_refl eq_refl eq_refl eq_refl)
    as (user & E & _ & Hn & _).
  exists user. split; [|exact Hn].
  change (LoginForm.mk "bob@example.com" "builder1")
    with (LoginForm.mk (RegistrationForm.email Scene.bob_form)
                       (RegistrationForm.password Scene.bob_form)).
  rewrite E. reflexivity.
Defined.

Lemma non_admin_only_adds_witness :
  products (db (snd (product_detail 1 Demo.order_form Demo.post Demo.as_alice)))
  = products Demo.shop.
Proof.
  exact (proj1 (non_admin_only_adds
                  Demo.Email Demo.generate_password_hash
                  Demo.check_password_hash Demo.secure_filename Demo.to_float
                  (R_product_detail 1 Demo.order_form) Demo.post
                  Demo.as_alice eq_refl)).
Defined.

Lemma anonymous_only_signs_up_witness :
  upload_folder
    (snd (product_detail 1 Demo.order_form Demo.post Demo.visitor))
  = upload_folder Demo.visitor.
Proof.
  exact (proj1 (anonymous_only_signs_up
                  Demo.Email Demo.generate_password_hash
                  Demo.check_password_hash Demo.secure_filename Demo.to_float
                  (R_product_detail 1 Demo.order_form) Demo.post
                  Demo.visitor eq_refl)).
Defined.

Lemma shop_schema_keys : schema_keys Demo.shop.
Proof.
  unfold schema_keys. simpl.
  repeat split; repeat constructor; simpl; intuition discriminate.
Defined.

Lemma shop_references : references_hold Demo.shop.
Proof.
  unfold references_hold, is_user. simpl. split; [|split].
  - intros o [<- | []]. simpl. auto.
  - intros i [<- | []]. simpl. auto.
  - intros m [<- | [<- | []]]; simpl; (split; [auto|]);
      intros k H; injection H as <-; auto.
Defined.

Lemma shop_statuses : statuses_valid Demo.shop.
Proof.
  unfold statuses_valid. simpl. intros o [<- | []]. simpl. auto.
Defined.

Lemma serve_keeps_schema_keys_witness :
  schema_keys (db (serve Demo.Email Demo.generate_password_hash
                         Demo.check_password_hash Demo.secure_filename Demo.to_float
                         Scene.visit Demo.as_alice)).
Proof.
  exact (serve_keeps_schema_keys
           Demo.Email Demo.generate_password_hash Demo.check_password_hash
           Demo.secure_filename Demo.to_float Scene.visit Demo.as_alice shop_schema_keys).
Defined.

Lemma serve_keeps_references_witness :
  references_hold (db (serve Demo.Email Demo.generate_password_hash
                             Demo.check_password_hash Demo.secure_filename Demo.to_float
                             Scene.visit Demo.as_alice)).
Proof.
  exact (serve_keeps_references
           Demo.Email Demo.generate_password_hash Demo.check_password_hash
           Demo.secure_filename Demo.to_float Scene.visit Demo.as_alice shop_references).
Defined.

Lemma serve_keeps_statuses_witness :
  statuses_valid (db (serve Demo.Email Demo.generate_password_hash
                            Demo.check_password_hash Demo.secure_filename Demo.to_float
                            Scene.visit Demo.as_alice)).
Proof.
  exact (serve_keeps_statuses
           Demo.Email Demo.generate_password_hash Demo.check_password_hash
           Demo.secure_filename Demo.to_float Scene.visit Demo.as_alice shop_statuses).
Defined.

Lemma login_identifies_user_witness :
  In Demo.alice (users Demo.shop)
  /\ User.email Demo.alice = "alice@example.com"
  /\ exists h, User.password_hash Demo.alice = Some h
               /\ Demo.check_password_hash h "wonderland" = true.
Proof.
  refine (login_identifies_user
            Demo.Email Demo.check_password_hash
            (LoginForm.mk "alice@example.com" "wonderland")
            None Demo.post Demo.visitor Demo.alice
            eq_refl _ eq_refl).
  simpl. repeat constructor; simpl; intuition discriminate.
Defined.


Lemma delete_product_removes_witness :
  ~ In Demo.ring (products (db (snd (delete_product 1 Demo.post Demo.as_admin))))
  /\ ~ In "ring.png"
          (upload_folder (snd (delete_product 1 Demo.post Demo.as_admin))).
Proof.
  assert (H : forall i, In i (order_items (db Demo.as_admin)) ->
                        OrderItem.product_id i <> 1).
  { intros i [<- | []]. discriminate. }
  destruct (delete_product_removes 1 Demo.post Demo.as_admin Demo.ring
                                   eq_refl eq_refl H)
    as (_ & Hp & _ & Hf & _).
  split.
  - intros Hin. apply Hp in Hin. destruct Hin as [_ Hne]. now apply Hne.
  - apply (Hf "ring.png" eq_refl). discriminate.
Defined.

Lemma edit_product_spec_witness :
  exists p',
    get Product.id
        (products (db (snd (edit_product Demo.secure_filename Demo.to_float 1
                                         Scene.pearl_form None Demo.post
                                         Demo.as_admin)))) 1
    = Some p'
    /\ Product.name p' = "Pearl Drop"
    /\ Product.image_filename p' = Some "ring.png".
Proof.
  destruct (edit_product_spec Demo.secure_filename Demo.to_float 1 Scene.pearl_form None
                              Demo.post Demo.as_admin Demo.ring
                              eq_refl eq_refl eq_refl)
    as (_ & H & _).
  destruct H as (p' & G & _ & N & _ & _ & _ & _ & _ & I & _).
  - intros f [E _]. discriminate E.
  - exists p'. split; [exact G|]. split; [exact N|].
    apply I. intros f [E _]. discriminate E.
Defined.

Lemma add_product_creates_witness :
  exists p,
    products (db (snd (add_product Demo.secure_filename Demo.to_float Scene.pearl_form
                                   (Some (mkFile "pearl.JPG")) Demo.post
                                   Demo.as_admin)))
    = [Demo.ring; Demo.chain; p]
    /\ Product.image_filename p = Some "pearl.JPG".
Proof.
  destruct (add_product_creates Demo.secure_filename Demo.to_float Scene.pearl_form
                                (mkFile "pearl.JPG") Demo.post Demo.as_admin
                                eq_refl eq_refl)
    as (p & _ & E & _ & _ & _ & _ & _ & _ & _ & _ & I & _).
  - discriminate.
  - reflexivity.
  - exists p. split; [now rewrite E | exact I].
Defined.

Lemma allowed_file_last_extension_witness :
  allowed_file "photo.png.exe" = false
  /\ allowed_file "photo.exe.PNG" = true
  /\ allowed_file "png" = false.
Proof.
  split; [|split].
  - exact (proj1 (allowed_file_last_extension "photo.png" "exe" "") eq_refl).
  - exact (proj1 (allowed_file_last_extension "photo.exe" "PNG" "") eq_refl).
  - exact (proj2 (allowed_file_last_extension "" "" "png") eq_refl).
Defined.

Lemma create_tables_seeds_once_witness :
  create_tables Demo.generate_password_hash "salt"
    (with_users Scene.empty_db
       [User.mk 1 "admin" "admin@mdcreations.com"
                (Some "pepper$adminpassword") true])
  = Some (with_users Scene.empty_db
            [User.mk 1 "admin" "admin@mdcreations.com"
                     (Some "pepper$adminpassword") true]).
Proof.
  exact (proj2 (proj2 (proj2 (proj2 (proj2 (proj2 (proj2
           (create_tables_seeds_once
              Demo.generate_password_hash "pepper" Scene.empty_db _
              eq_refl)))))))
         "salt").
Defined.

Lemma counterparties_have_conversations_witness :
  In Demo.alice (users_with_messages Demo.shop Demo.admin).
Proof.
  apply (counterparties_have_conversations Demo.shop Demo.admin Demo.alice).
  - simpl. auto.
  - reflexivity.
  - discriminate.
  - discriminate.
Defined.

Lemma admin_pages_show_everything_witness :
  admin_orders Demo.fetch Demo.as_admin = (Abort 500, Demo.as_admin)
  /\ Permutation (orders_newest_first Demo.shop) [Demo.order1].
Proof.
  destruct (admin_pages_show_everything Demo.fetch Demo.as_admin)
    as (_ & (P & _) & _ & _ & H).
  split; [exact (proj1 (proj2 (H eq_refl))) | exact P].
Defined.

Lemma session_changes_at_login_logout_witness :
  session (snd (signup Demo.Email Demo.generate_password_hash Scene.bob_form
                       Demo.post Demo.visitor))
  = None.
Proof.
  refine (session_changes_at_login_logout
            Demo.Email Demo.generate_password_hash Demo.check_password_hash
            Demo.secure_filename Demo.to_float (R_signup Scene.bob_form) Demo.post
            Demo.visitor _ _); intros; discriminate.
Defined.

Lemma admin_message_without_user_witness :
  snd (admin_messages None Scene.question Demo.post Demo.as_admin)
  = Demo.as_admin.
Proof.
  apply (admin_message_without_user None Scene.question Demo.post
                                    Demo.as_admin eq_refl).
  now left.
Defined.
